(** * KNoT value proxy (core/src/proxy.c): shallow embedding and verification

    The proxy keeps one [knot_proxy] record per data item in the fixed array
    [proxy_pool] and decides, on every value reported by the application,
    whether the value has to be sent.  The C code is embedded as pure
    functions over explicit state:

    - fixed-width integers are [Z] with the wrap-around written out;
    - the [knot_value_type] union is its object representation, a list of
      bytes read through the views [val_b], [val_i], [val_f] and [raw];
    - [float] is an IEEE-754 binary32 bit pattern, compared through
      [SpecFloat];
    - a [struct knot_proxy *] is either [None] (NULL) or the pointed record;
    - behaviour that C leaves undefined (reading outside [proxy_pool],
      [va_arg] past the supplied arguments, [memcpy] with a negative length,
      [memcmp] or [memcpy] reading past the end of an object) is the result
      [None]. *)

From Stdlib Require Import ZArith Lia Bool List String Ascii.
From Stdlib Require Import Floats.SpecFloat.
From stdpp Require Import base tactics option list.

Local Open Scope Z_scope.

(** ** Fixed-width integers *)

Definition u8 (x : Z) : Z := x mod 2^8.
Definition u16 (x : Z) : Z := x mod 2^16.
Definition u32 (x : Z) : Z := x mod 2^32.
Definition s8 (x : Z) : Z := (x + 2^7) mod 2^8 - 2^7.
Definition s32 (x : Z) : Z := (x + 2^31) mod 2^32 - 2^31.

(** [MIN(a, b)] of proxy.c. *)
Definition MIN (a b : Z) : Z := if a <? b then a else b.

(** ** Memory objects: little-endian byte lists

    Both boards named in multisensor.c (nRF52840, qemu_x86) are
    little-endian. *)

Definition mem := list Z.

Definition load8 (m : mem) (i : nat) : Z := u8 (nth i m 0).

Definition load32 (m : mem) : Z :=
  load8 m 0 + 2^8 * load8 m 1 + 2^16 * load8 m 2 + 2^24 * load8 m 3.

Definition bytes32 (w : Z) : mem :=
  [u8 w; u8 (w / 2^8); u8 (w / 2^16); u8 (w / 2^24)].

(** [memcpy(dst, src, n)]: the first [n] bytes of [dst] are replaced. *)
Definition memcpy (dst src : mem) (n : nat) : mem := take n src ++ drop n dst.

(** [memcmp(a, b, n) != 0]; undefined when [n] bytes are not there to be
    read in either object. *)
Definition memcmp_ne (a b : mem) (n : nat) : option bool :=
  if (length a <? n)%nat || (length b <? n)%nat then None
  else Some (negb (bool_decide (map u8 (take n a) = map u8 (take n b)))).

Definition store32 (m : mem) (w : Z) : mem := memcpy m (bytes32 w) 4.

(** ** IEEE-754 binary32 *)

Definition float32 := Z.

Definition f32_prec : Z := 24.
Definition f32_emax : Z := 128.

Definition f32_decode (b : float32) : spec_float :=
  let w := u32 b in
  let s := 0 <? w / 2^31 in
  let e := (w / 2^23) mod 2^8 in
  let m := w mod 2^23 in
  if e =? 255 then (if m =? 0 then S754_infinity s else S754_nan)
  else if e =? 0 then (if m =? 0 then S754_zero s else S754_finite s (Z.to_pos m) (-149))
  else S754_finite s (Z.to_pos (m + 2^23)) (e - 150).

Definition f32_encode (f : spec_float) : float32 :=
  match f with
  | S754_zero s => Z.b2z s * 2^31
  | S754_infinity s => Z.b2z s * 2^31 + 255 * 2^23
  | S754_nan => 255 * 2^23 + 2^22
  | S754_finite s m e =>
      if Z.pos m <? 2^23 then Z.b2z s * 2^31 + Z.pos m
      else Z.b2z s * 2^31 + (e + 150) * 2^23 + (Z.pos m - 2^23)
  end.

(** Conversion of an [int] operand to [float] (usual arithmetic
    conversions), round to nearest even. *)
Definition f32_of_int (x : Z) : spec_float :=
  binary_normalize f32_prec f32_emax x 0 false.

(** [(float) d] for a [double] variadic argument. *)
Definition f32_of_double (d : spec_float) : spec_float :=
  match d with
  | S754_finite s m e => binary_round f32_prec f32_emax s m e
  | _ => d
  end.

Definition SFneb (a b : spec_float) : bool := negb (SFeqb a b).
Definition SFgtb (a b : spec_float) : bool := SFltb b a.

(** ** Data model *)

(** Modelled from the spec: the value kinds of knot_protocol.h, which is not
    among the sources ([value_kind] is one of Bool, Int32, Float32, Raw).
    The [switch] statements of proxy.c distinguish these four; any other
    [u8_t] code takes the [default] branch. *)
Inductive knot_value_kind :=
  | KNOT_VALUE_TYPE_INT
  | KNOT_VALUE_TYPE_FLOAT
  | KNOT_VALUE_TYPE_BOOL
  | KNOT_VALUE_TYPE_RAW
  | KNOT_VALUE_TYPE_OTHER (code : Z).

Definition is_raw (k : knot_value_kind) : bool :=
  match k with KNOT_VALUE_TYPE_RAW => true | _ => false end.

(** Modelled from the spec: the event flags of knot_protocol.h, which is not
    among the sources ([event_flags] is a set of OnChange, OnTimer,
    OnUpperThreshold, OnLowerThreshold).  They are distinct single bits of
    the [u8_t] mask, [KNOT_EVT_FLAG_NONE] being the empty mask, with the
    values of the KNoT protocol. *)
Definition KNOT_EVT_FLAG_NONE : Z := 0x00.
Definition KNOT_EVT_FLAG_TIME : Z := 0x01.
Definition KNOT_EVT_FLAG_LOWER_THRESHOLD : Z := 0x02.
Definition KNOT_EVT_FLAG_UPPER_THRESHOLD : Z := 0x04.
Definition KNOT_EVT_FLAG_CHANGE : Z := 0x08.

(** [flag & event_flags] used as a condition. *)
Definition has_flag (flag event_flags : Z) : bool :=
  negb (Z.land flag event_flags =? 0).

(** Modelled from the spec: errno.h is not among the sources; the
    transport-facing functions return [-EINVAL] for an unknown channel. *)
Definition EINVAL : Z := 22.

(** Modelled from the spec: the union [knot_value_type] of knot_types.h,
    which is not among the sources (Bool, Int32, Float32 and Raw values
    sharing one representation).  It is its bytes, shared by all members:
    [val_b] is the first byte, [val_i] and [val_f] the first four, [raw]
    all of them. *)
Definition knot_value_type := mem.

Definition val_b (v : knot_value_type) : bool := negb (load8 v 0 =? 0).
Definition val_i (v : knot_value_type) : Z := s32 (load32 v).
Definition val_f (v : knot_value_type) : float32 := load32 v.
Definition raw (v : knot_value_type) : mem := v.

Definition set_val_b (v : knot_value_type) (b : bool) : knot_value_type :=
  memcpy v [Z.b2z b] 1.
Definition set_val_i (v : knot_value_type) (x : Z) : knot_value_type :=
  store32 v (u32 x).
Definition set_val_f (v : knot_value_type) (f : float32) : knot_value_type :=
  store32 v (u32 f).

(** Modelled from the spec: [knot_schema] and [knot_config] of knot_types.h,
    with the fields proxy.c uses. *)
Record knot_schema := {
  type_id : Z;
  schema_unit : Z;
  value_type : knot_value_kind;
  name : mem
}.

Record knot_config := {
  event_flags : Z;
  time_sec : Z;
  lower_limit : knot_value_type;
  upper_limit : knot_value_type
}.

(** A [knot_callback_t] is a code address; NULL is [None]. *)
Definition knot_callback_t := option nat.

Record knot_proxy := {
  id : Z;
  schema : knot_schema;
  value : knot_value_type;
  send : bool;
  wait_resp : bool;
  upper_flag : bool;
  lower_flag : bool;
  olen : Z;
  rlen : Z;
  config : knot_config;
  last_timeout : Z;
  poll_cb : knot_callback_t;
  changed_cb : knot_callback_t
}.

(** Field assignments [proxy->f = x]; the [u8_t] and [u32_t] fields convert
    what is assigned. *)
Definition set_value (x : knot_value_type) (p : knot_proxy) : knot_proxy :=
  {| id := id p; schema := schema p; value := x; send := send p;
     wait_resp := wait_resp p; upper_flag := upper_flag p;
     lower_flag := lower_flag p; olen := olen p; rlen := rlen p;
     config := config p; last_timeout := last_timeout p;
     poll_cb := poll_cb p; changed_cb := changed_cb p |}.

Definition set_send (x : bool) (p : knot_proxy) : knot_proxy :=
  {| id := id p; schema := schema p; value := value p; send := x;
     wait_resp := wait_resp p; upper_flag := upper_flag p;
     lower_flag := lower_flag p; olen := olen p; rlen := rlen p;
     config := config p; last_timeout := last_timeout p;
     poll_cb := poll_cb p; changed_cb := changed_cb p |}.

Definition set_wait_resp (x : bool) (p : knot_proxy) : knot_proxy :=
  {| id := id p; schema := schema p; value := value p; send := send p;
     wait_resp := x; upper_flag := upper_flag p;
     lower_flag := lower_flag p; olen := olen p; rlen := rlen p;
     config := config p; last_timeout := last_timeout p;
     poll_cb := poll_cb p; changed_cb := changed_cb p |}.

Definition set_upper_flag (x : bool) (p : knot_proxy) : knot_proxy :=
  {| id := id p; schema := schema p; value := value p; send := send p;
     wait_resp := wait_resp p; upper_flag := x;
     lower_flag := lower_flag p; olen := olen p; rlen := rlen p;
     config := config p; last_timeout := last_timeout p;
     poll_cb := poll_cb p; changed_cb := changed_cb p |}.

Definition set_lower_flag (x : bool) (p : knot_proxy) : knot_proxy :=
  {| id := id p; schema := schema p; value := value p; send := send p;
     wait_resp := wait_resp p; upper_flag := upper_flag p;
     lower_flag := x; olen := olen p; rlen := rlen p;
     config := config p; last_timeout := last_timeout p;
     poll_cb := poll_cb p; changed_cb := changed_cb p |}.

Definition set_olen (x : Z) (p : knot_proxy) : knot_proxy :=
  {| id := id p; schema := schema p; value := value p; send := send p;
     wait_resp := wait_resp p; upper_flag := upper_flag p;
     lower_flag := lower_flag p; olen := u8 x; rlen := rlen p;
     config := config p; last_timeout := last_timeout p;
     poll_cb := poll_cb p; changed_cb := changed_cb p |}.

Definition set_rlen (x : Z) (p : knot_proxy) : knot_proxy :=
  {| id := id p; schema := schema p; value := value p; send := send p;
     wait_resp := wait_resp p; upper_flag := upper_flag p;
     lower_flag := lower_flag p; olen := olen p; rlen := u8 x;
     config := config p; last_timeout := last_timeout p;
     poll_cb := poll_cb p; changed_cb := changed_cb p |}.

Definition set_config (x : knot_config) (p : knot_proxy) : knot_proxy :=
  {| id := id p; schema := schema p; value := value p; send := send p;
     wait_resp := wait_resp p; upper_flag := upper_flag p;
     lower_flag := lower_flag p; olen := olen p; rlen := rlen p;
     config := x; last_timeout := last_timeout p;
     poll_cb := poll_cb p; changed_cb := changed_cb p |}.

Definition set_last_timeout (x : Z) (p : knot_proxy) : knot_proxy :=
  {| id := id p; schema := schema p; value := value p; send := send p;
     wait_resp := wait_resp p; upper_flag := upper_flag p;
     lower_flag := lower_flag p; olen := olen p; rlen := rlen p;
     config := config p; last_timeout := u32 x;
     poll_cb := poll_cb p; changed_cb := changed_cb p |}.

(** The module state: the static array [proxy_pool] (its length is
    [CONFIG_KNOT_THING_DATA_MAX]) and the static [last_id]. *)
Record knot_state := {
  proxy_pool : list knot_proxy;
  last_id : Z
}.

(** [proxy->schema.name]. *)
Definition stored_name (p : knot_proxy) : mem := name (schema p).

(** [proxy->config.upper_limit] and [proxy->config.lower_limit]. *)
Definition stored_upper_limit (p : knot_proxy) : knot_value_type :=
  upper_limit (config p).
Definition stored_lower_limit (p : knot_proxy) : knot_value_type :=
  lower_limit (config p).

(** [!ptr] for a pointer argument. *)
Definition is_null {A} (o : option A) : bool :=
  match o with None => true | Some _ => false end.

Definition pool_size (st : knot_state) : Z := Z.of_nat (length (proxy_pool st)).

Definition slot (st : knot_state) (i : Z) : option knot_proxy :=
  proxy_pool st !! Z.to_nat i.

Definition set_slot (st : knot_state) (i : Z) (p : knot_proxy) : knot_state :=
  {| proxy_pool := <[Z.to_nat i := p]> (proxy_pool st); last_id := last_id st |}.

(** ** The event checks (macros of proxy.c) *)

Definition check_bool_change (proxy : knot_proxy) (bval : bool) : bool :=
  has_flag KNOT_EVT_FLAG_CHANGE (event_flags (config proxy))
  && negb (Bool.eqb bval (val_b (value proxy))).

Definition check_int_change (proxy : knot_proxy) (s32val : Z) : bool :=
  has_flag KNOT_EVT_FLAG_CHANGE (event_flags (config proxy))
  && negb (s32val =? val_i (value proxy)).

(** [check_int_change(proxy, fval)] with a [float] operand, as the FLOAT case
    of [knot_proxy_value_set_basic] expands it: [fval != proxy->value.val_i]
    converts the [s32_t] member to [float] and compares floats. *)
Definition check_int_change_fval (proxy : knot_proxy) (fval : float32) : bool :=
  has_flag KNOT_EVT_FLAG_CHANGE (event_flags (config proxy))
  && SFneb (f32_decode fval) (f32_of_int (val_i (value proxy))).

Definition check_int_upper_threshold (proxy : knot_proxy) (s32val : Z) : bool :=
  has_flag KNOT_EVT_FLAG_UPPER_THRESHOLD (event_flags (config proxy))
  && (val_i (upper_limit (config proxy)) <? s32val).

Definition check_int_lower_threshold (proxy : knot_proxy) (s32val : Z) : bool :=
  has_flag KNOT_EVT_FLAG_LOWER_THRESHOLD (event_flags (config proxy))
  && (s32val <? val_i (lower_limit (config proxy))).

(** Defined in proxy.c and used nowhere. *)
Definition check_float_change (proxy : knot_proxy) (fval : float32) : bool :=
  has_flag KNOT_EVT_FLAG_CHANGE (event_flags (config proxy))
  && SFneb (f32_decode fval) (f32_decode (val_f (value proxy))).

Definition check_float_upper_threshold (proxy : knot_proxy) (fval : float32) : bool :=
  has_flag KNOT_EVT_FLAG_UPPER_THRESHOLD (event_flags (config proxy))
  && SFgtb (f32_decode fval) (f32_decode (val_f (upper_limit (config proxy)))).

Definition check_float_lower_threshold (proxy : knot_proxy) (fval : float32) : bool :=
  has_flag KNOT_EVT_FLAG_LOWER_THRESHOLD (event_flags (config proxy))
  && SFltb (f32_decode fval) (f32_decode (val_f (lower_limit (config proxy)))).

(** [&&] and [||] evaluate [memcmp] only if OnChange is set and the
    lengths are equal; its third parameter is a [size_t]. *)
Definition check_raw_change (proxy : knot_proxy) (rawval : mem) (rawlen : Z)
    : option bool :=
  if negb (has_flag KNOT_EVT_FLAG_CHANGE (event_flags (config proxy)))
  then Some false
  else if negb (rlen proxy =? rawlen) then Some true
  else if rawlen <? 0 then None
  else memcmp_ne (raw (value proxy)) rawval (Z.to_nat rawlen).

(** ** Timer check

    [now] is what [k_uptime_get()] returns, in milliseconds. *)
Definition check_timeout (now : Z) (proxy : knot_proxy) : bool * knot_proxy :=
  if negb (has_flag KNOT_EVT_FLAG_TIME (event_flags (config proxy)))
  then (false, proxy)
  else
    let current_time := u32 now in
    let elapsed_time := u32 (current_time - last_timeout proxy) in
    if u32 (time_sec (config proxy) * 1000) <=? elapsed_time
    then (true, set_last_timeout current_time proxy)
    else (false, proxy).

(** ** Setting a basic value

    [pvalue] is the object the [const void *value] points to, read through
    the view the channel's kind selects. *)
Definition knot_proxy_value_set_basic (now : Z) (proxy : option knot_proxy)
    (pvalue : mem) : bool * option knot_proxy :=
  match proxy with
  | None => (false, None)
  | Some proxy =>
    let '(timeout, proxy) := check_timeout now proxy in
    match value_type (schema proxy) with
    | KNOT_VALUE_TYPE_BOOL =>
      let bval := val_b pvalue in
      let change := check_bool_change proxy bval in
      if send proxy || timeout || change then
        let proxy := set_olen 1 proxy in
        let proxy := set_value (set_val_b (value proxy) bval) proxy in
        let proxy := set_send (wait_resp proxy) proxy in
        (true, Some proxy)
      else (false, Some proxy)
    | KNOT_VALUE_TYPE_INT =>
      let s32val := val_i pvalue in
      let change := check_int_change proxy s32val in
      let upper := check_int_upper_threshold proxy s32val in
      let lower := check_int_lower_threshold proxy s32val in
      let '(ret, proxy) :=
        if send proxy || timeout || change
           || (upper && Bool.eqb (upper_flag proxy) false)
           || (lower && Bool.eqb (lower_flag proxy) false)
        then
          let proxy := set_olen 4 proxy in
          let proxy := set_value (set_val_i (value proxy) s32val) proxy in
          let proxy := set_send (wait_resp proxy) proxy in
          (true, proxy)
        else (false, proxy) in
      let proxy := set_upper_flag upper proxy in
      let proxy := set_lower_flag lower proxy in
      (ret, Some proxy)
    | KNOT_VALUE_TYPE_FLOAT =>
      let fval := val_f pvalue in
      let change := check_int_change_fval proxy fval in
      let upper := check_float_upper_threshold proxy fval in
      let lower := check_float_lower_threshold proxy fval in
      let '(ret, proxy) :=
        if send proxy || timeout || change
           || (upper && Bool.eqb (upper_flag proxy) false)
           || (lower && Bool.eqb (lower_flag proxy) false)
        then
          let proxy := set_olen 4 proxy in
          let proxy := set_value (set_val_f (value proxy) fval) proxy in
          let proxy := set_send (wait_resp proxy) proxy in
          (true, proxy)
        else (false, proxy) in
      let proxy := set_upper_flag upper proxy in
      let proxy := set_lower_flag lower proxy in
      (ret, Some proxy)
    | _ => (false, Some proxy)
    end
  end.

(** Calls made by an application callback on the handle it receives.  The
    [struct knot_proxy] type is private to proxy.c, so a callback acts on
    the channel only through the two set primitives (the get primitives
    change nothing); each call reads the clock on its own. *)
Inductive cb_call :=
  | Call_set_basic (now : Z) (pvalue : mem)
  | Call_set_string (now : Z) (pvalue : mem) (len : Z).

(** Variadic arguments after default promotion. *)
Inductive va_arg_t :=
  | VA_int (x : Z)
  | VA_double (d : spec_float).

(** Outcome of the argument loop of [knot_proxy_set_config]. *)
Inductive events_result :=
  | Events_undefined
  | Events_invalid
  | Events_done (event_flags timeout_sec : Z) (lower_limit upper_limit : knot_value_type).

(** The branch in which [knot_proxy_register] logs an error and returns NULL. *)
Inductive register_error :=
  | Out_of_index
  | Already_registered
  | Invalid_schema.

Inductive register_result :=
  | Registered (handle : Z)
  | Register_failed (e : register_error).

Definition bytes_of_string (s : string) : mem :=
  map (fun a => Z.of_N (N_of_ascii a)) (list_ascii_of_string s).

Definition strlen (s : string) : Z := Z.of_nat (String.length s).

Section Proxy.

(** Constants of knot_protocol.h and the validators of the KNoT protocol
    library, none of them part of the sources. *)
Variable KNOT_DATA_RAW_SIZE : Z.
Variable KNOT_PROTOCOL_DATA_NAME_LEN : Z.
Variable knot_schema_is_valid : Z -> knot_value_kind -> Z -> Z.
Variable knot_config_is_valid :
  Z -> knot_value_kind -> Z -> knot_value_type -> knot_value_type -> Z.

(** A zero-filled [knot_value_type] ([raw] is its largest member). *)
Definition zero_value : knot_value_type :=
  replicate (Z.to_nat KNOT_DATA_RAW_SIZE) 0.

(** A pool element after [memset(proxy_pool, 0, ...)]. *)
Definition zero_proxy : knot_proxy :=
  {| id := 0;
     schema := {| type_id := 0; schema_unit := 0;
                  value_type := KNOT_VALUE_TYPE_OTHER 0;
                  name := replicate (Z.to_nat KNOT_PROTOCOL_DATA_NAME_LEN) 0 |};
     value := zero_value; send := false; wait_resp := false;
     upper_flag := false; lower_flag := false; olen := 0; rlen := 0;
     config := {| event_flags := 0; time_sec := 0;
                  lower_limit := zero_value; upper_limit := zero_value |};
     last_timeout := 0; poll_cb := None; changed_cb := None |}.

Definition set_id (x : Z) (p : knot_proxy) : knot_proxy :=
  {| id := x; schema := schema p; value := value p; send := send p;
     wait_resp := wait_resp p; upper_flag := upper_flag p;
     lower_flag := lower_flag p; olen := olen p; rlen := rlen p;
     config := config p; last_timeout := last_timeout p;
     poll_cb := poll_cb p; changed_cb := changed_cb p |}.

(** Static storage at program start: [proxy_pool] zeroed, [last_id = 0xff];
    [n] is [CONFIG_KNOT_THING_DATA_MAX]. *)
Definition boot (n : nat) : knot_state :=
  {| proxy_pool := replicate n zero_proxy; last_id := 0xff |}.

Definition proxy_init (st : knot_state) : knot_state :=
  {| proxy_pool := replicate (length (proxy_pool st)) (set_id 0xff zero_proxy);
     last_id := last_id st |}.

Definition knot_proxy_register (st : knot_state) (ident : Z)
    (name : option string) (type_id : Z) (value_type : knot_value_kind)
    (unit : Z) (changed_cb poll_cb : knot_callback_t)
    : register_result * knot_state :=
  if pool_size st <=? ident then (Register_failed Out_of_index, st)
  else match slot st ident with
  | None => (Register_failed Out_of_index, st)
  | Some proxy =>
    if negb (id proxy =? 0xff) then (Register_failed Already_registered, st)
    else if negb (knot_schema_is_valid type_id value_type unit =? 0) || is_null name
    then (Register_failed Invalid_schema, st)
    else
      let name := default EmptyString name in
      let proxy :=
        {| id := ident;
           schema :=
             {| type_id := type_id; schema_unit := unit;
                value_type := value_type;
                name := memcpy (stored_name proxy) (bytes_of_string name)
                          (Z.to_nat (MIN KNOT_PROTOCOL_DATA_NAME_LEN (strlen name))) |};
           value := value proxy;
           send := false; wait_resp := wait_resp proxy;
           upper_flag := false; lower_flag := false;
           olen := 0; rlen := rlen proxy;
           config :=
             {| event_flags := KNOT_EVT_FLAG_NONE;
                time_sec := time_sec (config proxy);
                lower_limit := lower_limit (config proxy);
                upper_limit := upper_limit (config proxy) |};
           last_timeout := last_timeout proxy;
           poll_cb := poll_cb; changed_cb := changed_cb |} in
      let st := set_slot st ident proxy in
      let st :=
        if (last_id st <? ident) || (last_id st =? 0xff)
        then {| proxy_pool := proxy_pool st; last_id := ident |}
        else st in
      (Registered ident, st)
  end.

(** The [do ... while (event)] loop over the variadic arguments; the
    accumulators are the locals of [knot_proxy_set_config]. *)
Fixpoint read_events (value_type : knot_value_kind) (event_args : list va_arg_t)
    (event_flags timeout_sec : Z) (lower_limit upper_limit : knot_value_type)
    {struct event_args} : events_result :=
  match event_args with
  | VA_int e :: event_args =>
    let event := u8 e in
    if event =? KNOT_EVT_FLAG_NONE then
      Events_done event_flags timeout_sec lower_limit upper_limit
    else if event =? KNOT_EVT_FLAG_CHANGE then
      read_events value_type event_args
        (Z.lor event_flags KNOT_EVT_FLAG_CHANGE) timeout_sec lower_limit upper_limit
    else if event =? KNOT_EVT_FLAG_TIME then
      match event_args with
      | VA_int t :: event_args =>
        read_events value_type event_args
          (Z.lor event_flags KNOT_EVT_FLAG_TIME) (u16 t) lower_limit upper_limit
      | _ => Events_undefined
      end
    else if event =? KNOT_EVT_FLAG_UPPER_THRESHOLD then
      match value_type with
      | KNOT_VALUE_TYPE_INT =>
        match event_args with
        | VA_int x :: event_args =>
          read_events value_type event_args
            (Z.lor event_flags KNOT_EVT_FLAG_UPPER_THRESHOLD) timeout_sec
            lower_limit (set_val_i upper_limit (s32 x))
        | _ => Events_undefined
        end
      | KNOT_VALUE_TYPE_FLOAT =>
        match event_args with
        | VA_double d :: event_args =>
          read_events value_type event_args
            (Z.lor event_flags KNOT_EVT_FLAG_UPPER_THRESHOLD) timeout_sec
            lower_limit (set_val_f upper_limit (f32_encode (f32_of_double d)))
        | _ => Events_undefined
        end
      | _ =>
        read_events value_type event_args
          (Z.lor event_flags KNOT_EVT_FLAG_UPPER_THRESHOLD) timeout_sec
          lower_limit upper_limit
      end
    else if event =? KNOT_EVT_FLAG_LOWER_THRESHOLD then
      match value_type with
      | KNOT_VALUE_TYPE_INT =>
        match event_args with
        | VA_int x :: event_args =>
          read_events value_type event_args
            (Z.lor event_flags KNOT_EVT_FLAG_LOWER_THRESHOLD) timeout_sec
            (set_val_i lower_limit (s32 x)) upper_limit
        | _ => Events_undefined
        end
      | KNOT_VALUE_TYPE_FLOAT =>
        match event_args with
        | VA_double d :: event_args =>
          read_events value_type event_args
            (Z.lor event_flags KNOT_EVT_FLAG_LOWER_THRESHOLD) timeout_sec
            (set_val_f lower_limit (f32_encode (f32_of_double d))) upper_limit
        | _ => Events_undefined
        end
      | _ =>
        read_events value_type event_args
          (Z.lor event_flags KNOT_EVT_FLAG_LOWER_THRESHOLD) timeout_sec
          lower_limit upper_limit
      end
    else Events_invalid
  | _ => Events_undefined
  end.

Definition knot_proxy_set_config (st : knot_state) (ident : Z)
    (event_args : list va_arg_t) : option (bool * knot_state) :=
  if pool_size st <=? ident then Some (false, st)
  else match slot st ident with
  | None => Some (false, st)
  | Some proxy =>
    if negb (id proxy =? ident) then Some (false, st)
    else
      match read_events (value_type (schema proxy)) event_args
              KNOT_EVT_FLAG_NONE 0
              (set_val_i zero_value 0) (set_val_i zero_value 0) with
      | Events_undefined => None
      | Events_invalid => Some (false, st)
      | Events_done event_flags timeout_sec lower_limit upper_limit =>
        if negb (knot_config_is_valid event_flags (value_type (schema proxy))
                   timeout_sec lower_limit upper_limit =? 0)
        then Some (false, st)
        else
          let upper :=
            if has_flag KNOT_EVT_FLAG_UPPER_THRESHOLD event_flags
            then upper_limit else stored_upper_limit proxy in
          let lower :=
            if has_flag KNOT_EVT_FLAG_LOWER_THRESHOLD event_flags
            then lower_limit else stored_lower_limit proxy in
          let cfg :=
            {| event_flags := event_flags; time_sec := timeout_sec;
               lower_limit := lower; upper_limit := upper |} in
          Some (true, set_slot st ident (set_config cfg proxy))
      end
  end.

(** ** Accessors *)

Definition knot_proxy_get_id (proxy : option knot_proxy) : Z :=
  match proxy with
  | None => 0xff
  | Some proxy => id proxy
  end.

Definition proxy_get_schema (st : knot_state) (ident : Z)
    : option (option knot_schema) :=
  match slot st ident with
  | None => None
  | Some proxy =>
    if id proxy =? 0xff then Some None else Some (Some (schema proxy))
  end.

Definition proxy_get_last_id (st : knot_state) : Z := last_id st.

(** ** Setting a raw value *)
Definition knot_proxy_value_set_string (now : Z) (proxy : option knot_proxy)
    (pvalue : mem) (len : Z) : option (bool * option knot_proxy) :=
  match proxy with
  | None => Some (false, None)
  | Some proxy =>
    if negb (is_raw (value_type (schema proxy))) then Some (false, Some proxy)
    else
      let '(timeout, proxy) := check_timeout now proxy in
      match check_raw_change proxy pvalue len with
      | None => None
      | Some change =>
        if negb (send proxy) && negb change && negb timeout
        then Some (false, Some proxy)
        else
          let len := MIN KNOT_DATA_RAW_SIZE len in
          if (len <? 0) || (Z.of_nat (length pvalue) <? len) then None
          else
            let proxy := set_olen len proxy in
            let proxy := set_rlen len proxy in
            let proxy :=
              set_value (memcpy (raw (value proxy)) pvalue (Z.to_nat len)) proxy in
            let proxy := set_send (wait_resp proxy) proxy in
            Some (true, Some proxy)
      end
  end.

(** ** Reading a value back

    [None] is the result false; otherwise the object written to [*value]. *)
Definition knot_proxy_value_get_basic (proxy : option knot_proxy)
    : option mem :=
  match proxy with
  | None => None
  | Some proxy =>
    match value_type (schema proxy) with
    | KNOT_VALUE_TYPE_BOOL => Some [Z.b2z (val_b (value proxy))]
    | KNOT_VALUE_TYPE_INT => Some (bytes32 (u32 (val_i (value proxy))))
    | KNOT_VALUE_TYPE_FLOAT => Some (bytes32 (val_f (value proxy)))
    | _ => None
    end
  end.

(** The outer [None] is a copy without defined behaviour (a negative
    length, or more bytes than the [raw] member holds).  Otherwise the
    result is what the call returns: [None] for false, or the bytes written
    to [value] together with [*olen]. *)
Definition knot_proxy_value_get_string (proxy : option knot_proxy) (len : Z)
    : option (option (mem * Z)) :=
  match proxy with
  | None => Some None
  | Some proxy =>
    if negb (is_raw (value_type (schema proxy))) then Some None
    else
      let olen := MIN len (rlen proxy) in
      if (olen <? 0) || (Z.of_nat (length (raw (value proxy))) <? olen)
      then None
      else Some (Some (take (Z.to_nat olen) (raw (value proxy)), olen))
  end.

(** ** Transport-facing functions *)

(** One callback invocation [cb(proxy)]: the calls it makes, in order. *)
Fixpoint run_callback (calls : list cb_call) (proxy : knot_proxy)
    : option knot_proxy :=
  match calls with
  | [] => Some proxy
  | Call_set_basic now pvalue :: calls =>
    match snd (knot_proxy_value_set_basic now (Some proxy) pvalue) with
    | Some proxy => run_callback calls proxy
    | None => None
    end
  | Call_set_string now pvalue len :: calls =>
    match knot_proxy_value_set_string now (Some proxy) pvalue len with
    | Some (_, Some proxy) => run_callback calls proxy
    | _ => None
    end
  end.

(** [poll] is what the poll callback does during this call.  The result is
    the value pointed to by the returned pointer and [*olen], or NULL. *)
Definition proxy_read (st : knot_state) (ident : Z) (wait_resp : bool)
    (poll : list cb_call)
    : option (option (knot_value_type * Z) * knot_state) :=
  match slot st ident with
  | None => None
  | Some proxy =>
    if id proxy =? 0xff then Some (None, st)
    else if is_null (poll_cb proxy) then Some (None, st)
    else
      let proxy := set_olen 0 proxy in
      let proxy := set_wait_resp wait_resp proxy in
      match run_callback poll proxy with
      | None => None
      | Some proxy =>
        let st := set_slot st ident proxy in
        if olen proxy <=? 0 then Some (None, st)
        else Some (Some (value proxy, olen proxy), st)
      end
  end.

(** [changed] is what the changed callback does during this call. *)
Definition proxy_write (st : knot_state) (ident : Z) (pvalue : knot_value_type)
    (value_len : Z) (changed : list cb_call) : option (Z * knot_state) :=
  if last_id st <? ident then Some (- EINVAL, st)
  else match slot st ident with
  | None => None
  | Some proxy =>
    if id proxy =? 0xff then Some (- EINVAL, st)
    else if is_null (changed_cb proxy) then Some (0, st)
    else
      let proxy := set_value pvalue proxy in
      let proxy :=
        if is_raw (value_type (schema proxy))
        then set_rlen value_len proxy else proxy in
      match run_callback changed proxy with
      | None => None
      | Some proxy => Some (s8 (olen proxy), set_slot st ident proxy)
      end
  end.

Definition proxy_force_send (st : knot_state) (ident : Z)
    : option (Z * knot_state) :=
  match slot st ident with
  | None => None
  | Some proxy =>
    if id proxy =? 0xff then Some (- EINVAL, st)
    else Some (0, set_slot st ident (set_send true proxy))
  end.

Definition proxy_confirm_sent (st : knot_state) (ident : Z)
    : option (Z * knot_state) :=
  match slot st ident with
  | None => None
  | Some proxy =>
    if id proxy =? 0xff then Some (- EINVAL, st)
    else Some (0, set_slot st ident (set_send false proxy))
  end.

End Proxy.

(** ** Repeated set calls, as a polling application makes them *)

Fixpoint set_basic_seq (proxy : knot_proxy) (calls : list (Z * mem)) : list bool :=
  match calls with
  | [] => []
  | (now, pvalue) :: calls =>
    let '(ret, proxy') := knot_proxy_value_set_basic now (Some proxy) pvalue in
    ret :: set_basic_seq (match proxy' with Some q => q | None => proxy end) calls
  end.

(** The beyond-limit conditions of a numeric channel for a candidate. *)
Definition beyond_upper (p : knot_proxy) (pvalue : mem) : bool :=
  match value_type (schema p) with
  | KNOT_VALUE_TYPE_INT => check_int_upper_threshold p (val_i pvalue)
  | KNOT_VALUE_TYPE_FLOAT => check_float_upper_threshold p (val_f pvalue)
  | _ => false
  end.

Definition beyond_lower (p : knot_proxy) (pvalue : mem) : bool :=
  match value_type (schema p) with
  | KNOT_VALUE_TYPE_INT => check_int_lower_threshold p (val_i pvalue)
  | KNOT_VALUE_TYPE_FLOAT => check_float_lower_threshold p (val_f pvalue)
  | _ => false
  end.

(** The change condition each numeric case of the set function evaluates. *)
Definition numeric_change (p : knot_proxy) (pvalue : mem) : bool :=
  match value_type (schema p) with
  | KNOT_VALUE_TYPE_INT => check_int_change p (val_i pvalue)
  | KNOT_VALUE_TYPE_FLOAT => check_int_change_fval p (val_f pvalue)
  | _ => false
  end.

Definition is_numeric (k : knot_value_kind) : bool :=
  match k with
  | KNOT_VALUE_TYPE_INT | KNOT_VALUE_TYPE_FLOAT => true
  | _ => false
  end.

(** Positions at which a condition becomes true, given the latch before. *)
Fixpoint rising_edges (latch : bool) (beyond : list bool) : list bool :=
  match beyond with
  | [] => []
  | b :: beyond => (b && negb latch) :: rising_edges b beyond
  end.

(** Calls of a run at which a timer of [period] seconds fires, [last] being
    the time base before the run. *)
Fixpoint timer_fires (period last : Z) (nows : list Z) : list bool :=
  match nows with
  | [] => []
  | now :: nows =>
    if period * 1000 <=? u32 (u32 now - last)
    then true :: timer_fires period (u32 now) nows
    else false :: timer_fires period last nows
  end.

(** Repeated raw set calls (time, payload, length); [None] as soon as a
    call has no defined result. *)
Fixpoint set_string_seq (N : Z) (proxy : knot_proxy) (calls : list (Z * mem * Z))
    : option (list bool) :=
  match calls with
  | [] => Some []
  | (now, pvalue, len) :: calls =>
    match knot_proxy_value_set_string N now (Some proxy) pvalue len with
    | Some (ret, Some proxy') =>
      match set_string_seq N proxy' calls with
      | Some rets => Some (ret :: rets)
      | None => None
      end
    | _ => None
    end
  end.

Definition is_basic (k : knot_value_kind) : bool :=
  match k with
  | KNOT_VALUE_TYPE_INT | KNOT_VALUE_TYPE_FLOAT | KNOT_VALUE_TYPE_BOOL => true
  | _ => false
  end.

(** A channel as [knot_proxy_register] and [knot_proxy_set_config] leave it:
    nothing pending, latches clear, timer base zero. *)
Definition channel (ident : Z) (k : knot_value_kind) (flags period : Z)
    (lower upper : knot_value_type) (stored : knot_value_type) : knot_proxy :=
  {| id := ident;
     schema := {| type_id := 0; schema_unit := 0; value_type := k; name := [] |};
     value := stored; send := false; wait_resp := false;
     upper_flag := false; lower_flag := false; olen := 0; rlen := 0;
     config := {| event_flags := flags; time_sec := period;
                  lower_limit := lower; upper_limit := upper |};
     last_timeout := 0; poll_cb := Some 1%nat; changed_cb := Some 2%nat |}.

(** A [float] object holding the integer [x]. *)
Definition float_obj (x : Z) : mem := bytes32 (f32_encode (f32_of_int x)).

(** An [int] object holding [x]. *)
Definition int_obj (x : Z) : mem := bytes32 (u32 x).

(** ** Runs of the module

    Calls made by the application and the transport after [proxy_init].
    Identifiers are converted to [u8_t] as the C parameters are; a handle is
    the index of the pool element it points to. *)
Inductive api_call :=
  | Api_register (ident : Z) (name : option string) (type_id : Z)
      (value_type : knot_value_kind) (unit : Z)
      (changed_cb poll_cb : knot_callback_t)
  | Api_set_config (ident : Z) (event_args : list va_arg_t)
  | Api_set_basic (handle : Z) (now : Z) (pvalue : mem)
  | Api_set_string (handle : Z) (now : Z) (pvalue : mem) (len : Z)
  | Api_read (ident : Z) (wait_resp : bool) (poll : list cb_call)
  | Api_write (ident : Z) (pvalue : knot_value_type) (value_len : Z)
      (changed : list cb_call)
  | Api_force_send (ident : Z)
  | Api_confirm_sent (ident : Z).

(** The record behind a handle that [knot_proxy_register] has returned. *)
Definition deref (st : knot_state) (handle : Z) : option knot_proxy :=
  match slot st handle with
  | Some p => if id p =? 0xff then None else Some p
  | None => None
  end.

Section Run.

Variable KNOT_DATA_RAW_SIZE : Z.
Variable KNOT_PROTOCOL_DATA_NAME_LEN : Z.
Variable knot_schema_is_valid : Z -> knot_value_kind -> Z -> Z.
Variable knot_config_is_valid :
  Z -> knot_value_kind -> Z -> knot_value_type -> knot_value_type -> Z.

(** The state after a call; [None] when the call has no defined behaviour. *)
Definition exec (c : api_call) (st : knot_state) : option knot_state :=
  match c with
  | Api_register ident name type_id value_type unit changed_cb poll_cb =>
    Some (snd (knot_proxy_register KNOT_PROTOCOL_DATA_NAME_LEN
                 knot_schema_is_valid st (u8 ident) name type_id value_type
                 unit changed_cb poll_cb))
  | Api_set_config ident event_args =>
    match knot_proxy_set_config KNOT_DATA_RAW_SIZE knot_config_is_valid st
            (u8 ident) event_args with
    | Some (_, st) => Some st
    | None => None
    end
  | Api_set_basic handle now pvalue =>
    match deref st handle with
    | Some p =>
      match snd (knot_proxy_value_set_basic now (Some p) pvalue) with
      | Some p => Some (set_slot st handle p)
      | None => None
      end
    | None => None
    end
  | Api_set_string handle now pvalue len =>
    match deref st handle with
    | Some p =>
      match knot_proxy_value_set_string KNOT_DATA_RAW_SIZE now (Some p)
              pvalue len with
      | Some (_, Some p) => Some (set_slot st handle p)
      | _ => None
      end
    | None => None
    end
  | Api_read ident wait_resp poll =>
    match proxy_read KNOT_DATA_RAW_SIZE st (u8 ident) wait_resp poll with
    | Some (_, st) => Some st
    | None => None
    end
  | Api_write ident pvalue value_len changed =>
    match proxy_write KNOT_DATA_RAW_SIZE st (u8 ident) pvalue (u8 value_len)
            changed with
    | Some (_, st) => Some st
    | None => None
    end
  | Api_force_send ident =>
    match proxy_force_send st (u8 ident) with
    | Some (_, st) => Some st
    | None => None
    end
  | Api_confirm_sent ident =>
    match proxy_confirm_sent st (u8 ident) with
    | Some (_, st) => Some st
    | None => None
    end
  end.

Fixpoint run (calls : list api_call) (st : knot_state) : option knot_state :=
  match calls with
  | [] => Some st
  | c :: calls =>
    match exec c st with
    | Some st => run calls st
    | None => None
    end
  end.

(** The identifier a call registers, if it is a successful registration. *)
Definition registers (c : api_call) (st : knot_state) : list Z :=
  match c with
  | Api_register ident name type_id value_type unit changed_cb poll_cb =>
    match fst (knot_proxy_register KNOT_PROTOCOL_DATA_NAME_LEN
                 knot_schema_is_valid st (u8 ident) name type_id value_type
                 unit changed_cb poll_cb) with
    | Registered handle => [handle]
    | Register_failed _ => []
    end
  | _ => []
  end.

(** Identifiers registered along a run, in order. *)
Fixpoint registrations (calls : list api_call) (st : knot_state) : list Z :=
  match calls with
  | [] => []
  | c :: calls =>
    registers c st ++
    match exec c st with
    | Some st => registrations calls st
    | None => []
    end
  end.

End Run.

(** The largest of a list of identifiers, [0xff] when there is none. *)
Definition highest (ids : list Z) : Z :=
  match ids with
  | [] => 0xff
  | i :: ids => fold_right Z.max i ids
  end.

(** Identifier fields of the pool, by index. *)
Definition pool_ids (st : knot_state) : list Z := id <$> proxy_pool st.

(** Consistency of the identifier fields with [last_id]: an element is
    either free ([0xff]) or carries its own index, and [last_id] is [0xff]
    while all are free and the largest assigned identifier afterwards. *)
Definition ids_ok (ids : list Z) (last : Z) : Prop :=
  Z.of_nat (length ids) <= 255 /\
  (forall i x, ids !! i = Some x -> x = 0xff \/ x = Z.of_nat i) /\
  (last = 0xff -> forall x, x ∈ ids -> x = 0xff) /\
  (last <> 0xff -> last ∈ ids /\ forall x, x ∈ ids -> x <> 0xff -> x <= last).

(** Well-formed states: consistent identifiers, and free elements as
    [proxy_init] left them. *)
Definition wf_state (N L : Z) (st : knot_state) : Prop :=
  ids_ok (pool_ids st) (last_id st) /\
  forall i p, proxy_pool st !! i = Some p -> id p = 0xff ->
              p = set_id 0xff (zero_proxy N L).

Definition is_deliver (c : api_call) : bool :=
  match c with
  | Api_write _ _ _ _ => true
  | _ => false
  end.

(** Every pool element records a raw length within the raw buffer. *)
Definition rlen_bounded (N : Z) (st : knot_state) : Prop :=
  forall i p, proxy_pool st !! i = Some p -> rlen p <= N.

(** A state obtained by rewriting one registered element, keeping its
    identifier (and, unless the call is a delivery, the bound on the raw
    length). *)
Definition updates_registered (N : Z) (c : api_call) (st st' : knot_state)
    : Prop :=
  st' = st \/
  exists i p q, slot st i = Some p /\ id p <> 0xff /\ id q = id p /\
                (is_deliver c = false -> rlen p <= N -> rlen q <= N) /\
                st' = set_slot st i q.

(** An object of [n] bytes. *)
Definition is_obj (n : nat) (m : mem) : Prop :=
  length m = n /\ Forall (fun b => 0 <= b < 256) m.

(** The integer fields of a pool element hold values of their C types, and
    the event flags only recognised bits. *)
Definition fields_in_range (p : knot_proxy) : Prop :=
  0 <= olen p < 256 /\ 0 <= rlen p < 256 /\
  0 <= last_timeout p < 2^32 /\
  0 <= event_flags (config p) <= 15 /\ 0 <= time_sec (config p) <= 65535.

(** Two records of the same channel: identifier, schema and callbacks. *)
Definition same_channel (p q : knot_proxy) : Prop :=
  id q = id p /\ schema q = schema p /\
  poll_cb q = poll_cb p /\ changed_cb q = changed_cb p.

(** * Properties *)

(** ** Sanity checks of the binary32 model *)

Example f32_one : f32_decode 0x3F800000 = S754_finite false 8388608 (-23).
Proof. reflexivity. Qed.

Example f32_encode_90 : f32_encode (f32_of_int 90) = 0x42B40000.
Proof. reflexivity. Qed.

Example f32_roundtrip_100 : f32_decode (f32_encode (f32_of_int 100)) = f32_of_int 100.
Proof. reflexivity. Qed.

(** ** Integers and memory views *)

Lemma u8_range x : 0 <= u8 x < 256.
Proof. unfold u8. apply Z.mod_pos_bound. lia. Qed.

Lemma u32_range x : 0 <= u32 x < 2^32.
Proof. unfold u32. apply Z.mod_pos_bound. lia. Qed.

Lemma u8_small x : 0 <= x < 256 -> u8 x = x.
Proof. intros. unfold u8. apply Z.mod_small. lia. Qed.

Lemma u32_small x : 0 <= x < 2^32 -> u32 x = x.
Proof. intros. unfold u32. apply Z.mod_small. lia. Qed.

Lemma MIN_min a b : MIN a b = Z.min a b.
Proof.
  unfold MIN. destruct (a <? b) eqn:E.
  - apply Z.ltb_lt in E. lia.
  - apply Z.ltb_ge in E. lia.
Qed.

Lemma s32_small x : - 2^31 <= x < 2^31 -> s32 x = x.
Proof. intros. unfold s32. rewrite Z.mod_small; lia. Qed.

Lemma s32_range x : - 2^31 <= s32 x < 2^31.
Proof.
  unfold s32. pose proof (Z.mod_pos_bound (x + 2^31) (2^32)). lia.
Qed.

Lemma s32_u32 x : s32 (u32 x) = s32 x.
Proof.
  unfold s32, u32.
  rewrite Zplus_mod_idemp_l. reflexivity.
Qed.

Lemma load32_range m : 0 <= load32 m < 2^32.
Proof.
  unfold load32, load8.
  pose proof (u8_range (nth 0 m 0)). pose proof (u8_range (nth 1 m 0)).
  pose proof (u8_range (nth 2 m 0)). pose proof (u8_range (nth 3 m 0)). lia.
Qed.

Lemma load32_bytes32 w rest : load32 (bytes32 w ++ rest) = u32 w.
Proof.
  unfold load32, load8, bytes32, u8, u32. cbn [nth app].
  rewrite !Z.mod_mod by lia.
  change (2^32) with (2^8 * (2^8 * (2^8 * 2^8))).
  change (2^24) with (2^8 * (2^8 * 2^8)). change (2^16) with (2^8 * 2^8).
  rewrite <- !Z.div_div by lia.
  rewrite !Z.rem_mul_r by lia. lia.
Qed.

Lemma load32_store32 m w : load32 (store32 m w) = u32 w.
Proof. unfold store32, memcpy. apply load32_bytes32. Qed.

Lemma val_i_set_val_i v x : val_i (set_val_i v x) = s32 x.
Proof.
  unfold val_i, set_val_i. rewrite load32_store32.
  rewrite (u32_small (u32 x)) by apply u32_range. apply s32_u32.
Qed.

Lemma val_i_idem v pvalue : val_i (set_val_i v (val_i pvalue)) = val_i pvalue.
Proof. rewrite val_i_set_val_i. apply s32_small, s32_range. Qed.

Lemma val_f_set_val_f v f : val_f (set_val_f v f) = u32 f.
Proof.
  unfold val_f, set_val_f. rewrite load32_store32.
  apply u32_small, u32_range.
Qed.

Lemma val_f_idem v pvalue : val_f (set_val_f v (val_f pvalue)) = val_f pvalue.
Proof. rewrite val_f_set_val_f. apply u32_small, load32_range. Qed.

Lemma val_b_set_val_b v b : val_b (set_val_b v b) = b.
Proof. destruct b; reflexivity. Qed.

(** ** The timer check changes [last_timeout] only *)

Lemma check_timeout_cases now p :
  check_timeout now p = (false, p) \/
  check_timeout now p = (true, set_last_timeout (u32 now) p).
Proof.
  unfold check_timeout.
  destruct (has_flag KNOT_EVT_FLAG_TIME (event_flags (config p))); cbn [negb]; auto.
  destruct (u32 (time_sec (config p) * 1000) <=? u32 (u32 now - last_timeout p)); auto.
Qed.

Lemma check_timeout_frame now p :
  let q := snd (check_timeout now p) in
  id q = id p /\ schema q = schema p /\ value q = value p /\
  send q = send p /\ wait_resp q = wait_resp p /\
  upper_flag q = upper_flag p /\ lower_flag q = lower_flag p /\
  olen q = olen p /\ rlen q = rlen p /\ config q = config p /\
  poll_cb q = poll_cb p /\ changed_cb q = changed_cb p.
Proof.
  destruct (check_timeout_cases now p) as [-> | ->]; cbn; repeat split.
Qed.

Lemma check_timeout_no_timer now p :
  has_flag KNOT_EVT_FLAG_TIME (event_flags (config p)) = false ->
  check_timeout now p = (false, p).
Proof. intros H. unfold check_timeout. rewrite H. reflexivity. Qed.

(** Unfolds one call of the basic set function on a non-NULL handle and
    names the outcome of its timer check. *)
Ltac open_set_basic now p t q :=
  unfold knot_proxy_value_set_basic;
  let E := fresh "Etimeout" in
  let F := fresh "Hframe" in
  pose proof (check_timeout_frame now p) as F;
  destruct (check_timeout now p) as [t q] eqn:E;
  cbn [snd fst] in F;
  destruct F as (Fid & Fschema & Fvalue & Fsend & Fwait & Fupper & Flower
                 & Folen & Frlen & Fconfig & Fpoll & Fchanged).

Lemma set_basic_numeric now p pvalue :
  is_numeric (value_type (schema p)) = true ->
  let ret :=
    send p || fst (check_timeout now p) || numeric_change p pvalue
    || (beyond_upper p pvalue && negb (upper_flag p))
    || (beyond_lower p pvalue && negb (lower_flag p)) in
  exists p',
    knot_proxy_value_set_basic now (Some p) pvalue = (ret, Some p') /\
    upper_flag p' = beyond_upper p pvalue /\
    lower_flag p' = beyond_lower p pvalue /\
    schema p' = schema p /\ config p' = config p /\ id p' = id p /\
    wait_resp p' = wait_resp p /\
    send p' = (if ret then wait_resp p else send p).
Proof.
  intros Hk ret. subst ret. open_set_basic now p t q.
  unfold numeric_change, beyond_upper, beyond_lower.
  unfold check_int_change, check_int_change_fval, check_int_upper_threshold,
    check_int_lower_threshold, check_float_upper_threshold,
    check_float_lower_threshold.
  rewrite Fschema, Fconfig, Fvalue, Fsend, Fupper, Flower.
  cbn [fst].
  destruct (value_type (schema p)); try discriminate Hk.
  - match goal with |- context [if ?c then _ else _] =>
      replace c with
        (send p || t
         || (has_flag KNOT_EVT_FLAG_CHANGE (event_flags (config p))
             && negb (val_i pvalue =? val_i (value p)))
         || (has_flag KNOT_EVT_FLAG_UPPER_THRESHOLD (event_flags (config p))
             && (val_i (upper_limit (config p)) <? val_i pvalue)
             && negb (upper_flag p))
         || (has_flag KNOT_EVT_FLAG_LOWER_THRESHOLD (event_flags (config p))
             && (val_i pvalue <? val_i (lower_limit (config p)))
             && negb (lower_flag p)))
        by (destruct (upper_flag p), (lower_flag p); reflexivity)
    end.
    match goal with |- context [if ?c then _ else _] => destruct c end;
      eexists; (split; [reflexivity |]); cbn; repeat split; auto; congruence.
  - match goal with |- context [if ?c then _ else _] =>
      replace c with
        (send p || t
         || (has_flag KNOT_EVT_FLAG_CHANGE (event_flags (config p))
             && SFneb (f32_decode (val_f pvalue)) (f32_of_int (val_i (value p))))
         || (has_flag KNOT_EVT_FLAG_UPPER_THRESHOLD (event_flags (config p))
             && SFgtb (f32_decode (val_f pvalue))
                  (f32_decode (val_f (upper_limit (config p))))
             && negb (upper_flag p))
         || (has_flag KNOT_EVT_FLAG_LOWER_THRESHOLD (event_flags (config p))
             && SFltb (f32_decode (val_f pvalue))
                  (f32_decode (val_f (lower_limit (config p))))
             && negb (lower_flag p)))
        by (destruct (upper_flag p), (lower_flag p); reflexivity)
    end.
    match goal with |- context [if ?c then _ else _] => destruct c end;
      eexists; (split; [reflexivity |]); cbn; repeat split; auto; congruence.
Qed.

(** One call on a numeric channel whose only event flag is the upper
    threshold, with nothing pending and no acknowledgement awaited. *)
Lemma upper_only_step now p pvalue :
  is_numeric (value_type (schema p)) = true ->
  event_flags (config p) = KNOT_EVT_FLAG_UPPER_THRESHOLD ->
  send p = false -> wait_resp p = false ->
  exists p',
    knot_proxy_value_set_basic now (Some p) pvalue
      = (beyond_upper p pvalue && negb (upper_flag p), Some p') /\
    upper_flag p' = beyond_upper p pvalue /\
    schema p' = schema p /\ config p' = config p /\
    send p' = false /\ wait_resp p' = false.
Proof.
  intros Hk Hf Hs Hw.
  destruct (set_basic_numeric now p pvalue Hk)
    as (p' & Hcall & Hup & Hlo & Hsch & Hcfg & Hid & Hwait & Hsend).
  assert (Ht : fst (check_timeout now p) = false).
  { rewrite check_timeout_no_timer; [reflexivity | rewrite Hf; reflexivity]. }
  assert (Hc : numeric_change p pvalue = false).
  { unfold numeric_change, check_int_change, check_int_change_fval.
    rewrite Hf. destruct (value_type (schema p)); reflexivity. }
  assert (Hl : beyond_lower p pvalue = false).
  { unfold beyond_lower, check_int_lower_threshold, check_float_lower_threshold.
    rewrite Hf. destruct (value_type (schema p)); reflexivity. }
  rewrite Hs, Ht, Hc, Hl in Hcall. rewrite Hs, Ht, Hc, Hl, Hw in Hsend.
  cbn [orb andb] in Hcall, Hsend. rewrite orb_false_r in Hcall, Hsend.
  exists p'. repeat split; try assumption; try congruence.
  destruct (beyond_upper p pvalue && negb (upper_flag p)); exact Hsend.
Qed.

Lemma beyond_upper_ext p q pvalue :
  schema q = schema p -> config q = config p ->
  beyond_upper q pvalue = beyond_upper p pvalue.
Proof.
  intros Hs Hc.
  unfold beyond_upper, check_int_upper_threshold, check_float_upper_threshold.
  rewrite Hs, Hc. reflexivity.
Qed.

Lemma upper_only_seq calls : forall p,
  is_numeric (value_type (schema p)) = true ->
  event_flags (config p) = KNOT_EVT_FLAG_UPPER_THRESHOLD ->
  send p = false -> wait_resp p = false ->
  set_basic_seq p calls
    = rising_edges (upper_flag p) (map (fun c => beyond_upper p (snd c)) calls).
Proof.
  induction calls as [| [now pvalue] calls IH]; intros p Hk Hf Hs Hw.
  - reflexivity.
  - cbn [set_basic_seq map rising_edges snd].
    destruct (upper_only_step now p pvalue Hk Hf Hs Hw)
      as (p' & Hcall & Hup & Hsch & Hcfg & Hs' & Hw').
    rewrite Hcall. f_equal.
    rewrite IH; try assumption; try congruence.
    rewrite Hup. f_equal. apply map_ext. intros c.
    apply beyond_upper_ext; assumption.
Qed.

Lemma beyond_lower_ext p q pvalue :
  schema q = schema p -> config q = config p ->
  beyond_lower q pvalue = beyond_lower p pvalue.
Proof.
  intros Hs Hc.
  unfold beyond_lower, check_int_lower_threshold, check_float_lower_threshold.
  rewrite Hs, Hc. reflexivity.
Qed.

(** One call on a numeric channel whose only event flag is the lower
    threshold, with nothing pending and no acknowledgement awaited. *)
Lemma lower_only_step now p pvalue :
  is_numeric (value_type (schema p)) = true ->
  event_flags (config p) = KNOT_EVT_FLAG_LOWER_THRESHOLD ->
  send p = false -> wait_resp p = false ->
  exists p',
    knot_proxy_value_set_basic now (Some p) pvalue
      = (beyond_lower p pvalue && negb (lower_flag p), Some p') /\
    lower_flag p' = beyond_lower p pvalue /\
    schema p' = schema p /\ config p' = config p /\
    send p' = false /\ wait_resp p' = false.
Proof.
  intros Hk Hf Hs Hw.
  destruct (set_basic_numeric now p pvalue Hk)
    as (p' & Hcall & Hup & Hlo & Hsch & Hcfg & Hid & Hwait & Hsend).
  assert (Ht : fst (check_timeout now p) = false).
  { rewrite check_timeout_no_timer; [reflexivity | rewrite Hf; reflexivity]. }
  assert (Hc : numeric_change p pvalue = false).
  { unfold numeric_change, check_int_change, check_int_change_fval.
    rewrite Hf. destruct (value_type (schema p)); reflexivity. }
  assert (Hu : beyond_upper p pvalue = false).
  { unfold beyond_upper, check_int_upper_threshold, check_float_upper_threshold.
    rewrite Hf. destruct (value_type (schema p)); reflexivity. }
  rewrite Hs, Ht, Hc, Hu in Hcall. rewrite Hs, Ht, Hc, Hu, Hw in Hsend.
  cbn [orb andb] in Hcall, Hsend.
  exists p'. repeat split; try assumption; try congruence.
  destruct (beyond_lower p pvalue && negb (lower_flag p)); exact Hsend.
Qed.

Lemma lower_only_seq calls : forall p,
  is_numeric (value_type (schema p)) = true ->
  event_flags (config p) = KNOT_EVT_FLAG_LOWER_THRESHOLD ->
  send p = false -> wait_resp p = false ->
  set_basic_seq p calls
    = rising_edges (lower_flag p) (map (fun c => beyond_lower p (snd c)) calls).
Proof.
  induction calls as [| [now pvalue] calls IH]; intros p Hk Hf Hs Hw.
  - reflexivity.
  - cbn [set_basic_seq map rising_edges snd].
    destruct (lower_only_step now p pvalue Hk Hf Hs Hw)
      as (p' & Hcall & Hlo & Hsch & Hcfg & Hs' & Hw').
    rewrite Hcall. f_equal.
    rewrite IH; try assumption; try congruence.
    rewrite Hlo. f_equal. apply map_ext. intros c.
    apply beyond_lower_ext; assumption.
Qed.

(** What the threshold macros compute, written with the orders of [Z] and
    of [SpecFloat]. *)
Lemma beyond_upper_order p pvalue :
  is_numeric (value_type (schema p)) = true ->
  beyond_upper p pvalue =
    has_flag KNOT_EVT_FLAG_UPPER_THRESHOLD (event_flags (config p))
    && match value_type (schema p) with
       | KNOT_VALUE_TYPE_INT =>
         val_i (upper_limit (config p)) <? val_i pvalue
       | _ =>
         SFltb (f32_decode (val_f (upper_limit (config p))))
           (f32_decode (val_f pvalue))
       end.
Proof.
  intros Hk.
  unfold beyond_upper, check_int_upper_threshold, check_float_upper_threshold,
    SFgtb.
  destruct (value_type (schema p)); try discriminate Hk; reflexivity.
Qed.

Lemma beyond_lower_order p pvalue :
  is_numeric (value_type (schema p)) = true ->
  beyond_lower p pvalue =
    has_flag KNOT_EVT_FLAG_LOWER_THRESHOLD (event_flags (config p))
    && match value_type (schema p) with
       | KNOT_VALUE_TYPE_INT =>
         val_i pvalue <? val_i (lower_limit (config p))
       | _ =>
         SFltb (f32_decode (val_f pvalue))
           (f32_decode (val_f (lower_limit (config p))))
       end.
Proof.
  intros Hk.
  unfold beyond_lower, check_int_lower_threshold, check_float_lower_threshold.
  destruct (value_type (schema p)); try discriminate Hk; reflexivity.
Qed.

(** C2, counterexample.  An Int32 channel with the upper threshold 100 as
    its only flag and an acknowledgement awaited ([wait_resp] as
    [proxy_read] stores it for a caller that waits for the response): the
    candidate 101 triggers and leaves the send pending, so 105, 99 and 102
    trigger as well. *)
Lemma C2_counterexample :
  set_basic_seq
    (set_wait_resp true
       (channel 0 KNOT_VALUE_TYPE_INT KNOT_EVT_FLAG_UPPER_THRESHOLD 0
          (int_obj 0) (int_obj 100) (int_obj 0)))
    (map (fun x => (0, int_obj x)) [90; 101; 105; 99; 102])
  = [false; true; true; true; true].
Proof. vm_compute. reflexivity. Qed.

(** C2, amended.  On a numeric (Int32 or Float32) channel every set call
    leaves [upper_flag] true exactly when OnUpperThreshold is set and the
    candidate is greater than the upper limit, and [lower_flag] true exactly
    when OnLowerThreshold is set and the candidate is less than the lower
    limit (signed 32-bit order for Int32, IEEE order for Float32), whether
    or not the call triggered.  A threshold that holds and was not latched
    triggers the call; without OnChange the call triggers for no other
    reason than a pending send, the timer or such a crossing.  With one
    threshold as the only event flag and nothing pending the call triggers
    exactly when the candidate is beyond the limit and the latch was false;
    if moreover no acknowledgement is awaited, a run of calls triggers on
    the rising edges only: with the upper limit 100 the candidates 90, 101,
    105, 99, 102 trigger on 101 and 102 alone, on an Int32 and on a Float32
    channel; the limit itself is not beyond the limit. *)
Theorem C2_threshold_edge_triggered :
  forall (now : Z) (p : knot_proxy) (pvalue : mem),
    is_numeric (value_type (schema p)) = true ->
    let flags := event_flags (config p) in
    let above := fun candidate : mem =>
      match value_type (schema p) with
      | KNOT_VALUE_TYPE_INT =>
        val_i (upper_limit (config p)) <? val_i candidate
      | _ =>
        SFltb (f32_decode (val_f (upper_limit (config p))))
          (f32_decode (val_f candidate))
      end in
    let below := fun candidate : mem =>
      match value_type (schema p) with
      | KNOT_VALUE_TYPE_INT =>
        val_i candidate <? val_i (lower_limit (config p))
      | _ =>
        SFltb (f32_decode (val_f candidate))
          (f32_decode (val_f (lower_limit (config p))))
      end in
    (exists ret p',
       knot_proxy_value_set_basic now (Some p) pvalue = (ret, Some p') /\
       upper_flag p'
         = has_flag KNOT_EVT_FLAG_UPPER_THRESHOLD flags && above pvalue /\
       lower_flag p'
         = has_flag KNOT_EVT_FLAG_LOWER_THRESHOLD flags && below pvalue /\
       (upper_flag p' = true -> upper_flag p = false -> ret = true) /\
       (lower_flag p' = true -> lower_flag p = false -> ret = true) /\
       (has_flag KNOT_EVT_FLAG_CHANGE flags = false ->
        ret = send p || fst (check_timeout now p)
              || (upper_flag p' && negb (upper_flag p))
              || (lower_flag p' && negb (lower_flag p)))) /\
    (flags = KNOT_EVT_FLAG_UPPER_THRESHOLD -> send p = false ->
     (fst (knot_proxy_value_set_basic now (Some p) pvalue) = true <->
      above pvalue = true /\ upper_flag p = false)) /\
    (flags = KNOT_EVT_FLAG_LOWER_THRESHOLD -> send p = false ->
     (fst (knot_proxy_value_set_basic now (Some p) pvalue) = true <->
      below pvalue = true /\ lower_flag p = false)) /\
    (flags = KNOT_EVT_FLAG_UPPER_THRESHOLD ->
     send p = false -> wait_resp p = false ->
     forall calls,
       set_basic_seq p calls
         = rising_edges (upper_flag p) (map (fun c => above (snd c)) calls)) /\
    (flags = KNOT_EVT_FLAG_LOWER_THRESHOLD ->
     send p = false -> wait_resp p = false ->
     forall calls,
       set_basic_seq p calls
         = rising_edges (lower_flag p) (map (fun c => below (snd c)) calls)) /\
    set_basic_seq
      (channel 0 KNOT_VALUE_TYPE_INT KNOT_EVT_FLAG_UPPER_THRESHOLD 0
         (int_obj 0) (int_obj 100) (int_obj 0))
      (map (fun x => (now, int_obj x)) [90; 101; 105; 99; 102])
      = [false; true; false; false; true] /\
    set_basic_seq
      (channel 0 KNOT_VALUE_TYPE_FLOAT KNOT_EVT_FLAG_UPPER_THRESHOLD 0
         (float_obj 0) (float_obj 100) (float_obj 0))
      (map (fun x => (now, float_obj x)) [90; 101; 105; 99; 102])
      = [false; true; false; false; true] /\
    set_basic_seq
      (channel 0 KNOT_VALUE_TYPE_INT KNOT_EVT_FLAG_UPPER_THRESHOLD 0
         (int_obj 0) (int_obj 100) (int_obj 0))
      (map (fun x => (now, int_obj x)) [-1; 100; 101; 100; 101])
      = [false; false; true; false; true] /\
    set_basic_seq
      (channel 0 KNOT_VALUE_TYPE_FLOAT KNOT_EVT_FLAG_UPPER_THRESHOLD 0
         (float_obj 0) (float_obj 100) (float_obj 0))
      (map (fun x => (now, float_obj x)) [-1; 100; 101; 100; 101])
      = [false; false; true; false; true] /\
    set_basic_seq
      (channel 0 KNOT_VALUE_TYPE_INT KNOT_EVT_FLAG_LOWER_THRESHOLD 0
         (int_obj 10) (int_obj 0) (int_obj 0))
      (map (fun x => (now, int_obj x)) [20; 9; 5; 10; -3])
      = [false; true; false; false; true] /\
    set_basic_seq
      (channel 0 KNOT_VALUE_TYPE_FLOAT KNOT_EVT_FLAG_LOWER_THRESHOLD 0
         (float_obj 10) (float_obj 0) (float_obj 0))
      (map (fun x => (now, float_obj x)) [20; 9; 5; 10; -3])
      = [false; true; false; false; true].
Proof.
  intros now p pvalue Hk flags above below.
  destruct (set_basic_numeric now p pvalue Hk)
    as (p' & Hcall & Hup & Hlo & Hsch & Hcfg & Hid & Hwait & Hsend).
  assert (Ha : forall v,
    beyond_upper p v = has_flag KNOT_EVT_FLAG_UPPER_THRESHOLD flags && above v)
    by (intros v; apply beyond_upper_order, Hk).
  assert (Hb : forall v,
    beyond_lower p v = has_flag KNOT_EVT_FLAG_LOWER_THRESHOLD flags && below v)
    by (intros v; apply beyond_lower_order, Hk).
  assert (Ht : has_flag KNOT_EVT_FLAG_TIME flags = false ->
               fst (check_timeout now p) = false).
  { intros H. rewrite check_timeout_no_timer; [reflexivity | exact H]. }
  assert (Hc : has_flag KNOT_EVT_FLAG_CHANGE flags = false ->
               numeric_change p pvalue = false).
  { intros H. unfold numeric_change, check_int_change, check_int_change_fval.
    fold flags. rewrite H. destruct (value_type (schema p)); reflexivity. }
  split; [| split; [| split; [| split; [| split]]]].
  - do 2 eexists. split; [exact Hcall |].
    rewrite <- Ha, <- Hb, Hup, Hlo.
    split; [reflexivity |]. split; [reflexivity |].
    split; [| split].
    + intros -> ->. cbn [andb negb]. rewrite !orb_true_r. reflexivity.
    + intros -> ->. cbn [andb negb]. rewrite !orb_true_r. reflexivity.
    + intros H. rewrite (Hc H), orb_false_r. reflexivity.
  - intros Hf Hs. rewrite Hcall. cbn [fst].
    rewrite Hs, Ht, Hc, Ha, Hb, Hf by (rewrite Hf; reflexivity).
    change (has_flag KNOT_EVT_FLAG_UPPER_THRESHOLD KNOT_EVT_FLAG_UPPER_THRESHOLD)
      with true.
    change (has_flag KNOT_EVT_FLAG_LOWER_THRESHOLD KNOT_EVT_FLAG_UPPER_THRESHOLD)
      with false.
    cbn [orb andb]. rewrite orb_false_r.
    rewrite andb_true_iff, negb_true_iff. reflexivity.
  - intros Hf Hs. rewrite Hcall. cbn [fst].
    rewrite Hs, Ht, Hc, Ha, Hb, Hf by (rewrite Hf; reflexivity).
    change (has_flag KNOT_EVT_FLAG_UPPER_THRESHOLD KNOT_EVT_FLAG_LOWER_THRESHOLD)
      with false.
    change (has_flag KNOT_EVT_FLAG_LOWER_THRESHOLD KNOT_EVT_FLAG_LOWER_THRESHOLD)
      with true.
    cbn [orb andb].
    rewrite andb_true_iff, negb_true_iff. reflexivity.
  - intros Hf Hs Hw calls. rewrite upper_only_seq by assumption.
    f_equal. apply map_ext. intros c. rewrite Ha, Hf. reflexivity.
  - intros Hf Hs Hw calls. rewrite lower_only_seq by assumption.
    f_equal. apply map_ext. intros c. rewrite Hb, Hf. reflexivity.
  - repeat split; vm_compute; reflexivity.
Qed.

Lemma C2_threshold_edge_triggered_witness :
  set_basic_seq
    (channel 0 KNOT_VALUE_TYPE_INT KNOT_EVT_FLAG_UPPER_THRESHOLD 0
       (int_obj 0) (int_obj 100) (int_obj 0))
    [(0, int_obj 101); (7, int_obj 105)]
  = [true; false].
Proof.
  pose proof (C2_threshold_edge_triggered 0
    (channel 0 KNOT_VALUE_TYPE_INT KNOT_EVT_FLAG_UPPER_THRESHOLD 0
       (int_obj 0) (int_obj 100) (int_obj 0))
    (int_obj 101) eq_refl) as (_ & _ & _ & Hseq & _).
  rewrite (Hseq eq_refl eq_refl eq_refl). reflexivity.
Defined.

(** ** What a set call leaves untouched *)

Lemma set_basic_frame now p pvalue :
  exists ret p',
    knot_proxy_value_set_basic now (Some p) pvalue = (ret, Some p') /\
    id p' = id p /\ schema p' = schema p /\ config p' = config p /\
    wait_resp p' = wait_resp p /\ rlen p' = rlen p /\
    poll_cb p' = poll_cb p /\ changed_cb p' = changed_cb p /\
    send p' = (if ret then wait_resp p else send p) /\
    (ret = false -> olen p' = olen p /\ value p' = value p).
Proof.
  open_set_basic now p t q.
  destruct (value_type (schema q)); cbn zeta;
    repeat match goal with
    | |- context [if ?c then _ else _] => destruct c
    end;
    do 2 eexists; (split; [reflexivity |]); cbn; repeat split;
    try congruence; intros ?; try discriminate; split; congruence.
Qed.

Lemma set_string_frame N now p pvalue len ret p' :
  knot_proxy_value_set_string N now (Some p) pvalue len = Some (ret, Some p') ->
  id p' = id p /\ schema p' = schema p /\ config p' = config p /\
  wait_resp p' = wait_resp p /\
  poll_cb p' = poll_cb p /\ changed_cb p' = changed_cb p /\
  send p' = (if ret then wait_resp p else send p) /\
  (if ret
   then 0 <= MIN N len /\ rlen p' = u8 (MIN N len) /\ olen p' = u8 (MIN N len)
        /\ raw (value p') = memcpy (raw (value p)) pvalue (Z.to_nat (MIN N len))
   else p' = p).
Proof.
  unfold knot_proxy_value_set_string.
  destruct (is_raw (value_type (schema p))); cbn [negb].
  2:{ intros [= <- <-]. repeat split. }
  pose proof (check_timeout_frame now p) as F.
  destruct (check_timeout now p) as [t q] eqn:E. cbn [snd] in F.
  destruct F as (Fid & Fschema & Fvalue & Fsend & Fwait & Fupper & Flower
                 & Folen & Frlen & Fconfig & Fpoll & Fchanged).
  destruct (check_raw_change q pvalue len) as [change |]; [| discriminate].
  destruct (negb (send q) && negb change && negb t) eqn:Hn.
  - intros [= <- <-].
    apply andb_true_iff in Hn as [_ Ht]. apply negb_true_iff in Ht. subst t.
    destruct (check_timeout_cases now p) as [H | H]; rewrite H in E;
      [| discriminate E].
    injection E as <-. repeat split.
  - destruct (MIN N len <? 0) eqn:Hlen; [discriminate |]. cbn [orb].
    destruct (Z.of_nat (length pvalue) <? MIN N len); [discriminate |].
    intros [= <- <-]. cbn. apply Z.ltb_ge in Hlen.
    rewrite Fvalue. repeat split; congruence.
Qed.

(** The comparison of the raw set is defined for a length within the
    payload when the stored length is within the stored object. *)
Lemma check_raw_change_defined p pvalue len :
  0 <= len <= Z.of_nat (length pvalue) ->
  rlen p <= Z.of_nat (length (raw (value p))) ->
  exists change, check_raw_change p pvalue len = Some change.
Proof.
  intros Hlen Hr. unfold check_raw_change, memcmp_ne.
  destruct (negb (has_flag _ _)); [eauto |].
  destruct (rlen p =? len) eqn:E; cbn [negb]; [| eauto].
  apply Z.eqb_eq in E.
  destruct (len <? 0) eqn:E0; [apply Z.ltb_lt in E0; lia |].
  destruct (length (raw (value p)) <? Z.to_nat len)%nat eqn:E1;
    [apply Nat.ltb_lt in E1; lia |].
  destruct (length pvalue <? Z.to_nat len)%nat eqn:E2;
    [apply Nat.ltb_lt in E2; lia |].
  cbn [orb]. eauto.
Qed.

(** A raw set that triggers has read its payload within the object given. *)
Lemma set_string_reads_payload N now p pvalue len p' :
  knot_proxy_value_set_string N now (Some p) pvalue len = Some (true, Some p') ->
  MIN N len <= Z.of_nat (length pvalue).
Proof.
  unfold knot_proxy_value_set_string.
  destruct (is_raw (value_type (schema p))); cbn [negb]; [| discriminate].
  destruct (check_timeout now p) as [t q].
  destruct (check_raw_change q pvalue len) as [change |]; [| discriminate].
  destruct (negb (send q) && negb change && negb t); [discriminate |].
  destruct (MIN N len <? 0); [discriminate |]. cbn [orb].
  destruct (Z.of_nat (length pvalue) <? MIN N len) eqn:E; [discriminate |].
  intros _. apply Z.ltb_ge, E.
Qed.

(** ** Channels of kind Float32 *)

(** C1.  The Float32 case of the set function evaluates the change condition
    with the macro written for Int32: the candidate is compared with the
    [s32_t] member of the stored union, that is with the stored bit pattern
    read as an integer.  With OnChange as the only flag and the float 1.0
    stored, the candidate 1.0 (equal to the stored float) triggers, and the
    candidate 1065353216.0 (unequal to it) does not; the float comparison of
    [check_float_change] gives the opposite answers. *)
Theorem C1_float_change_compares_int_member :
  forall now : Z,
    let p := channel 0 KNOT_VALUE_TYPE_FLOAT KNOT_EVT_FLAG_CHANGE 0
               (float_obj 0) (float_obj 0) (float_obj 1) in
    val_f (float_obj 1) = val_f (value p) /\
    check_float_change p (val_f (float_obj 1)) = false /\
    fst (knot_proxy_value_set_basic now (Some p) (float_obj 1)) = true /\
    check_float_change p (val_f (float_obj 1065353216)) = true /\
    fst (knot_proxy_value_set_basic now (Some p) (float_obj 1065353216)) = false.
Proof.
  intros now p. repeat split; reflexivity.
Qed.

(** ** Rejected set calls *)

Lemma set_null_handle N now pvalue len :
  knot_proxy_value_set_basic now None pvalue = (false, None) /\
  knot_proxy_value_set_string N now None pvalue len = Some (false, None).
Proof. split; reflexivity. Qed.

Lemma set_string_unsupported_kind N now p pvalue len :
  is_raw (value_type (schema p)) = false ->
  knot_proxy_value_set_string N now (Some p) pvalue len = Some (false, Some p).
Proof.
  intros H. unfold knot_proxy_value_set_string. rewrite H. reflexivity.
Qed.

Lemma set_basic_unsupported_kind now p pvalue :
  is_numeric (value_type (schema p)) = false ->
  value_type (schema p) <> KNOT_VALUE_TYPE_BOOL ->
  knot_proxy_value_set_basic now (Some p) pvalue
    = (false, Some (snd (check_timeout now p))).
Proof.
  intros Hn Hb. open_set_basic now p t q. rewrite Fschema.
  destruct (value_type (schema p)); try discriminate Hn; try reflexivity.
  contradiction Hb; reflexivity.
Qed.

(** C5.  A NULL handle and the raw set on a channel of another kind are
    rejected without any change, but the basic set runs the timer check
    before it looks at the kind: on a Raw channel with OnTimer of one second
    and [last_timeout = 0], a basic set at uptime 5000 ms returns false and
    leaves [last_timeout = 5000]. *)
Theorem C5_set_basic_unsupported_kind_rebases_timer :
  let p := channel 2 KNOT_VALUE_TYPE_RAW KNOT_EVT_FLAG_TIME 1 [] [] [] in
  last_timeout p = 0 /\
  exists p',
    knot_proxy_value_set_basic 5000 (Some p) (int_obj 7) = (false, Some p') /\
    last_timeout p' = 5000 /\ p' <> p.
Proof.
  intros p. split; [reflexivity |].
  eexists. split; [reflexivity |]. split; [reflexivity |].
  intros H. apply (f_equal last_timeout) in H. discriminate H.
Qed.

(** ** Effects of a triggering set call *)

Lemma set_basic_triggered now p pvalue p' :
  knot_proxy_value_set_basic now (Some p) pvalue = (true, Some p') ->
  wait_resp p' = wait_resp p /\ send p' = wait_resp p /\
  match value_type (schema p) with
  | KNOT_VALUE_TYPE_BOOL => val_b (value p') = val_b pvalue /\ olen p' = 1
  | KNOT_VALUE_TYPE_INT => val_i (value p') = val_i pvalue /\ olen p' = 4
  | KNOT_VALUE_TYPE_FLOAT => val_f (value p') = val_f pvalue /\ olen p' = 4
  | _ => False
  end.
Proof.
  open_set_basic now p t q. rewrite Fschema.
  destruct (value_type (schema p)); cbn zeta;
    repeat match goal with
    | |- context [if ?c then _ else _] => destruct c
    end;
    intros [= <-];
    cbn [wait_resp send value olen set_send set_value set_olen
         set_upper_flag set_lower_flag];
    rewrite ?val_b_set_val_b, ?val_i_idem, ?val_f_idem; auto.
Qed.

Lemma set_basic_forced now p pvalue :
  is_numeric (value_type (schema p)) = true
  \/ value_type (schema p) = KNOT_VALUE_TYPE_BOOL ->
  send p = true \/ fst (check_timeout now p) = true ->
  fst (knot_proxy_value_set_basic now (Some p) pvalue) = true.
Proof.
  intros Hk Hc.
  assert (Hor : send p || fst (check_timeout now p) = true).
  { destruct Hc as [-> | ->]; [reflexivity | apply orb_true_r]. }
  open_set_basic now p t q. rewrite Fschema, Fsend. cbn [fst] in Hor.
  destruct Hk as [Hk | Hk].
  - destruct (value_type (schema p)); try discriminate Hk;
      rewrite Hor; reflexivity.
  - rewrite Hk, Hor. reflexivity.
Qed.

Lemma slot_set_slot st i p q :
  slot st i = Some p -> slot (set_slot st i q) i = Some q.
Proof.
  unfold slot, set_slot. cbn. intros H.
  apply list_lookup_insert_eq. eapply lookup_lt_Some, H.
Qed.

(** C4, counterexample.  A Bool channel with OnChange, stored value false,
    nothing pending and no acknowledgement awaited: the candidate true
    triggers and is stored, yet [send] is false after the call. *)
Lemma C4_counterexample :
  let p := channel 1 KNOT_VALUE_TYPE_BOOL KNOT_EVT_FLAG_CHANGE 0 [] [] [0] in
  exists p',
    knot_proxy_value_set_basic 0 (Some p) [1] = (true, Some p') /\
    val_b (value p') = true /\ send p' = false.
Proof.
  intros p. eexists. repeat split.
Qed.

(** C4, amended.  When a set call triggers, the candidate replaces the
    stored value (for a raw value the first [MIN(KNOT_DATA_RAW_SIZE, len)]
    bytes), [olen] becomes the size of the value, [wait_resp] is left as it
    was and [send] becomes equal to [wait_resp]: the channel stays pending
    only if an acknowledgement is awaited.  A forced send or an elapsed
    timer triggers on every supported kind.  [wait_resp] is what the caller
    of [proxy_read] passed: after a poll whose callback makes one basic set
    call, [wait_resp] has that value, and so has [send] if a value is
    returned. *)
Theorem C4_trigger_effects :
  (forall now p pvalue p',
     knot_proxy_value_set_basic now (Some p) pvalue = (true, Some p') ->
     wait_resp p' = wait_resp p /\ send p' = wait_resp p /\
     match value_type (schema p) with
     | KNOT_VALUE_TYPE_BOOL => val_b (value p') = val_b pvalue /\ olen p' = 1
     | KNOT_VALUE_TYPE_INT => val_i (value p') = val_i pvalue /\ olen p' = 4
     | KNOT_VALUE_TYPE_FLOAT => val_f (value p') = val_f pvalue /\ olen p' = 4
     | _ => False
     end) /\
  (forall N now p pvalue len p',
     knot_proxy_value_set_string N now (Some p) pvalue len
       = Some (true, Some p') ->
     wait_resp p' = wait_resp p /\ send p' = wait_resp p /\
     raw (value p') = memcpy (raw (value p)) pvalue (Z.to_nat (MIN N len)) /\
     olen p' = u8 (MIN N len) /\ rlen p' = u8 (MIN N len)) /\
  (forall now p pvalue,
     is_numeric (value_type (schema p)) = true
     \/ value_type (schema p) = KNOT_VALUE_TYPE_BOOL ->
     send p = true \/ fst (check_timeout now p) = true ->
     fst (knot_proxy_value_set_basic now (Some p) pvalue) = true) /\
  (forall N st ident w now pvalue p,
     slot st ident = Some p -> id p <> 0xff -> poll_cb p <> None ->
     exists res p',
       proxy_read N st ident w [Call_set_basic now pvalue]
         = Some (res, set_slot st ident p') /\
       slot (set_slot st ident p') ident = Some p' /\
       wait_resp p' = w /\
       (res <> None -> send p' = w)).
Proof.
  split; [| split; [| split]].
  - apply set_basic_triggered.
  - intros N now p pvalue len p' H.
    apply set_string_frame in H.
    destruct H as (_ & _ & _ & Hw & _ & _ & Hs & _ & Hr & Ho & Hv). auto.
  - apply set_basic_forced.
  - intros N st ident w now pvalue p Hslot Hid Hcb.
    unfold proxy_read. rewrite Hslot.
    destruct (id p =? 255) eqn:E; [apply Z.eqb_eq in E; contradiction |].
    destruct (poll_cb p) eqn:Ecb; [| contradiction]. cbn [is_null].
    cbn [run_callback].
    destruct (set_basic_frame now (set_wait_resp w (set_olen 0 p)) pvalue)
      as (ret & p' & Hcall & _ & _ & _ & Hw & _ & _ & _ & Hs & Hno).
    rewrite Hcall. cbn [snd].
    destruct (olen p' <=? 0) eqn:Hol; do 2 eexists;
      (split; [reflexivity |]);
      (split; [eapply slot_set_slot, Hslot |]);
      (split; [exact Hw |]).
    + intros Hres. contradiction Hres; reflexivity.
    + intros _. destruct ret; [exact Hs |].
      destruct (Hno eq_refl) as [Ho _]. cbn in Ho.
      rewrite Ho in Hol. discriminate Hol.
Qed.

Lemma C4_trigger_effects_witness :
  exists p',
    knot_proxy_value_set_basic 0
      (Some (channel 1 KNOT_VALUE_TYPE_BOOL KNOT_EVT_FLAG_CHANGE 0 [] [] [0])) [1]
      = (true, Some p') /\
    send p' = false /\ val_b (value p') = true /\ olen p' = 1.
Proof.
  eexists. split; [reflexivity |].
  destruct C4_trigger_effects as (H & _).
  destruct (H 0 (channel 1 KNOT_VALUE_TYPE_BOOL KNOT_EVT_FLAG_CHANGE 0 [] [] [0])
              [1] _ eq_refl) as (_ & Hs & Hv & Ho).
  repeat split; assumption.
Defined.

(** ** The timer *)

Lemma check_timeout_timer now p :
  has_flag KNOT_EVT_FLAG_TIME (event_flags (config p)) = true ->
  0 <= time_sec (config p) <= 65535 ->
  check_timeout now p =
    if time_sec (config p) * 1000 <=? u32 (u32 now - last_timeout p)
    then (true, set_last_timeout (u32 now) p) else (false, p).
Proof.
  intros Hf Hp. unfold check_timeout. rewrite Hf. cbn [negb].
  rewrite (u32_small (time_sec (config p) * 1000)) by lia. reflexivity.
Qed.

Lemma u32_elapsed now last :
  0 <= last <= now -> now < 2^32 -> u32 (u32 now - last) = now - last.
Proof. intros H1 H2. rewrite (u32_small now) by lia. apply u32_small. lia. Qed.

(** One basic set call on a channel whose only event flag is the timer. *)
Lemma timer_only_step now p pvalue :
  is_basic (value_type (schema p)) = true ->
  event_flags (config p) = KNOT_EVT_FLAG_TIME ->
  send p = false ->
  exists p',
    knot_proxy_value_set_basic now (Some p) pvalue
      = (fst (check_timeout now p), Some p') /\
    schema p' = schema p /\ config p' = config p /\
    send p' = (if fst (check_timeout now p) then wait_resp p else false) /\
    wait_resp p' = wait_resp p /\
    last_timeout p' = last_timeout (snd (check_timeout now p)).
Proof.
  intros Hk Hf Hs. open_set_basic now p t q. cbn [fst snd].
  unfold check_bool_change, check_int_change, check_int_change_fval,
    check_int_upper_threshold, check_int_lower_threshold,
    check_float_upper_threshold, check_float_lower_threshold.
  rewrite Fschema, Fconfig, Fsend, Hf, Hs.
  change (has_flag KNOT_EVT_FLAG_CHANGE KNOT_EVT_FLAG_TIME) with false.
  change (has_flag KNOT_EVT_FLAG_UPPER_THRESHOLD KNOT_EVT_FLAG_TIME) with false.
  change (has_flag KNOT_EVT_FLAG_LOWER_THRESHOLD KNOT_EVT_FLAG_TIME) with false.
  cbn [andb orb].
  destruct (value_type (schema p)); try discriminate Hk;
    rewrite ?orb_false_r; destruct t; eexists; (split; [reflexivity |]);
    cbn; repeat split; congruence.
Qed.

Lemma timer_only_seq calls : forall p,
  is_basic (value_type (schema p)) = true ->
  event_flags (config p) = KNOT_EVT_FLAG_TIME ->
  0 <= time_sec (config p) <= 65535 ->
  send p = false -> wait_resp p = false ->
  set_basic_seq p calls
    = timer_fires (time_sec (config p)) (last_timeout p) (map fst calls).
Proof.
  induction calls as [| [now pvalue] calls IH]; intros p Hk Hf Hp Hs Hw.
  - reflexivity.
  - cbn [set_basic_seq map timer_fires fst].
    destruct (timer_only_step now p pvalue Hk Hf Hs)
      as (p' & Hcall & Hsch & Hcfg & Hs' & Hw' & Hl).
    rewrite Hcall.
    rewrite check_timeout_timer in * by (try rewrite Hf; auto).
    rewrite Hw in Hs'.
    assert (Hs'' : send p' = false).
    { destruct (_ <=? _) in Hs'; exact Hs'. }
    rewrite IH by congruence. rewrite Hcfg, Hl.
    destruct (time_sec (config p) * 1000 <=? u32 (u32 now - last_timeout p));
      cbn [fst snd last_timeout set_last_timeout];
      rewrite ?(u32_small (u32 now)) by apply u32_range; reflexivity.
Qed.

(** One raw set call on a channel whose only event flag is the timer. *)
Lemma timer_only_raw N now p pvalue len :
  event_flags (config p) = KNOT_EVT_FLAG_TIME -> send p = false ->
  is_raw (value_type (schema p)) = true ->
  0 <= N -> 0 <= len <= Z.of_nat (length pvalue) ->
  exists p',
    knot_proxy_value_set_string N now (Some p) pvalue len
      = Some (fst (check_timeout now p), Some p') /\
    schema p' = schema p /\ config p' = config p /\
    send p' = (if fst (check_timeout now p) then wait_resp p else false) /\
    wait_resp p' = wait_resp p /\
    last_timeout p' = last_timeout (snd (check_timeout now p)) /\
    (fst (check_timeout now p) = false -> p' = p).
Proof.
  intros Hf Hs Hk HN Hlen.
  unfold knot_proxy_value_set_string. rewrite Hk. cbn [negb].
  pose proof (check_timeout_frame now p) as F.
  pose proof (check_timeout_cases now p) as Hc.
  destruct (check_timeout now p) as [t q]. cbn [snd fst] in *.
  destruct F as (_ & Fschema & _ & Fsend & Fwait & _ & _ & _ & _ & Fconfig & _).
  unfold check_raw_change. rewrite Fsend, Fconfig, Hf, Hs.
  change (has_flag KNOT_EVT_FLAG_CHANGE KNOT_EVT_FLAG_TIME) with false.
  cbn [andb negb]. destruct t; cbn [negb].
  - rewrite MIN_min.
    destruct (Z.min N len <? 0) eqn:E; [apply Z.ltb_lt in E; lia |].
    destruct (Z.of_nat (length pvalue) <? Z.min N len) eqn:E2;
      [apply Z.ltb_lt in E2; lia |].
    cbn [orb]. eexists. split; [reflexivity |]. cbn.
    repeat split; congruence.
  - destruct Hc as [Hc | Hc]; [| discriminate Hc]. injection Hc as ->.
    exists p. repeat split; congruence.
Qed.

Lemma timer_only_raw_seq N calls : forall p,
  event_flags (config p) = KNOT_EVT_FLAG_TIME ->
  0 <= time_sec (config p) <= 65535 ->
  send p = false -> wait_resp p = false ->
  is_raw (value_type (schema p)) = true -> 0 <= N ->
  Forall (fun c => 0 <= snd c <= Z.of_nat (length (snd (fst c)))) calls ->
  set_string_seq N p calls
    = Some (timer_fires (time_sec (config p)) (last_timeout p)
              (map (fun c => fst (fst c)) calls)).
Proof.
  induction calls as [| [[now pvalue] len] calls IH];
    intros p Hf Hp Hs Hw Hk HN Hall.
  - reflexivity.
  - cbn [set_string_seq map timer_fires fst snd].
    apply Forall_cons in Hall as [Hlen Hall]. cbn [fst snd] in Hlen.
    destruct (timer_only_raw N now p pvalue len Hf Hs Hk HN Hlen)
      as (p' & Hcall & Hsch & Hcfg & Hs' & Hw' & Hl & _).
    rewrite Hcall.
    rewrite check_timeout_timer in * by (try rewrite Hf; auto).
    rewrite Hw in Hs'.
    assert (Hs'' : send p' = false).
    { destruct (_ <=? _) in Hs'; exact Hs'. }
    rewrite IH by congruence. rewrite Hcfg, Hl.
    destruct (time_sec (config p) * 1000 <=? u32 (u32 now - last_timeout p));
      cbn [fst snd last_timeout set_last_timeout];
      rewrite ?(u32_small (u32 now)) by apply u32_range; reflexivity.
Qed.

(** C8, counterexample.  An Int32 channel with OnTimer as its only flag, a
    period of 5 s and an acknowledgement awaited ([wait_resp] as
    [proxy_read] stores it for a caller that waits for the response): the
    timer fires at 5 s, the send stays pending, and the calls at 6 s and
    9.999 s trigger again within the same interval. *)
Lemma C8_counterexample :
  set_basic_seq
    (set_wait_resp true
       (channel 0 KNOT_VALUE_TYPE_INT KNOT_EVT_FLAG_TIME 5
          (int_obj 0) (int_obj 0) (int_obj 21)))
    (map (fun t => (t, int_obj 21))
       [1000; 4999; 5000; 6000; 9999; 10000; 14000; 15000])
  = [false; false; true; true; true; true; true; true].
Proof. vm_compute. reflexivity. Qed.

(** C8, amended.  On a channel with OnTimer and a period of [time_sec]
    seconds the timeout condition of a set call holds exactly when the
    milliseconds elapsed since [last_timeout] (the 32-bit difference, which
    is the true difference while the clock has not wrapped) are at least
    [1000 * time_sec]; when it holds [last_timeout] becomes the current
    time, otherwise nothing changes.  If OnTimer is the only flag and no
    send is pending, a set call of the channel's kind (the basic set on a
    Bool, Int32 or Float32 channel, the raw set on a Raw channel) triggers
    exactly when the timeout condition holds, whatever the candidate, and
    leaves [last_timeout] as the timer check left it.  If moreover no
    acknowledgement is awaited, a run of set calls triggers at the calls
    [timer_fires] selects, which depend on the call times only: once per
    elapsed period.  With a period of 5 s, calls at 1, 4.999, 5, 6, 9.999,
    10, 14 and 15 s trigger at 5, 10 and 15 s. *)
Theorem C8_timeout_periodicity :
  forall (now : Z) (p : knot_proxy),
    has_flag KNOT_EVT_FLAG_TIME (event_flags (config p)) = true ->
    0 <= time_sec (config p) <= 65535 ->
    let elapsed := u32 (u32 now - last_timeout p) in
    (0 <= last_timeout p <= now -> now < 2^32 ->
     elapsed = now - last_timeout p) /\
    (fst (check_timeout now p) = true <-> time_sec (config p) * 1000 <= elapsed) /\
    (fst (check_timeout now p) = true ->
     snd (check_timeout now p) = set_last_timeout (u32 now) p /\
     last_timeout (snd (check_timeout now p)) = u32 now) /\
    (fst (check_timeout now p) = false -> snd (check_timeout now p) = p) /\
    (event_flags (config p) = KNOT_EVT_FLAG_TIME -> send p = false ->
     is_basic (value_type (schema p)) = true ->
     forall pvalue,
     exists p',
       knot_proxy_value_set_basic now (Some p) pvalue
         = (fst (check_timeout now p), Some p') /\
       last_timeout p' = last_timeout (snd (check_timeout now p))) /\
    (event_flags (config p) = KNOT_EVT_FLAG_TIME -> send p = false ->
     is_raw (value_type (schema p)) = true ->
     forall N pvalue len,
     0 <= N -> 0 <= len <= Z.of_nat (length pvalue) ->
     exists p',
       knot_proxy_value_set_string N now (Some p) pvalue len
         = Some (fst (check_timeout now p), Some p') /\
       last_timeout p' = last_timeout (snd (check_timeout now p)) /\
       (fst (check_timeout now p) = false -> p' = p)) /\
    (event_flags (config p) = KNOT_EVT_FLAG_TIME -> send p = false ->
     wait_resp p = false -> is_basic (value_type (schema p)) = true ->
     forall calls,
       set_basic_seq p calls
         = timer_fires (time_sec (config p)) (last_timeout p) (map fst calls)) /\
    (event_flags (config p) = KNOT_EVT_FLAG_TIME -> send p = false ->
     wait_resp p = false -> is_raw (value_type (schema p)) = true ->
     forall N calls,
     0 <= N ->
     Forall (fun c => 0 <= snd c <= Z.of_nat (length (snd (fst c)))) calls ->
     set_string_seq N p calls
       = Some (timer_fires (time_sec (config p)) (last_timeout p)
                 (map (fun c => fst (fst c)) calls))) /\
    (forall pvalue,
       set_basic_seq
         (channel 0 KNOT_VALUE_TYPE_INT KNOT_EVT_FLAG_TIME 5
            (int_obj 0) (int_obj 0) pvalue)
         (map (fun t => (t, pvalue))
            [1000; 4999; 5000; 6000; 9999; 10000; 14000; 15000])
       = [false; false; true; false; false; true; false; true]) /\
    (forall pvalue,
       (8 <= length pvalue)%nat ->
       set_string_seq 16
         (channel 0 KNOT_VALUE_TYPE_RAW KNOT_EVT_FLAG_TIME 5 [] []
            (replicate 16 0))
         (map (fun t => (t, pvalue, 8))
            [1000; 4999; 5000; 6000; 9999; 10000; 14000; 15000])
       = Some [false; false; true; false; false; true; false; true]).
Proof.
  intros now p Hf Hp elapsed. subst elapsed.
  pose proof (timer_only_raw) as Hraw.
  pose proof (timer_only_step now p) as Hbasic.
  rewrite (check_timeout_timer now p Hf Hp) in *.
  split; [| split; [| split; [| split; [| split; [| split; [| split;
    [| split; [| split]]]]]]]].
  - apply u32_elapsed.
  - destruct (_ <=? _) eqn:E; cbn [fst]; split; intros H; try discriminate;
      try reflexivity.
    + apply Z.leb_le, E.
    + apply Z.leb_le in H. congruence.
  - destruct (_ <=? _); cbn [fst snd]; intros H; try discriminate.
    split; [reflexivity |]. cbn. apply u32_small, u32_range.
  - destruct (_ <=? _); cbn [fst snd]; intros H; try discriminate. reflexivity.
  - intros Hfl Hs Hk pvalue.
    destruct (Hbasic pvalue Hk Hfl Hs) as (p' & Hcall & _ & _ & _ & _ & Hl).
    exists p'. split; [exact Hcall | exact Hl].
  - intros Hfl Hs Hk N pvalue len HN Hlen.
    destruct (Hraw N now p pvalue len Hfl Hs Hk HN Hlen)
      as (p' & Hcall & _ & _ & _ & _ & Hl & Hsame).
    rewrite (check_timeout_timer now p Hf Hp) in *.
    exists p'. auto.
  - intros Hfl Hs Hw Hk calls. apply timer_only_seq; assumption.
  - intros Hfl Hs Hw Hk N calls HN Hall.
    apply timer_only_raw_seq; assumption.
  - intros pvalue. rewrite timer_only_seq; try reflexivity. cbn; lia.
  - intros pvalue Hlen. rewrite timer_only_raw_seq; try reflexivity.
    + cbn; lia.
    + lia.
    + cbn [map]. repeat (apply Forall_cons; split; [cbn [fst snd]; lia |]).
      apply Forall_nil. exact I.
Qed.

Lemma C8_timeout_periodicity_witness :
  fst (check_timeout 5000
         (channel 0 KNOT_VALUE_TYPE_INT KNOT_EVT_FLAG_TIME 5
            (int_obj 0) (int_obj 0) (int_obj 21))) = true /\
  fst (knot_proxy_value_set_basic 4999
         (Some (channel 0 KNOT_VALUE_TYPE_INT KNOT_EVT_FLAG_TIME 5
                  (int_obj 0) (int_obj 0) (int_obj 21))) (int_obj 22)) = false.
Proof.
  pose (p := channel 0 KNOT_VALUE_TYPE_INT KNOT_EVT_FLAG_TIME 5
               (int_obj 0) (int_obj 0) (int_obj 21)).
  assert (Hp : 0 <= time_sec (config p) <= 65535) by (cbn; lia).
  split.
  - destruct (C8_timeout_periodicity 5000 p eq_refl Hp) as (_ & Hiff & _).
    apply Hiff. apply Z.leb_le. reflexivity.
  - destruct (C8_timeout_periodicity 4999 p eq_refl Hp)
      as (_ & _ & _ & _ & Hset & _).
    destruct (Hset eq_refl eq_refl eq_refl (int_obj 22)) as (p' & Hcall & _).
    unfold p in Hcall. rewrite Hcall. reflexivity.
Defined.

(** ** Configuration *)

(** A configuration call changes at most the configuration of the element
    it names. *)
Lemma set_config_outcome N valid st ident event_args b st' :
  knot_proxy_set_config N valid st ident event_args = Some (b, st') ->
  st' = st \/
  exists p cfg, slot st ident = Some p /\ id p = ident /\
                st' = set_slot st ident (set_config cfg p).
Proof.
  unfold knot_proxy_set_config.
  destruct (pool_size st <=? ident); [intros [= <- <-]; auto |].
  destruct (slot st ident) as [p |]; [| intros [= <- <-]; auto].
  destruct (id p =? ident) eqn:Hid; cbn [negb]; [| intros [= <- <-]; auto].
  apply Z.eqb_eq in Hid.
  destruct (read_events _ _ _ _ _ _) as [| | flags timeout lower upper];
    [discriminate | intros [= <- <-]; auto |].
  destruct (valid _ _ _ _ _ =? 0); cbn [negb]; [| intros [= <- <-]; auto].
  intros [= <- <-]. right. eauto.
Qed.

(** C7.  [knot_proxy_set_config] either fails and leaves the whole state as
    it was, or succeeds and replaces the flags and the timer period by those
    read from the arguments alone (the limits are replaced for the threshold
    flags given, and nothing but the configuration of that channel changes).
    It fails when the channel is out of range or not registered, when an
    argument is not a recognised flag and when the validator rejects. *)
Theorem C7_config_atomic :
  forall (N : Z)
         (valid : Z -> knot_value_kind -> Z -> knot_value_type -> knot_value_type -> Z)
         (st : knot_state) (ident : Z) (event_args : list va_arg_t),
    (forall st',
       knot_proxy_set_config N valid st ident event_args = Some (false, st') ->
       st' = st) /\
    (forall st',
       knot_proxy_set_config N valid st ident event_args = Some (true, st') ->
       exists p flags timeout lower upper,
         slot st ident = Some p /\ id p = ident /\
         read_events (value_type (schema p)) event_args KNOT_EVT_FLAG_NONE 0
           (set_val_i (zero_value N) 0) (set_val_i (zero_value N) 0)
           = Events_done flags timeout lower upper /\
         valid flags (value_type (schema p)) timeout lower upper = 0 /\
         st' = set_slot st ident
                 (set_config
                    {| event_flags := flags; time_sec := timeout;
                       lower_limit :=
                         if has_flag KNOT_EVT_FLAG_LOWER_THRESHOLD flags
                         then lower else lower_limit (config p);
                       upper_limit :=
                         if has_flag KNOT_EVT_FLAG_UPPER_THRESHOLD flags
                         then upper else upper_limit (config p) |} p)) /\
    (pool_size st <= ident ->
     knot_proxy_set_config N valid st ident event_args = Some (false, st)) /\
    (forall p, slot st ident = Some p -> id p <> ident ->
     knot_proxy_set_config N valid st ident event_args = Some (false, st)) /\
    (forall p, slot st ident = Some p ->
     read_events (value_type (schema p)) event_args KNOT_EVT_FLAG_NONE 0
       (set_val_i (zero_value N) 0) (set_val_i (zero_value N) 0)
       = Events_invalid ->
     knot_proxy_set_config N valid st ident event_args = Some (false, st)) /\
    (forall p flags timeout lower upper, slot st ident = Some p ->
     read_events (value_type (schema p)) event_args KNOT_EVT_FLAG_NONE 0
       (set_val_i (zero_value N) 0) (set_val_i (zero_value N) 0)
       = Events_done flags timeout lower upper ->
     valid flags (value_type (schema p)) timeout lower upper <> 0 ->
     knot_proxy_set_config N valid st ident event_args = Some (false, st)).
Proof.
  intros N valid st ident event_args. unfold knot_proxy_set_config.
  destruct (pool_size st <=? ident) eqn:Hrange.
  { split; [| split; [| split; [| split; [| split]]]];
      try (intros; reflexivity).
    - intros st' [= <-]. reflexivity.
    - intros st' H. discriminate H. }
  apply Z.leb_gt in Hrange.
  destruct (slot st ident) as [p |] eqn:Hslot.
  2:{ split; [| split; [| split; [| split; [| split]]]];
        try (intros; reflexivity).
      - intros st' [= <-]. reflexivity.
      - intros st' H. discriminate H. }
  destruct (id p =? ident) eqn:Hid; cbn [negb].
  2:{ split; [| split; [| split; [| split; [| split]]]];
        try (intros; reflexivity).
      - intros st' [= <-]. reflexivity.
      - intros st' H. discriminate H. }
  apply Z.eqb_eq in Hid.
  destruct (read_events _ _ _ _ _ _) as [| | flags timeout lower upper] eqn:Hev.
  - split; [| split; [| split; [| split; [| split]]]].
    + intros st' H. discriminate H.
    + intros st' H. discriminate H.
    + intros H. lia.
    + intros q [= <-] Hne. contradiction.
    + intros q [= <-] H. congruence.
    + intros q ? ? ? ? [= <-] H. congruence.
  - split; [| split; [| split; [| split; [| split]]]];
      try (intros; reflexivity).
    + intros st' [= <-]. reflexivity.
    + intros st' H. discriminate H.
  - destruct (valid flags (value_type (schema p)) timeout lower upper =? 0)
      eqn:Hvalid; cbn [negb].
    + apply Z.eqb_eq in Hvalid.
      split; [| split; [| split; [| split; [| split]]]].
      * intros st' H. discriminate H.
      * intros st' [= <-]. exists p, flags, timeout, lower, upper. auto.
      * intros H. lia.
      * intros q [= <-] Hne. contradiction.
      * intros q [= <-] H. congruence.
      * intros q ? ? ? ? [= <-] H Hne. rewrite Hev in H. injection H as <- <- <- <-. contradiction.
    + split; [| split; [| split; [| split; [| split]]]];
        try (intros; reflexivity).
      * intros st' [= <-]. reflexivity.
      * intros st' H. discriminate H.
Qed.

(** The configuration multisensor.c gives its thermometer:
    [knot_proxy_set_config(0, KNOT_EVT_FLAG_TIME, 5,
     KNOT_EVT_FLAG_UPPER_THRESHOLD, high_temp, NULL)]. *)
Lemma C7_config_atomic_witness :
  let st := {| proxy_pool :=
                 [channel 0 KNOT_VALUE_TYPE_INT KNOT_EVT_FLAG_CHANGE 9
                    (int_obj 1) (int_obj 2) (int_obj 3)];
               last_id := 0 |} in
  let args := [VA_int 1; VA_int 5; VA_int 4; VA_int 100000; VA_int 0] in
  exists st' p',
    knot_proxy_set_config 16 (fun _ _ _ _ _ => 0) st 0 args = Some (true, st') /\
    slot st' 0 = Some p' /\
    event_flags (config p') = 5 /\ time_sec (config p') = 5 /\
    val_i (upper_limit (config p')) = 100000 /\
    lower_limit (config p') = int_obj 1 /\
    knot_proxy_set_config 16 (fun _ _ _ _ _ => 0) st 0 [VA_int 3; VA_int 0]
      = Some (false, st).
Proof.
  intros st args.
  destruct (C7_config_atomic 16 (fun _ _ _ _ _ => 0) st 0 args)
    as (_ & Hok & _).
  destruct (Hok _ eq_refl) as (p & flags & timeout & lower & upper
                               & Hslot & _ & Hev & _ & Hst).
  destruct (C7_config_atomic 16 (fun _ _ _ _ _ => 0) st 0 [VA_int 3; VA_int 0])
    as (_ & _ & _ & _ & Hinv & _).
  eexists. eexists. split; [reflexivity |].
  do 5 (split; [reflexivity |]).
  exact (Hinv _ eq_refl eq_refl).
Defined.

(** ** Runs preserve the consistency of identifiers *)

Lemma run_callback_frame N calls : forall p p',
  run_callback N calls p = Some p' ->
  id p' = id p /\ schema p' = schema p /\ config p' = config p /\
  wait_resp p' = wait_resp p /\
  poll_cb p' = poll_cb p /\ changed_cb p' = changed_cb p.
Proof.
  induction calls as [| c calls IH]; intros p p' H.
  - injection H as <-. repeat split.
  - destruct c as [now pvalue | now pvalue len]; cbn [run_callback] in H.
    + destruct (set_basic_frame now p pvalue)
        as (ret & q & Hcall & Hid & Hsch & Hcfg & Hw & _ & Hpc & Hcc & _).
      rewrite Hcall in H. cbn [snd] in H.
      destruct (IH _ _ H) as (? & ? & ? & ? & ? & ?).
      repeat split; congruence.
    + destruct (knot_proxy_value_set_string N now (Some p) pvalue len)
        as [[ret [q |]] |] eqn:Hcall; try discriminate H.
      destruct (set_string_frame _ _ _ _ _ _ _ Hcall)
        as (Hid & Hsch & Hcfg & Hw & Hpc & Hcc & _).
      destruct (IH _ _ H) as (? & ? & ? & ? & ? & ?).
      repeat split; congruence.
Qed.

Lemma pool_ids_set_slot st i p q :
  slot st i = Some p -> id q = id p ->
  pool_ids (set_slot st i q) = pool_ids st.
Proof.
  unfold slot, pool_ids, set_slot. cbn. intros Hs Hid.
  rewrite list_fmap_insert. apply list_insert_id.
  rewrite list_lookup_fmap, Hs. cbn. congruence.
Qed.

Lemma u8_min_le N len : 0 <= MIN N len -> u8 (MIN N len) <= N.
Proof.
  intros H. unfold MIN in *. pose proof (u8_range (if N <? len then N else len)).
  destruct (Z_lt_le_dec (if N <? len then N else len) 256) as [Hs | Hs].
  - rewrite u8_small by lia. destruct (N <? len) eqn:E; [lia |].
    apply Z.ltb_ge in E. lia.
  - destruct (N <? len) eqn:E; [lia |]. apply Z.ltb_ge in E. lia.
Qed.

Lemma set_string_rlen N now p pvalue len ret p' :
  knot_proxy_value_set_string N now (Some p) pvalue len = Some (ret, Some p') ->
  rlen p <= N -> rlen p' <= N.
Proof.
  intros H Hb. apply set_string_frame in H.
  destruct H as (_ & _ & _ & _ & _ & _ & _ & H).
  destruct ret; [| subst p'; exact Hb].
  destruct H as (Hpos & -> & _). apply u8_min_le, Hpos.
Qed.

Lemma run_callback_rlen N calls : forall p p',
  run_callback N calls p = Some p' -> rlen p <= N -> rlen p' <= N.
Proof.
  induction calls as [| c calls IH]; intros p p' H Hb.
  - injection H as <-. exact Hb.
  - destruct c as [now pvalue | now pvalue len]; cbn [run_callback] in H.
    + destruct (set_basic_frame now p pvalue)
        as (ret & q & Hcall & _ & _ & _ & _ & Hr & _).
      rewrite Hcall in H. cbn [snd] in H.
      apply (IH _ _ H). rewrite Hr. exact Hb.
    + destruct (knot_proxy_value_set_string N now (Some p) pvalue len)
        as [[ret [q |]] |] eqn:Hcall; try discriminate H.
      apply (IH _ _ H). eapply set_string_rlen; eassumption.
Qed.

Lemma deref_Some st h p :
  deref st h = Some p -> slot st h = Some p /\ id p <> 0xff.
Proof.
  unfold deref. destruct (slot st h) as [q |]; [| discriminate].
  destruct (id q =? 255) eqn:E; [discriminate |].
  intros [= <-]. apply Z.eqb_neq in E. auto.
Qed.

Lemma exec_updates_registered N L vs vc c st st' :
  pool_size st <= 255 ->
  (forall ident name type_id value_type unit changed_cb poll_cb,
     c <> Api_register ident name type_id value_type unit changed_cb poll_cb) ->
  exec N L vs vc c st = Some st' ->
  updates_registered N c st st'.
Proof.
  intros Hsize Hc H. unfold updates_registered.
  destruct c; cbn [exec] in H; cbn [is_deliver].
  - exfalso. eapply Hc. reflexivity.
  - destruct (knot_proxy_set_config N vc st (u8 ident) event_args)
      as [[[] st1] |] eqn:Hcfg; try discriminate H; injection H as <-.
    + destruct (set_config_outcome _ _ _ _ _ _ _ Hcfg)
        as [-> | (p & cfg & Hslot & Hid & ->)]; [auto |].
      right. exists (u8 ident), p. eexists. split; [exact Hslot |].
      split; [| split; [| split]]. 4: reflexivity. 2: reflexivity.
      * rewrite Hid.
        assert (Hlt : (Z.to_nat (u8 ident) < length (proxy_pool st))%nat)
          by (eapply lookup_lt_Some, Hslot).
        pose proof (u8_range ident). unfold pool_size in Hsize. lia.
      * intros _ Hb. exact Hb.
    + destruct (set_config_outcome _ _ _ _ _ _ _ Hcfg)
        as [-> | (p & cfg & Hslot & Hid & ->)]; [auto |].
      right. exists (u8 ident), p. eexists. split; [exact Hslot |].
      split; [| split; [| split]]. 4: reflexivity. 2: reflexivity.
      * rewrite Hid.
        assert (Hlt : (Z.to_nat (u8 ident) < length (proxy_pool st))%nat)
          by (eapply lookup_lt_Some, Hslot).
        pose proof (u8_range ident). unfold pool_size in Hsize. lia.
      * intros _ Hb. exact Hb.
  - destruct (deref st handle) as [p |] eqn:Hd; [| discriminate H].
    apply deref_Some in Hd as [Hslot Hid].
    destruct (set_basic_frame now p pvalue)
      as (ret & q & Hcall & Hidq & _ & _ & _ & Hr & _).
    rewrite Hcall in H. injection H as <-.
    right. exists handle, p, q. repeat split; auto. rewrite Hr. auto.
  - destruct (deref st handle) as [p |] eqn:Hd; [| discriminate H].
    apply deref_Some in Hd as [Hslot Hid].
    destruct (knot_proxy_value_set_string N now (Some p) pvalue len)
      as [[ret [q |]] |] eqn:Hcall; try discriminate H.
    injection H as <-.
    destruct (set_string_frame _ _ _ _ _ _ _ Hcall) as (Hidq & _).
    right. exists handle, p, q. repeat split; auto.
    intros _. eapply set_string_rlen, Hcall.
  - unfold proxy_read in H.
    destruct (slot st (u8 ident)) as [p |] eqn:Hslot; [| discriminate H].
    destruct (id p =? 255) eqn:Hid; [injection H as <-; auto |].
    destruct (is_null (poll_cb p)); [injection H as <-; auto |].
    destruct (run_callback N poll _) as [q |] eqn:Hcb; [| discriminate H].
    pose proof (run_callback_rlen _ _ _ _ Hcb) as Hrl.
    apply run_callback_frame in Hcb as (Hidq & _). cbn in Hidq, Hrl.
    apply Z.eqb_neq in Hid.
    right. exists (u8 ident), p, q.
    destruct (olen q <=? 0); injection H as <-; auto.
  - unfold proxy_write in H.
    destruct (last_id st <? u8 ident); [injection H as <-; auto |].
    destruct (slot st (u8 ident)) as [p |] eqn:Hslot; [| discriminate H].
    destruct (id p =? 255) eqn:Hid; [injection H as <-; auto |].
    destruct (is_null (changed_cb p)); [injection H as <-; auto |].
    destruct (run_callback N changed _) as [q |] eqn:Hcb; [| discriminate H].
    apply run_callback_frame in Hcb as (Hidq & _).
    apply Z.eqb_neq in Hid. injection H as <-.
    right. exists (u8 ident), p, q. repeat split; auto; try discriminate.
    rewrite Hidq. destruct (is_raw _); reflexivity.
  - unfold proxy_force_send in H.
    destruct (slot st (u8 ident)) as [p |] eqn:Hslot; [| discriminate H].
    destruct (id p =? 255) eqn:Hid; injection H as <-; auto.
    apply Z.eqb_neq in Hid. right. exists (u8 ident), p. eexists.
    split; [exact Hslot |]. split; [exact Hid |].
    split; [| split; [| reflexivity]]; [reflexivity | auto].
  - unfold proxy_confirm_sent in H.
    destruct (slot st (u8 ident)) as [p |] eqn:Hslot; [| discriminate H].
    destruct (id p =? 255) eqn:Hid; injection H as <-; auto.
    apply Z.eqb_neq in Hid. right. exists (u8 ident), p. eexists.
    split; [exact Hslot |]. split; [exact Hid |].
    split; [| split; [| reflexivity]]; [reflexivity | auto].
Qed.

(** ** Registration *)

Lemma slot_in_range st i :
  0 <= i < pool_size st -> exists p, slot st i = Some p.
Proof.
  unfold pool_size, slot. intros H.
  apply lookup_lt_is_Some. lia.
Qed.

Lemma slot_Some_range st i p :
  0 <= i -> slot st i = Some p -> i < pool_size st.
Proof.
  unfold pool_size, slot. intros H Hs.
  apply lookup_lt_Some in Hs. lia.
Qed.

(** The outcomes of [knot_proxy_register], branch by branch. *)
Lemma register_cases L vs st ident name tid vt unit ccb pcb :
  0 <= ident ->
  let r := knot_proxy_register L vs st ident name tid vt unit ccb pcb in
  (r = (Register_failed Out_of_index, st) /\ pool_size st <= ident) \/
  (r = (Register_failed Already_registered, st) /\
   exists p, slot st ident = Some p /\ id p <> 0xff) \/
  (r = (Register_failed Invalid_schema, st) /\
   (exists p, slot st ident = Some p /\ id p = 0xff) /\
   (vs tid vt unit <> 0 \/ name = None)) \/
  (exists p nm p' st',
     r = (Registered ident, st') /\
     slot st ident = Some p /\ id p = 0xff /\
     vs tid vt unit = 0 /\ name = Some nm /\
     proxy_pool st' = <[Z.to_nat ident := p']> (proxy_pool st) /\
     last_id st' = (if (last_id st <? ident) || (last_id st =? 0xff)
                    then ident else last_id st) /\
     id p' = ident /\
     schema p' = {| type_id := tid; schema_unit := unit; value_type := vt;
                    name := memcpy (stored_name p) (bytes_of_string nm)
                              (Z.to_nat (MIN L (strlen nm))) |} /\
     send p' = false /\ upper_flag p' = false /\ lower_flag p' = false /\
     olen p' = 0 /\ event_flags (config p') = KNOT_EVT_FLAG_NONE /\
     poll_cb p' = pcb /\ changed_cb p' = ccb /\
     wait_resp p' = wait_resp p /\ rlen p' = rlen p /\
     last_timeout p' = last_timeout p /\ value p' = value p).
Proof.
  intros Hpos r. subst r. unfold knot_proxy_register.
  destruct (pool_size st <=? ident) eqn:Hrange.
  { left. split; [reflexivity |]. apply Z.leb_le, Hrange. }
  apply Z.leb_gt in Hrange.
  destruct (slot_in_range st ident) as [p Hslot]; [lia |]. rewrite Hslot.
  destruct (id p =? 255) eqn:Hid; cbn [negb].
  2:{ right. left. split; [reflexivity |]. exists p.
      apply Z.eqb_neq in Hid. auto. }
  apply Z.eqb_eq in Hid.
  destruct (vs tid vt unit =? 0) eqn:Hvalid; cbn [negb orb].
  2:{ right. right. left. split; [reflexivity |].
      apply Z.eqb_neq in Hvalid. eauto. }
  apply Z.eqb_eq in Hvalid.
  destruct name as [nm |]; cbn [is_null].
  2:{ right. right. left. split; [reflexivity |]. eauto. }
  right. right. right. exists p, nm. do 2 eexists.
  split; [reflexivity |]. cbn [default from_option].
  split; [reflexivity |]. split; [exact Hid |]. split; [exact Hvalid |].
  split; [reflexivity |].
  split; [destruct (_ || _); reflexivity |].
  split; [destruct (_ || _); reflexivity |].
  cbn. repeat split.
Qed.

(** ** Well-formed states *)

Lemma wf_init N L (n : nat) :
  (n <= 255)%nat ->
  wf_state N L (proxy_init N L (boot N L n)) /\
  forall x, x ∈ pool_ids (proxy_init N L (boot N L n)) -> x = 0xff.
Proof.
  intros Hn. unfold wf_state, ids_ok, pool_ids, proxy_init, boot. cbn.
  rewrite length_replicate, fmap_replicate. cbn.
  assert (Hall : forall x : Z, x ∈ replicate n 255 -> x = 255)
    by (intros x Hx; eapply elem_of_replicate_inv, Hx).
  repeat split.
  - rewrite length_replicate. lia.
  - intros i x Hx. left. apply Hall. eapply list_elem_of_lookup_2, Hx.
  - intros _. exact Hall.
  - contradiction.
  - contradiction.
  - intros i p Hp _. apply lookup_replicate in Hp as [-> _]. reflexivity.
  - exact Hall.
Qed.

Lemma wf_pool_size N L st : wf_state N L st -> pool_size st <= 255.
Proof.
  intros [[Hlen _] _]. unfold pool_size, pool_ids in *.
  rewrite length_fmap in Hlen. exact Hlen.
Qed.

Lemma wf_updates_registered N L c st st' :
  wf_state N L st -> updates_registered N c st st' ->
  wf_state N L st' /\ pool_ids st' = pool_ids st /\ last_id st' = last_id st.
Proof.
  intros Hwf [-> | (i & p & q & Hslot & Hid & Hidq & _ & ->)]; [auto |].
  pose proof (pool_ids_set_slot st i p q Hslot Hidq) as Hids.
  split; [| split; [exact Hids | reflexivity]].
  destruct Hwf as [Hok Hfresh]. split.
  - rewrite Hids. exact Hok.
  - intros j r Hr Hr0. cbn in Hr.
    destruct (decide (Z.to_nat i = j)) as [<- | Hne].
    + rewrite list_lookup_insert_eq in Hr
        by (eapply lookup_lt_Some, Hslot).
      injection Hr as <-. congruence.
    + rewrite list_lookup_insert_ne in Hr by exact Hne. eauto.
Qed.

Lemma elem_of_insert_cases (l : list Z) n y z x :
  l !! n = Some z ->
  x ∈ <[n:=y]> l <-> x = y \/ exists j, j <> n /\ l !! j = Some x.
Proof.
  intros Hn. assert (Hlt : (n < length l)%nat) by (eapply lookup_lt_Some, Hn).
  rewrite list_elem_of_lookup. split.
  - intros [j Hj]. destruct (decide (n = j)) as [<- | Hne].
    + rewrite list_lookup_insert_eq in Hj by exact Hlt. left. congruence.
    + rewrite list_lookup_insert_ne in Hj by exact Hne. right. eauto.
  - intros [-> | (j & Hne & Hj)].
    + exists n. apply list_lookup_insert_eq, Hlt.
    + exists j. rewrite list_lookup_insert_ne by auto. exact Hj.
Qed.

(** What a registration call does to a well-formed state. *)
Lemma wf_register N L vs st ident name tid vt unit ccb pcb res st' :
  wf_state N L st -> 0 <= ident ->
  knot_proxy_register L vs st ident name tid vt unit ccb pcb = (res, st') ->
  wf_state N L st' /\
  (forall x, x <> 0xff ->
     (x ∈ pool_ids st' <->
      x ∈ pool_ids st \/
      x ∈ match res with Registered h => [h] | Register_failed _ => [] end)) /\
  (forall x, x ∈ match res with Registered h => [h] | Register_failed _ => [] end ->
             x <> 0xff) /\
  (last_id st <> 0xff -> last_id st <= last_id st' /\ last_id st' <> 0xff).
Proof.
  intros Hwf Hpos Hreg.
  pose proof (wf_pool_size _ _ _ Hwf) as Hsize.
  destruct (register_cases L vs st ident name tid vt unit ccb pcb Hpos)
    as [[H _] | [[H _] | [[H _] | H]]];
    try (rewrite Hreg in H; injection H as -> ->;
         split; [exact Hwf |];
         split; [intros x _; rewrite elem_of_nil; tauto |];
         split; [intros x Hx; apply elem_of_nil in Hx; contradiction |];
         intros Hl; split; [lia | exact Hl]).
  destruct H as (p & nm & p' & st1 & Hr & Hslot & Hid & _ & _ & Hpool & Hlast
                 & Hid' & _).
  rewrite Hreg in Hr. injection Hr as -> ->.
  pose proof (slot_Some_range _ _ _ Hpos Hslot) as Hlt.
  assert (Hne : ident <> 255) by lia.
  assert (Hids : pool_ids st1 = <[Z.to_nat ident := ident]> (pool_ids st)).
  { unfold pool_ids. rewrite Hpool, list_fmap_insert, Hid'. reflexivity. }
  assert (Hold : pool_ids st !! Z.to_nat ident = Some 255).
  { unfold pool_ids. rewrite list_lookup_fmap. unfold slot in Hslot.
    rewrite Hslot. cbn. congruence. }
  assert (Hmem : forall x, x <> 255 ->
            (x ∈ pool_ids st1 <-> x ∈ pool_ids st \/ x = ident)).
  { intros x Hx. rewrite Hids, (elem_of_insert_cases _ _ _ _ _ Hold).
    rewrite list_elem_of_lookup. split.
    - intros [-> | (j & _ & Hj)]; eauto.
    - intros [[j Hj] | ->]; [| auto].
      right. exists j. split; [| exact Hj].
      intros ->. congruence. }
  destruct Hwf as [(Hlen & Hidx & Hnone & Hsome) Hfresh].
  split; [split; [split; [| split; [| split]] |] |].
  - rewrite Hids, length_insert. exact Hlen.
  - intros i x. rewrite Hids. intros Hx.
    destruct (decide (Z.to_nat ident = i)) as [<- | Hd].
    + rewrite list_lookup_insert_eq in Hx by (eapply lookup_lt_Some, Hold).
      injection Hx as <-. right. lia.
    + rewrite list_lookup_insert_ne in Hx by exact Hd. eauto.
  - intros Hl. exfalso. rewrite Hlast in Hl.
    destruct (last_id st <? ident) eqn:E1; cbn [orb] in Hl; [lia |].
    destruct (last_id st =? 255) eqn:E2; [lia |].
    apply Z.eqb_neq in E2. contradiction.
  - intros _. rewrite Hlast.
    destruct (last_id st <? ident) eqn:E1; cbn [orb].
    { apply Z.ltb_lt in E1. split; [apply Hmem; auto |].
      intros x Hx Hx0. apply Hmem in Hx as [Hx | ->]; [| lia | exact Hx0].
      destruct (decide (last_id st = 255)) as [E | E].
      - specialize (Hnone E x Hx). contradiction.
      - destruct (Hsome E) as [_ Hb]. specialize (Hb x Hx Hx0). lia. }
    apply Z.ltb_ge in E1.
    destruct (last_id st =? 255) eqn:E2.
    { apply Z.eqb_eq in E2. split; [apply Hmem; auto |].
      intros x Hx Hx0. apply Hmem in Hx as [Hx | ->]; [| lia | exact Hx0].
      specialize (Hnone E2 x Hx). contradiction. }
    apply Z.eqb_neq in E2. destruct (Hsome E2) as [Hin Hb].
    split; [apply Hmem; auto |].
    intros x Hx Hx0. apply Hmem in Hx as [Hx | ->]; [auto | lia | exact Hx0].
  - intros i r Hr Hr0. rewrite Hpool in Hr.
    destruct (decide (Z.to_nat ident = i)) as [<- | Hd].
    + rewrite list_lookup_insert_eq in Hr by (eapply lookup_lt_Some, Hslot).
      injection Hr as <-. congruence.
    + rewrite list_lookup_insert_ne in Hr by exact Hd. eauto.
  - split; [| split].
    + intros x Hx. rewrite (Hmem x Hx), list_elem_of_singleton. reflexivity.
    + intros x Hx. apply list_elem_of_singleton in Hx. congruence.
    + intros Hl. rewrite Hlast.
      destruct (last_id st <? ident) eqn:E1; cbn [orb].
      { apply Z.ltb_lt in E1. lia. }
      destruct (last_id st =? 255) eqn:E2; [apply Z.eqb_eq in E2; contradiction |].
      split; [lia | exact Hl].
Qed.

Lemma exec_wf N L vs vc c st st' :
  wf_state N L st -> exec N L vs vc c st = Some st' ->
  wf_state N L st' /\
  (forall x, x <> 0xff ->
     (x ∈ pool_ids st' <-> x ∈ pool_ids st \/ x ∈ registers L vs c st)) /\
  (forall x, x ∈ registers L vs c st -> x <> 0xff) /\
  (last_id st <> 0xff -> last_id st <= last_id st' /\ last_id st' <> 0xff).
Proof.
  intros Hwf H.
  assert (Hother :
    (forall ident name type_id value_type unit changed_cb poll_cb,
       c <> Api_register ident name type_id value_type unit changed_cb poll_cb) ->
    registers L vs c st = [] ->
    wf_state N L st' /\
    (forall x, x <> 0xff ->
       (x ∈ pool_ids st' <-> x ∈ pool_ids st \/ x ∈ registers L vs c st)) /\
    (forall x, x ∈ registers L vs c st -> x <> 0xff) /\
    (last_id st <> 0xff -> last_id st <= last_id st' /\ last_id st' <> 0xff)).
  { intros Hc Hnil.
    pose proof (exec_updates_registered N L vs vc c st st'
                  (wf_pool_size _ _ _ Hwf) Hc H) as Hupd.
    destruct (wf_updates_registered N L c st st' Hwf Hupd) as (Hwf' & Hids & Hl).
    rewrite Hnil, Hids, Hl. split; [exact Hwf' |].
    split; [intros x _; rewrite elem_of_nil; tauto |].
    split; [intros x Hx; apply elem_of_nil in Hx; contradiction |].
    intros Hne. split; [lia | exact Hne]. }
  destruct c; try (apply Hother; [intros; discriminate | reflexivity]).
  cbn [exec] in H. injection H as <-. cbn [registers].
  eapply wf_register; [exact Hwf | apply u8_range | apply surjective_pairing].
Qed.

Lemma run_wf N L vs vc calls : forall st st',
  wf_state N L st -> run N L vs vc calls st = Some st' ->
  wf_state N L st' /\
  (forall x, x <> 0xff ->
     (x ∈ pool_ids st' <->
      x ∈ pool_ids st \/ x ∈ registrations N L vs vc calls st)) /\
  (forall x, x ∈ registrations N L vs vc calls st -> x <> 0xff) /\
  (last_id st <> 0xff -> last_id st <= last_id st' /\ last_id st' <> 0xff).
Proof.
  induction calls as [| c calls IH]; intros st st' Hwf H.
  - injection H as <-. cbn [registrations].
    split; [exact Hwf |].
    split; [intros x _; rewrite elem_of_nil; tauto |].
    split; [intros x Hx; apply elem_of_nil in Hx; contradiction |].
    intros Hne. split; [lia | exact Hne].
  - cbn [run registrations] in *.
    destruct (exec N L vs vc c st) as [st1 |] eqn:Hc; [| discriminate H].
    destruct (exec_wf _ _ _ _ _ _ _ Hwf Hc) as (Hwf1 & Hm1 & Hr1 & Hl1).
    destruct (IH _ _ Hwf1 H) as (Hwf' & Hm & Hr & Hl).
    split; [exact Hwf' |]. split; [| split].
    + intros x Hx. rewrite (Hm x Hx), (Hm1 x Hx), elem_of_app. tauto.
    + intros x Hx. apply elem_of_app in Hx as [Hx | Hx]; auto.
    + intros Hne. destruct (Hl1 Hne) as [Hle Hne1].
      destruct (Hl Hne1) as [Hle' Hne']. split; [lia | exact Hne'].
Qed.

Lemma fold_max_spec (i : Z) (ids : list Z) :
  fold_right Z.max i ids ∈ i :: ids /\
  forall x, x ∈ i :: ids -> x <= fold_right Z.max i ids.
Proof.
  induction ids as [| j ids [Hin Hub]]; cbn [fold_right].
  - split; [apply list_elem_of_here |].
    intros x Hx. apply list_elem_of_singleton in Hx. lia.
  - split.
    + destruct (Z.max_spec j (fold_right Z.max i ids)) as [[_ ->] | [_ ->]].
      * apply elem_of_cons in Hin as [Hin | Hin];
          [rewrite Hin; apply list_elem_of_here |].
        do 2 apply list_elem_of_further. exact Hin.
      * apply list_elem_of_further, list_elem_of_here.
    + intros x Hx.
      apply elem_of_cons in Hx as [-> | Hx].
      * specialize (Hub i (list_elem_of_here _ _)). lia.
      * apply elem_of_cons in Hx as [-> | Hx]; [lia |].
        specialize (Hub x (list_elem_of_further _ _ _ Hx)). lia.
Qed.

Lemma highest_unique (l : list Z) (m : Z) :
  m ∈ l -> (forall x, x ∈ l -> x <= m) -> highest l = m.
Proof.
  destruct l as [| i ids]; intros Hin Hub.
  - apply elem_of_nil in Hin. contradiction.
  - cbn [highest]. destruct (fold_max_spec i ids) as [Hin' Hub'].
    specialize (Hub _ Hin'). specialize (Hub' _ Hin). lia.
Qed.

(** C10.  After [proxy_init] on the program's initial state, along every
    run of calls into the module (registrations, configurations, set calls,
    polls, deliveries, forced sends and confirmations) [proxy_get_last_id]
    returns [0xff] while no registration has succeeded and afterwards the
    largest identifier registered so far.  Every registered element carries
    its index as identifier and it is at most [proxy_get_last_id], and the
    value never decreases once a channel is registered.  The pool has at
    most 255 elements, [0xff] being the free marker. *)
Theorem C10_last_id_highest_registered :
  forall N L vs vc (n : nat) (calls : list api_call) (st : knot_state),
    (n <= 255)%nat ->
    run N L vs vc calls (proxy_init N L (boot N L n)) = Some st ->
    let ids := registrations N L vs vc calls (proxy_init N L (boot N L n)) in
    proxy_get_last_id st = highest ids /\
    (ids = [] -> proxy_get_last_id st = 0xff) /\
    (forall x, x ∈ ids -> x <= proxy_get_last_id st < 0xff) /\
    (forall (i : nat) p, proxy_pool st !! i = Some p -> id p <> 0xff ->
       id p = Z.of_nat i /\ id p ∈ ids /\ Z.of_nat i <= proxy_get_last_id st) /\
    (forall more st', run N L vs vc more st = Some st' ->
       proxy_get_last_id st <> 0xff ->
       proxy_get_last_id st <= proxy_get_last_id st').
Proof.
  intros N L vs vc n calls st Hn Hrun ids.
  destruct (wf_init N L n Hn) as [Hwf0 Hall0].
  destruct (run_wf _ _ _ _ _ _ _ Hwf0 Hrun) as (Hwf & Hm & Hr & _).
  fold ids in Hm, Hr. unfold proxy_get_last_id.
  assert (Hmem : forall x, x <> 255 -> (x ∈ pool_ids st <-> x ∈ ids)).
  { intros x Hx. rewrite (Hm x Hx). split; [| auto].
    intros [H | H]; [| exact H]. apply Hall0 in H. contradiction. }
  pose proof Hwf as Hwfst.
  destruct Hwf as [(Hlen & Hidx & Hnone & Hsome) Hfresh].
  assert (Hreg : forall x, x ∈ ids -> x <= last_id st /\ last_id st <> 255).
  { intros x Hx. pose proof (Hr x Hx) as Hx0.
    apply (Hmem x Hx0) in Hx.
    destruct (decide (last_id st = 255)) as [E | E].
    - specialize (Hnone E x Hx). contradiction.
    - destruct (Hsome E) as [_ Hb]. auto. }
  assert (Hbound : last_id st <> 255 -> last_id st < 255).
  { intros E. destruct (Hsome E) as [Hin _].
    apply list_elem_of_lookup in Hin as [i Hi].
    pose proof (lookup_lt_Some _ _ _ Hi).
    destruct (Hidx i _ Hi) as [? | ?]; [contradiction | lia]. }
  assert (Hfirst : ids = [] -> last_id st = 255).
  { intros Hnil. destruct (decide (last_id st = 255)) as [E | E]; [exact E |].
    destruct (Hsome E) as [Hin _]. apply (Hmem _ E) in Hin.
    rewrite Hnil in Hin. apply elem_of_nil in Hin. contradiction. }
  split; [| split; [exact Hfirst | split; [| split]]].
  - destruct ids as [| i0 ids0] eqn:Eids; [apply Hfirst; reflexivity |].
    symmetry. apply highest_unique.
    + destruct (Hreg i0 (list_elem_of_here _ _)) as [_ E].
      destruct (Hsome E) as [Hin _]. apply (Hmem _ E), Hin.
    + intros x Hx. apply Hreg, Hx.
  - intros x Hx. destruct (Hreg x Hx) as [Hle E]. specialize (Hbound E). lia.
  - intros i p Hp Hid.
    assert (Hi : pool_ids st !! i = Some (id p)).
    { unfold pool_ids. rewrite list_lookup_fmap, Hp. reflexivity. }
    destruct (Hidx i _ Hi) as [? | Heq]; [contradiction |].
    assert (Hin : id p ∈ ids).
    { apply (Hmem _ Hid). eapply list_elem_of_lookup_2, Hi. }
    split; [exact Heq |]. split; [exact Hin |].
    rewrite <- Heq. apply Hreg, Hin.
  - intros more st' Hmore E.
    destruct (run_wf _ _ _ _ _ _ _ Hwfst Hmore) as (_ & _ & _ & Hl).
    apply Hl, E.
Qed.

Lemma C10_last_id_highest_registered_witness :
  let accept := fun (_ : Z) (_ : knot_value_kind) (_ : Z) => 0 in
  let accept_config :=
    fun (_ : Z) (_ : knot_value_kind) (_ : Z) (_ _ : knot_value_type) => 0 in
  let calls :=
    [Api_register 1 (Some "LED"%string) 0 KNOT_VALUE_TYPE_BOOL 0 (Some 2%nat) (Some 1%nat);
     Api_register 1 (Some "LED"%string) 0 KNOT_VALUE_TYPE_BOOL 0 None None;
     Api_register 7 (Some "FAR"%string) 0 KNOT_VALUE_TYPE_INT 0 None None;
     Api_register 0 (Some "THERMO"%string) 0 KNOT_VALUE_TYPE_INT 0 (Some 4%nat) (Some 3%nat);
     Api_set_config 0 [VA_int 1; VA_int 5; VA_int 0];
     Api_read 0 false [Call_set_basic 6000 (int_obj 1)]] in
  exists st,
    run 16 23 accept accept_config calls (proxy_init 16 23 (boot 16 23 3)) = Some st /\
    registrations 16 23 accept accept_config calls (proxy_init 16 23 (boot 16 23 3))
      = [1; 0] /\
    proxy_get_last_id st = 1.
Proof.
  intros accept accept_config calls.
  assert (Hreg : registrations 16 23 accept accept_config calls
                   (proxy_init 16 23 (boot 16 23 3)) = [1; 0])
    by (vm_compute; reflexivity).
  destruct (run 16 23 accept accept_config calls
              (proxy_init 16 23 (boot 16 23 3))) as [st |] eqn:Hrun.
  2:{ vm_compute in Hrun. discriminate Hrun. }
  exists st. split; [reflexivity |]. split; [exact Hreg |].
  destruct (C10_last_id_highest_registered 16 23 accept accept_config 3 calls
              st ltac:(lia) Hrun) as (H & _).
  rewrite H, Hreg. reflexivity.
Defined.

(** C6, counterexample.  Registering identifier 0 with the empty name, on a
    freshly initialised pool and with a validator that accepts, succeeds. *)
Lemma C6_counterexample :
  fst (knot_proxy_register 23 (fun _ _ _ => 0)
         (proxy_init 16 23 (boot 16 23 3)) 0 (Some EmptyString) 0
         KNOT_VALUE_TYPE_INT 0 None None)
  = Registered 0.
Proof. vm_compute. reflexivity. Qed.

(** Facts about one pool element agree. *)
Ltac slot_facts :=
  repeat match goal with
  | H : exists _, _ |- _ => destruct H
  | H : _ /\ _ |- _ => destruct H
  | H1 : slot ?st ?i = Some ?p, H2 : slot ?st ?i = Some ?q |- _ =>
    rewrite H1 in H2; injection H2 as <-
  | H : slot ?st ?i = Some _, Hpos : 0 <= ?i |- _ =>
    lazymatch goal with
    | _ : i < pool_size st |- _ => fail
    | _ => pose proof (slot_Some_range _ _ _ Hpos H)
    end
  end.

(** C6, amended.  [knot_proxy_register] fails, leaving the state as it was,
    exactly in three cases, tested in this order: the identifier is not
    below the pool size (out of index); the element is taken (already
    registered); the validator rejects the schema or the name is a NULL
    pointer (invalid schema).  In every other case, an empty name included,
    it succeeds and returns the element, with the identifier, schema and
    callbacks stored, [send], [upper_flag] and [lower_flag] false, [olen]
    zero and no event flag; [wait_resp], [rlen], [last_timeout] and the
    value keep what the element held, which in every state reached from
    [proxy_init] is zero. *)
Theorem C6_register_outcomes :
  forall L vs st ident name tid vt unit ccb pcb,
    0 <= ident ->
    let r := knot_proxy_register L vs st ident name tid vt unit ccb pcb in
    (fst r = Register_failed Out_of_index <-> pool_size st <= ident) /\
    (fst r = Register_failed Already_registered <->
     exists p, slot st ident = Some p /\ id p <> 0xff) /\
    (fst r = Register_failed Invalid_schema <->
     (exists p, slot st ident = Some p /\ id p = 0xff) /\
     (vs tid vt unit <> 0 \/ name = None)) /\
    (forall e, fst r = Register_failed e -> snd r = st) /\
    (fst r = Registered ident <->
     (exists p, slot st ident = Some p /\ id p = 0xff) /\
     vs tid vt unit = 0 /\ name <> None) /\
    (fst r = Registered ident ->
     exists p p',
       slot st ident = Some p /\ slot (snd r) ident = Some p' /\
       id p' = ident /\
       type_id (schema p') = tid /\ schema_unit (schema p') = unit /\
       value_type (schema p') = vt /\
       poll_cb p' = pcb /\ changed_cb p' = ccb /\
       send p' = false /\ upper_flag p' = false /\ lower_flag p' = false /\
       olen p' = 0 /\ event_flags (config p') = KNOT_EVT_FLAG_NONE /\
       wait_resp p' = wait_resp p /\ rlen p' = rlen p /\
       last_timeout p' = last_timeout p /\ value p' = value p) /\
    (forall N vc (n : nat) calls,
       (n <= 255)%nat ->
       run N L vs vc calls (proxy_init N L (boot N L n)) = Some st ->
       fst r = Registered ident ->
       exists p',
         slot (snd r) ident = Some p' /\
         send p' = false /\ wait_resp p' = false /\
         upper_flag p' = false /\ lower_flag p' = false /\
         olen p' = 0 /\ rlen p' = 0 /\ last_timeout p' = 0).
Proof.
  intros L vs st ident name tid vt unit ccb pcb Hpos r.
  assert (Hsucc : fst r = Registered ident ->
    exists p p',
      slot st ident = Some p /\ id p = 0xff /\
      slot (snd r) ident = Some p' /\
      id p' = ident /\
      type_id (schema p') = tid /\ schema_unit (schema p') = unit /\
      value_type (schema p') = vt /\
      poll_cb p' = pcb /\ changed_cb p' = ccb /\
      send p' = false /\ upper_flag p' = false /\ lower_flag p' = false /\
      olen p' = 0 /\ event_flags (config p') = KNOT_EVT_FLAG_NONE /\
      wait_resp p' = wait_resp p /\ rlen p' = rlen p /\
      last_timeout p' = last_timeout p /\ value p' = value p).
  { destruct (register_cases L vs st ident name tid vt unit ccb pcb Hpos)
      as [[H _] | [[H _] | [[H _] | H]]]; fold r in H;
      try (rewrite H; discriminate).
    destruct H as (p & nm & p' & st' & Hr & Hslot & Hid & _ & _ & Hpool
                   & _ & Hid' & Hsch & Hrest).
    intros _. exists p, p'. rewrite Hr. cbn [snd].
    split; [exact Hslot |]. split; [exact Hid |].
    split.
    { unfold slot. rewrite Hpool. apply list_lookup_insert_eq.
      eapply lookup_lt_Some, Hslot. }
    rewrite Hsch. cbn. tauto. }
  destruct (register_cases L vs st ident name tid vt unit ccb pcb Hpos)
    as [[H Hc] | [[H Hc] | [[H Hc] | H]]]; fold r in H.
  1-3: rewrite H; cbn [fst snd];
    (split; [| split; [| split; [| split; [| split; [| split]]]]]);
    try (split; intros; slot_facts; try discriminate; try reflexivity;
         try lia; try congruence; try tauto; try contradiction; eauto; fail);
    try (intros; slot_facts; try discriminate; try reflexivity; fail).
  destruct H as (p & nm & p' & st' & Hr & Hslot & Hid & Hv & Hn & _).
  rewrite Hr in *. cbn [fst snd] in *.
  split; [| split; [| split; [| split; [| split; [| split]]]]].
  + split; [intros [=] |]. intros Hle.
    pose proof (slot_Some_range _ _ _ Hpos Hslot). lia.
  + split; [intros [=] |]. intros. slot_facts. congruence.
  + split; [intros [=] |]. intros. slot_facts. intuition congruence.
  + intros e [=].
  + split; [| reflexivity]. intros _.
    split; [eauto |]. split; [exact Hv | congruence].
  + intros Hreg. destruct (Hsucc Hreg) as (q & q' & ? & ? & Hrest).
    exists q, q'. tauto.
  + intros N vc n calls Hn' Hrun Hreg.
    destruct (Hsucc Hreg) as (q & q' & Hq & Hq0 & Hq' & _ & _ & _ & _ & _
                              & _ & ? & ? & ? & ? & _ & Hw & Hrl & Hlt & _).
    destruct (wf_init N L n Hn') as [Hwf0 _].
    destruct (run_wf _ _ _ _ _ _ _ Hwf0 Hrun) as ([_ Hfresh] & _).
    unfold slot in Hq. pose proof (Hfresh _ _ Hq Hq0) as ->.
    exists q'. cbn in Hw, Hrl, Hlt. tauto.
Qed.

Lemma C6_register_outcomes_witness :
  fst (knot_proxy_register 23 (fun _ _ _ => 0)
         (proxy_init 16 23 (boot 16 23 3)) 5 (Some "FAR"%string) 0
         KNOT_VALUE_TYPE_INT 0 None None)
    = Register_failed Out_of_index /\
  fst (knot_proxy_register 23 (fun _ _ _ => 0)
         (proxy_init 16 23 (boot 16 23 3)) 0 None 0
         KNOT_VALUE_TYPE_INT 0 None None)
    = Register_failed Invalid_schema.
Proof.
  split.
  - destruct (C6_register_outcomes 23 (fun _ _ _ => 0)
                (proxy_init 16 23 (boot 16 23 3)) 5 (Some "FAR"%string) 0
                KNOT_VALUE_TYPE_INT 0 None None ltac:(lia)) as (H & _).
    apply H. vm_compute. discriminate.
  - destruct (C6_register_outcomes 23 (fun _ _ _ => 0)
                (proxy_init 16 23 (boot 16 23 3)) 0 None 0
                KNOT_VALUE_TYPE_INT 0 None None ltac:(lia)) as (_ & _ & H & _).
    apply H. split; [| right; reflexivity].
    eexists. split; [vm_compute; reflexivity | reflexivity].
Defined.

(** ** Delivery *)

(** The outcomes of [proxy_write] on a well-formed state. *)
Lemma proxy_write_cases N L st ident pvalue value_len changed :
  wf_state N L st -> 0 <= ident <= 255 ->
  (forall p, slot st ident = Some p -> id p <> 0xff -> changed_cb p = None ->
     proxy_write N st ident pvalue value_len changed = Some (0, st)) /\
  ((slot st ident = None \/ exists p, slot st ident = Some p /\ id p = 0xff) ->
   ident < pool_size st \/ last_id st <> 0xff ->
   proxy_write N st ident pvalue value_len changed = Some (- EINVAL, st)) /\
  (forall p, slot st ident = Some p -> id p <> 0xff -> changed_cb p <> None ->
     exists stored,
       value stored = pvalue /\
       rlen stored = (if is_raw (value_type (schema p))
                      then u8 value_len else rlen p) /\
       proxy_write N st ident pvalue value_len changed =
         match run_callback N changed stored with
         | Some q => Some (s8 (olen q), set_slot st ident q)
         | None => None
         end).
Proof.
  intros [(Hlen & Hidx & Hnone & Hsome) _] Hrange.
  assert (Hreg : forall p, slot st ident = Some p -> id p <> 0xff ->
                           (last_id st <? ident) = false).
  { intros p Hslot Hid. apply Z.ltb_ge.
    assert (Hi : pool_ids st !! Z.to_nat ident = Some (id p)).
    { unfold pool_ids. rewrite list_lookup_fmap. unfold slot in Hslot.
      rewrite Hslot. reflexivity. }
    destruct (Hidx _ _ Hi) as [? | Heq]; [contradiction |].
    pose proof (list_elem_of_lookup_2 _ _ _ Hi) as Hin.
    destruct (decide (last_id st = 255)) as [E | E].
    - specialize (Hnone E _ Hin). contradiction.
    - destruct (Hsome E) as [_ Hb]. specialize (Hb _ Hin Hid). lia. }
  unfold proxy_write. split; [| split].
  - intros p Hslot Hid Hcb. rewrite (Hreg p Hslot Hid), Hslot.
    apply Z.eqb_neq in Hid. rewrite Hid, Hcb. reflexivity.
  - intros Hfree Hguard.
    destruct (last_id st <? ident) eqn:Hlt; [reflexivity |].
    apply Z.ltb_ge in Hlt.
    destruct Hfree as [Hslot | (p & Hslot & Hid)].
    + exfalso. unfold slot in Hslot. apply lookup_ge_None in Hslot.
      unfold pool_size in Hguard.
      destruct Hguard as [Hg | Hg]; [lia |].
      destruct (Hsome Hg) as [Hin _].
      apply list_elem_of_lookup in Hin as [i Hi].
      pose proof (lookup_lt_Some _ _ _ Hi) as Hil.
      unfold pool_ids in Hil. rewrite length_fmap in Hil.
      destruct (Hidx i _ Hi) as [? | ?]; [contradiction | lia].
    + rewrite Hslot. apply Z.eqb_eq in Hid. rewrite Hid. reflexivity.
  - intros p Hslot Hid Hcb. rewrite (Hreg p Hslot Hid), Hslot.
    apply Z.eqb_neq in Hid. rewrite Hid.
    destruct (changed_cb p) eqn:Ecb; [| contradiction]. cbn [is_null].
    eexists. split; [| split; [| reflexivity]].
    + destruct (is_raw _); reflexivity.
    + cbn. destruct (is_raw _); reflexivity.
Qed.

(** A registered element lies within [last_id] and carries its index. *)
Lemma registered_le_last N L st ident p :
  wf_state N L st -> 0 <= ident ->
  slot st ident = Some p -> id p <> 0xff ->
  (last_id st <? ident) = false /\ id p = ident.
Proof.
  intros [(Hlen & Hidx & Hnone & Hsome) _] Hpos Hslot Hid.
  assert (Hi : pool_ids st !! Z.to_nat ident = Some (id p)).
  { unfold pool_ids. rewrite list_lookup_fmap. unfold slot in Hslot.
    rewrite Hslot. reflexivity. }
  destruct (Hidx _ _ Hi) as [? | Heq]; [contradiction |].
  pose proof (list_elem_of_lookup_2 _ _ _ Hi) as Hin.
  split; [| lia]. apply Z.ltb_ge.
  destruct (decide (last_id st = 255)) as [E | E].
  - specialize (Hnone E _ Hin). contradiction.
  - destruct (Hsome E) as [_ Hb]. specialize (Hb _ Hin Hid). lia.
Qed.

(** ** The raw length *)

Lemma rlen_bounded_exec N L vs vc c st st' :
  is_deliver c = false -> pool_size st <= 255 ->
  rlen_bounded N st -> exec N L vs vc c st = Some st' ->
  rlen_bounded N st'.
Proof.
  intros Hd Hsize Hb H.
  assert (Hother :
    (forall ident name type_id value_type unit changed_cb poll_cb,
       c <> Api_register ident name type_id value_type unit changed_cb poll_cb) ->
    rlen_bounded N st').
  { intros Hc.
    destruct (exec_updates_registered N L vs vc c st st' Hsize Hc H)
      as [-> | (i & p & q & Hslot & _ & _ & Hr & ->)]; [exact Hb |].
    intros j r Hj. cbn in Hj.
    destruct (decide (Z.to_nat i = j)) as [<- | Hne].
    - rewrite list_lookup_insert_eq in Hj by (eapply lookup_lt_Some, Hslot).
      injection Hj as <-. apply (Hr Hd). eapply Hb, Hslot.
    - rewrite list_lookup_insert_ne in Hj by exact Hne. eapply Hb, Hj. }
  destruct c as [ident nm tid vt un ccb pcb | | | | | | |];
    try (apply Hother; intros; discriminate).
  cbn [exec] in H. injection H as <-.
  destruct (register_cases L vs st (u8 ident) nm tid vt un ccb pcb
              (proj1 (u8_range ident)))
    as [[-> _] | [[-> _] | [[-> _] | H]]]; try exact Hb.
  destruct H as (p & nm' & p' & st1 & -> & Hslot & _ & _ & _ & Hpool & _ & _ & _
                 & _ & _ & _ & _ & _ & _ & _ & _ & Hr & _).
  cbn [snd]. intros j r Hj. rewrite Hpool in Hj.
  destruct (decide (Z.to_nat (u8 ident) = j)) as [<- | Hne].
  - rewrite list_lookup_insert_eq in Hj by (eapply lookup_lt_Some, Hslot).
    injection Hj as <-. rewrite Hr. eapply Hb, Hslot.
  - rewrite list_lookup_insert_ne in Hj by exact Hne. eapply Hb, Hj.
Qed.

(** C3.  The raw set clamps: with a length within the payload it is
    defined, and when it triggers it stores the first
    [min(len, KNOT_DATA_RAW_SIZE)] bytes of the payload and records that
    clamped length as [rlen] and as [olen], so [rlen] is within the buffer;
    when it does not trigger nothing changes.  The bound
    [rlen <= KNOT_DATA_RAW_SIZE] is kept by every call into the module other
    than a delivery.  The delivery path misses the clamp: [proxy_write] on a
    Raw channel records [rlen = value_len] as given, so a delivered length
    beyond the buffer leaves [rlen] beyond it.  The lengths read back from
    that [rlen] then run past the raw buffer: [knot_proxy_value_get_string]
    with a larger caller buffer, and the comparison of the next raw set of
    that length on a channel with OnChange, have no defined result. *)
Theorem C3_deliver_raw_length_unclamped :
  forall (N : Z),
    0 <= N <= 255 ->
    (forall now p pvalue len,
       is_raw (value_type (schema p)) = true ->
       0 <= len <= Z.of_nat (length pvalue) ->
       rlen p <= Z.of_nat (length (raw (value p))) ->
       exists ret p',
         knot_proxy_value_set_string N now (Some p) pvalue len
           = Some (ret, Some p')) /\
    (forall now p pvalue len p',
       is_raw (value_type (schema p)) = true ->
       knot_proxy_value_set_string N now (Some p) pvalue len
         = Some (true, Some p') ->
       0 <= len /\ Z.min len N <= Z.of_nat (length pvalue) /\
       raw (value p') = take (Z.to_nat (Z.min len N)) pvalue
                          ++ drop (Z.to_nat (Z.min len N)) (raw (value p)) /\
       rlen p' = Z.min len N /\ olen p' = Z.min len N /\ rlen p' <= N) /\
    (forall now p pvalue len p',
       knot_proxy_value_set_string N now (Some p) pvalue len
         = Some (false, Some p') -> p' = p) /\
    (forall L vs vc c st st',
       is_deliver c = false -> pool_size st <= 255 ->
       rlen_bounded N st -> exec N L vs vc c st = Some st' ->
       rlen_bounded N st') /\
    (forall L st ident q delivered value_len,
       wf_state N L st -> 0 <= ident <= 255 ->
       slot st ident = Some q -> id q <> 0xff -> changed_cb q <> None ->
       is_raw (value_type (schema q)) = true ->
       0 <= value_len <= 255 ->
       exists q',
         proxy_write N st ident delivered value_len []
           = Some (s8 (olen q), set_slot st ident q') /\
         slot (set_slot st ident q') ident = Some q' /\
         value q' = delivered /\ rlen q' = value_len /\
         (N < value_len -> Z.of_nat (length delivered) <= N ->
          N < rlen q' /\
          (forall buf, N < buf ->
             knot_proxy_value_get_string (Some q') buf = None) /\
          (has_flag KNOT_EVT_FLAG_CHANGE (event_flags (config q)) = true ->
           forall now pvalue,
             knot_proxy_value_set_string N now (Some q') pvalue value_len
               = None))).
Proof.
  intros N HN.
  split; [| split; [| split; [| split]]].
  - intros now p pvalue len Hk Hlen Hr.
    unfold knot_proxy_value_set_string. rewrite Hk. cbn [negb].
    pose proof (check_timeout_frame now p) as F.
    destruct (check_timeout now p) as [t q]. cbn [snd] in F.
    destruct F as (_ & _ & Fvalue & _ & _ & _ & _ & _ & Frlen & _).
    destruct (check_raw_change_defined q pvalue len Hlen) as [change ->];
      [rewrite Frlen, Fvalue; exact Hr |].
    destruct (negb (send q) && negb change && negb t); [eauto |].
    rewrite MIN_min.
    destruct (Z.min N len <? 0) eqn:E; [apply Z.ltb_lt in E; lia |].
    destruct (Z.of_nat (length pvalue) <? Z.min N len) eqn:E2;
      [apply Z.ltb_lt in E2; lia |].
    cbn [orb]. eauto.
  - intros now p pvalue len p' Hk H.
    pose proof (set_string_reads_payload _ _ _ _ _ _ H) as Hpay.
    apply set_string_frame in H.
    destruct H as (_ & _ & _ & _ & _ & _ & _ & Hpos & Hr & Ho & Hv).
    rewrite MIN_min in *. rewrite (Z.min_comm len N).
    rewrite u8_small in Hr, Ho by lia.
    repeat split; try assumption; lia.
  - intros now p pvalue len p' H. apply set_string_frame in H.
    destruct H as (_ & _ & _ & _ & _ & _ & _ & H). exact H.
  - intros L vs vc c st st'. apply rlen_bounded_exec.
  - intros L st ident q delivered value_len Hwf Hr Hslot Hid Hcb Hk Hlen.
    destruct (registered_le_last N L st ident q Hwf ltac:(lia) Hslot Hid)
      as [Hlast _].
    exists (set_rlen value_len (set_value delivered q)).
    split; [| split; [eapply slot_set_slot, Hslot |
              split; [reflexivity | split; [cbn; apply u8_small; lia |]]]].
    { unfold proxy_write. rewrite Hlast, Hslot.
      apply Z.eqb_neq in Hid. rewrite Hid.
      destruct (changed_cb q) eqn:Ecb; [| contradiction].
      cbn [is_null schema set_value]. rewrite Hk. reflexivity. }
    intros Hbig Hobj.
    assert (Hrl : rlen (set_rlen value_len (set_value delivered q)) = value_len)
      by (cbn; apply u8_small; lia).
    split; [lia |]. split.
    + intros buf Hbuf. unfold knot_proxy_value_get_string.
      cbn [schema set_rlen set_value]. rewrite Hk. cbn [negb].
      cbn [value rlen set_rlen set_value]. rewrite (u8_small value_len) by lia.
      rewrite MIN_min.
      destruct (Z.min buf value_len <? 0); [reflexivity |]. cbn [orb].
      destruct (Z.of_nat (length (raw delivered)) <? Z.min buf value_len) eqn:E;
        [reflexivity |].
      apply Z.ltb_ge in E. unfold raw in E. lia.
    + intros Hchange now pvalue. unfold knot_proxy_value_set_string.
      cbn [schema set_rlen set_value]. rewrite Hk. cbn [negb].
      pose proof (check_timeout_frame now
                    (set_rlen value_len (set_value delivered q))) as F.
      destruct (check_timeout now _) as [t q2]. cbn [snd] in F.
      destruct F as (_ & _ & Fvalue & _ & _ & _ & _ & _ & Frlen & Fconfig & _).
      unfold check_raw_change, memcmp_ne.
      rewrite Frlen, Fvalue, Fconfig, Hrl. cbn [config set_rlen set_value value].
      rewrite Hchange, Z.eqb_refl. cbn [negb].
      destruct (value_len <? 0) eqn:E0; [reflexivity |].
      destruct (length (raw delivered) <? Z.to_nat value_len)%nat eqn:E1;
        [reflexivity |].
      apply Nat.ltb_ge in E1. unfold raw in E1. lia.
Qed.

(** A Raw channel with a 16-byte buffer, registered with a changed callback
    and configured with OnChange: delivering a value with the length 200. *)
Lemma C3_deliver_raw_length_unclamped_witness :
  let accept := fun (_ : Z) (_ : knot_value_kind) (_ : Z) => 0 in
  let accept_config :=
    fun (_ : Z) (_ : knot_value_kind) (_ : Z) (_ _ : knot_value_type) => 0 in
  match run 16 23 accept accept_config
          [Api_register 0 (Some "PLATE"%string) 0 KNOT_VALUE_TYPE_RAW 0
             (Some 2%nat) (Some 1%nat);
           Api_set_config 0 [VA_int KNOT_EVT_FLAG_CHANGE;
                             VA_int KNOT_EVT_FLAG_NONE]]
          (proxy_init 16 23 (boot 16 23 3)) with
  | Some st =>
    exists st' q',
      proxy_write 16 st 0 (replicate 16 7) 200 [] = Some (0, st') /\
      slot st' 0 = Some q' /\ rlen q' = 200 /\ 16 < rlen q' /\
      knot_proxy_value_get_string (Some q') 255 = None /\
      knot_proxy_value_set_string 16 0 (Some q') (replicate 200 7) 200 = None
  | None => False
  end.
Proof.
  intros accept accept_config.
  destruct (run 16 23 accept accept_config _ _) as [st |] eqn:Hrun;
    [| vm_compute in Hrun; discriminate Hrun].
  destruct (wf_init 16 23 3 ltac:(lia)) as [Hwf0 _].
  destruct (run_wf _ _ _ _ _ _ _ Hwf0 Hrun) as (Hwf & _).
  vm_compute in Hrun. injection Hrun as <-.
  destruct (C3_deliver_raw_length_unclamped 16 ltac:(lia))
    as (_ & _ & _ & _ & Hdeliver).
  match type of Hwf with
  | wf_state _ _ {| proxy_pool := ?q :: _; last_id := _ |} =>
    destruct (Hdeliver 23 _ 0 q (replicate 16 7) 200 Hwf
                ltac:(lia) eq_refl ltac:(discriminate) ltac:(discriminate)
                eq_refl ltac:(lia))
      as (q' & Hw & Hs & _ & Hr & Hbug)
  end.
  destruct Hbug as (Hbig & Hget & Hset);
    [lia | rewrite length_replicate; lia |].
  eexists. exists q'. split; [exact Hw |]. split; [exact Hs |].
  split; [exact Hr |]. split; [exact Hbig |].
  split; [apply Hget; lia | apply Hset; reflexivity].
Defined.

(** ** Delivery before the first registration *)

(** C9.  A registered channel without a changed callback makes delivery a
    no-op returning zero, an element never registered makes it return
    [-EINVAL], and otherwise the value (and the raw length) is stored, the
    callback runs and [olen] is returned ([proxy_write_cases]) -- with one
    exception.  Before the first registration [last_id] is [0xff], so the
    guard [id > last_id] holds for no identifier and an identifier at or
    beyond the pool size is used as an index: right after [proxy_init] a
    delivery to such an identifier reads outside [proxy_pool] and has no
    defined result. *)
Theorem C9_deliver_before_registration_undefined :
  forall N L (n : nat) (ident : Z) pvalue value_len changed,
    Z.of_nat n <= ident <= 255 ->
    proxy_get_last_id (proxy_init N L (boot N L n)) = 0xff /\
    slot (proxy_init N L (boot N L n)) ident = None /\
    proxy_write N (proxy_init N L (boot N L n)) ident pvalue value_len changed
      = None.
Proof.
  intros N L n ident pvalue value_len changed Hrange.
  assert (Hslot : slot (proxy_init N L (boot N L n)) ident = None).
  { unfold slot, proxy_init, boot. cbn.
    apply lookup_ge_None. rewrite !length_replicate. lia. }
  split; [reflexivity |]. split; [exact Hslot |].
  unfold proxy_write. rewrite Hslot.
  change (last_id (proxy_init N L (boot N L n))) with 255.
  destruct (255 <? ident) eqn:E; [apply Z.ltb_lt in E; lia | reflexivity].
Qed.

Lemma C9_deliver_before_registration_undefined_witness :
  proxy_write 16 (proxy_init 16 23 (boot 16 23 3)) 255 (replicate 16 7) 4 []
  = None.
Proof.
  apply (C9_deliver_before_registration_undefined 16 23 3 255
           (replicate 16 7) 4 []).
  cbn. lia.
Defined.

(** * Further properties of the module *)

(** ** Registration and lookup *)

Lemma length_bytes_of_string s :
  length (bytes_of_string s) = String.length s.
Proof.
  unfold bytes_of_string. rewrite length_map.
  induction s as [| a s IH]; cbn; [reflexivity | now rewrite IH].
Qed.

(** A second registration of an identifier is refused and changes nothing. *)
Theorem register_twice_refused :
  forall L vs st ident name tid vt unit ccb pcb name2 tid2 vt2 unit2 ccb2 pcb2,
    0 <= ident -> ident <> 0xff ->
    fst (knot_proxy_register L vs st ident name tid vt unit ccb pcb)
      = Registered ident ->
    knot_proxy_register L vs
      (snd (knot_proxy_register L vs st ident name tid vt unit ccb pcb))
      ident name2 tid2 vt2 unit2 ccb2 pcb2
    = (Register_failed Already_registered,
       snd (knot_proxy_register L vs st ident name tid vt unit ccb pcb)).
Proof.
  intros L vs st ident name tid vt unit ccb pcb name2 tid2 vt2 unit2 ccb2 pcb2
    Hpos Hne Hreg.
  destruct (register_cases L vs st ident name tid vt unit ccb pcb Hpos)
    as [[H _] | [[H _] | [[H _] | H]]];
    try (rewrite H in Hreg; discriminate Hreg).
  destruct H as (p & nm & p' & st' & Hr & Hslot & _ & _ & _ & Hpool & _ & Hid' & _).
  rewrite Hr. cbn [snd].
  assert (Hslot' : slot st' ident = Some p').
  { unfold slot. rewrite Hpool. apply list_lookup_insert_eq.
    eapply lookup_lt_Some, Hslot. }
  destruct (register_cases L vs st' ident name2 tid2 vt2 unit2 ccb2 pcb2 Hpos)
    as [[_ H] | [[H _] | [[_ [H _]] | H]]].
  - pose proof (slot_Some_range _ _ _ Hpos Hslot'). lia.
  - exact H.
  - destruct H as (q & Hq & Hq0). rewrite Hslot' in Hq. injection Hq as <-.
    congruence.
  - destruct H as (q & _ & _ & _ & _ & Hq & Hq0 & _).
    rewrite Hslot' in Hq. injection Hq as <-. congruence.
Qed.

Lemma register_twice_refused_witness :
  let st := proxy_init 16 23 (boot 16 23 3) in
  let accept := fun (_ : Z) (_ : knot_value_kind) (_ : Z) => 0 in
  fst (knot_proxy_register 23 accept
         (snd (knot_proxy_register 23 accept st 1 (Some "LED"%string) 0
                 KNOT_VALUE_TYPE_BOOL 0 None None))
         1 (Some "LAMP"%string) 0 KNOT_VALUE_TYPE_INT 0 None None)
  = Register_failed Already_registered.
Proof.
  intros st accept.
  rewrite (register_twice_refused 23 accept st 1 (Some "LED"%string) 0
             KNOT_VALUE_TYPE_BOOL 0 None None (Some "LAMP"%string) 0
             KNOT_VALUE_TYPE_INT 0 None None);
    [reflexivity | lia | lia | vm_compute; reflexivity].
Defined.

(** After a successful registration the handle carries the identifier, the
    schema can be looked up with the kind, type and unit given and the first
    [MIN(KNOT_PROTOCOL_DATA_NAME_LEN, strlen(name))] characters of the name,
    and every other element of the pool is as before. *)
Theorem register_then_lookup :
  forall L vs st ident nm tid vt unit ccb pcb,
    0 <= ident -> ident <> 0xff ->
    let r := knot_proxy_register L vs st ident (Some nm) tid vt unit ccb pcb in
    fst r = Registered ident ->
    knot_proxy_get_id (slot (snd r) ident) = ident /\
    (exists sch,
       proxy_get_schema (snd r) ident = Some (Some sch) /\
       type_id sch = tid /\ schema_unit sch = unit /\ value_type sch = vt /\
       take (Z.to_nat (Z.min L (strlen nm))) (name sch)
         = take (Z.to_nat (Z.min L (strlen nm))) (bytes_of_string nm)) /\
    (forall j, 0 <= j -> j <> ident -> slot (snd r) j = slot st j) /\
    pool_size (snd r) = pool_size st.
Proof.
  intros L vs st ident nm tid vt unit ccb pcb Hpos Hne r Hreg.
  destruct (register_cases L vs st ident (Some nm) tid vt unit ccb pcb Hpos)
    as [[H _] | [[H _] | [[H _] | H]]]; fold r in H;
    try (rewrite H in Hreg; discriminate Hreg).
  destruct H as (p & nm' & p' & st' & Hr & Hslot & _ & _ & Hnm & Hpool & _
                 & Hid' & Hsch & _).
  injection Hnm as <-. rewrite Hr. cbn [snd].
  assert (Hslot' : slot st' ident = Some p').
  { unfold slot. rewrite Hpool. apply list_lookup_insert_eq.
    eapply lookup_lt_Some, Hslot. }
  split; [rewrite Hslot'; exact Hid' |]. split; [| split].
  - exists (schema p'). unfold proxy_get_schema. rewrite Hslot'.
    destruct (id p' =? 255) eqn:E; [apply Z.eqb_eq in E; congruence |].
    split; [reflexivity |]. rewrite Hsch. cbn.
    split; [reflexivity |]. split; [reflexivity |]. split; [reflexivity |].
    rewrite MIN_min. unfold memcpy. rewrite take_app_le; [apply take_idemp |].
    rewrite length_take, length_bytes_of_string. unfold strlen. lia.
  - intros j Hj Hji. unfold slot. rewrite Hpool.
    apply list_lookup_insert_ne. lia.
  - unfold pool_size. rewrite Hpool, length_insert. reflexivity.
Qed.

Lemma register_then_lookup_witness :
  let st := proxy_init 16 4 (boot 16 4 3) in
  let accept := fun (_ : Z) (_ : knot_value_kind) (_ : Z) => 0 in
  exists sch,
    proxy_get_schema
      (snd (knot_proxy_register 4 accept st 2 (Some "PLATE"%string) 9
              KNOT_VALUE_TYPE_RAW 7 None None)) 2 = Some (Some sch) /\
    value_type sch = KNOT_VALUE_TYPE_RAW /\ name sch = [80; 76; 65; 84].
Proof.
  intros st accept.
  destruct (register_then_lookup 4 accept st 2 "PLATE"%string 9
              KNOT_VALUE_TYPE_RAW 7 None None ltac:(lia) ltac:(lia))
    as (_ & (sch & Hs & _ & _ & Hk & _) & _).
  { vm_compute. reflexivity. }
  exists sch. split; [exact Hs |]. split; [exact Hk |].
  vm_compute in Hs. injection Hs as <-. reflexivity.
Defined.

(** ** Set and get *)

Lemma u32_s32 x : 0 <= x < 2^32 -> u32 (s32 x) = x.
Proof.
  intros H. unfold u32, s32.
  destruct (Z_lt_le_dec x (2^31)) as [Hs | Hs].
  - rewrite (Z.mod_small (x + 2^31)) by lia.
    replace (x + 2^31 - 2^31) with x by lia. apply Z.mod_small. lia.
  - replace (x + 2^31) with ((x - 2^31) + 1 * 2^32) by lia.
    rewrite Z.mod_add by lia. rewrite (Z.mod_small (x - 2^31)) by lia.
    replace (x - 2^31 - 2^31) with (x + (-1) * 2^32) by lia.
    rewrite Z.mod_add by lia. apply Z.mod_small. lia.
Qed.

Lemma bytes32_load32 m : is_obj 4 m -> bytes32 (load32 m) = m.
Proof.
  intros [Hlen Hall].
  destruct m as [| a [| b [| c [| d [| e m]]]]]; try discriminate Hlen.
  apply Forall_cons in Hall as [Ha Hall]. apply Forall_cons in Hall as [Hb Hall].
  apply Forall_cons in Hall as [Hc Hall]. apply Forall_cons in Hall as [Hd _].
  unfold load32, load8. cbn [nth].
  rewrite !u8_small by assumption.
  unfold bytes32, u8.
  assert (E0 : (a + 2^8 * b + 2^16 * c + 2^24 * d) mod 2^8 = a).
  { replace (a + 2^8 * b + 2^16 * c + 2^24 * d)
      with (a + (b + 2^8 * c + 2^16 * d) * 2^8) by lia.
    rewrite Z.mod_add by lia. apply Z.mod_small. lia. }
  assert (D1 : (a + 2^8 * b + 2^16 * c + 2^24 * d) / 2^8
               = b + 2^8 * c + 2^16 * d).
  { replace (a + 2^8 * b + 2^16 * c + 2^24 * d)
      with (a + (b + 2^8 * c + 2^16 * d) * 2^8) by lia.
    rewrite Z.div_add by lia. rewrite Z.div_small by lia. lia. }
  assert (D2 : (a + 2^8 * b + 2^16 * c + 2^24 * d) / 2^16 = c + 2^8 * d).
  { replace (a + 2^8 * b + 2^16 * c + 2^24 * d)
      with ((a + 2^8 * b) + (c + 2^8 * d) * 2^16) by lia.
    rewrite Z.div_add by lia. rewrite Z.div_small by lia. lia. }
  assert (D3 : (a + 2^8 * b + 2^16 * c + 2^24 * d) / 2^24 = d).
  { replace (a + 2^8 * b + 2^16 * c + 2^24 * d)
      with ((a + 2^8 * b + 2^16 * c) + d * 2^24) by lia.
    rewrite Z.div_add by lia. rewrite Z.div_small by lia. lia. }
  rewrite E0, D1, D2, D3.
  replace (b + 2^8 * c + 2^16 * d) with (b + (c + 2^8 * d) * 2^8) by lia.
  rewrite Z.mod_add by lia. rewrite (Z.mod_small b) by lia.
  replace (c + 2^8 * d) with (c + d * 2^8) by lia.
  rewrite Z.mod_add by lia. rewrite (Z.mod_small c), (Z.mod_small d) by lia.
  reflexivity.
Qed.

(** What the basic get reads after a basic set: if the set triggered, the
    candidate as the channel's kind views it, and for an Int32 or Float32
    channel given a four-byte object exactly that object; if it did not
    trigger, what it read before. *)
Theorem set_then_get_basic :
  forall now p pvalue ret p',
    knot_proxy_value_set_basic now (Some p) pvalue = (ret, Some p') ->
    (ret = true ->
     knot_proxy_value_get_basic (Some p') =
       match value_type (schema p) with
       | KNOT_VALUE_TYPE_BOOL => Some [Z.b2z (val_b pvalue)]
       | KNOT_VALUE_TYPE_INT => Some (bytes32 (u32 (val_i pvalue)))
       | KNOT_VALUE_TYPE_FLOAT => Some (bytes32 (val_f pvalue))
       | _ => None
       end) /\
    (ret = true -> is_numeric (value_type (schema p)) = true ->
     is_obj 4 pvalue ->
     knot_proxy_value_get_basic (Some p') = Some pvalue) /\
    (ret = false ->
     knot_proxy_value_get_basic (Some p') = knot_proxy_value_get_basic (Some p)).
Proof.
  intros now p pvalue ret p' H.
  destruct (set_basic_frame now p pvalue)
    as (ret0 & q & Hcall & _ & Hsch & _ & _ & _ & _ & _ & _ & Hno).
  rewrite Hcall in H. injection H as -> ->.
  assert (Hgen : ret = true ->
    knot_proxy_value_get_basic (Some p') =
      match value_type (schema p) with
      | KNOT_VALUE_TYPE_BOOL => Some [Z.b2z (val_b pvalue)]
      | KNOT_VALUE_TYPE_INT => Some (bytes32 (u32 (val_i pvalue)))
      | KNOT_VALUE_TYPE_FLOAT => Some (bytes32 (val_f pvalue))
      | _ => None
      end).
  { intros ->. pose proof (set_basic_triggered _ _ _ _ Hcall) as (_ & _ & Hv).
    unfold knot_proxy_value_get_basic. rewrite Hsch.
    destruct (value_type (schema p)); try contradiction;
      destruct Hv as [-> _]; reflexivity. }
  split; [exact Hgen |]. split.
  - intros Hr Hk Hobj. rewrite (Hgen Hr).
    destruct (value_type (schema p)); try discriminate Hk.
    + unfold val_i. rewrite u32_s32 by apply load32_range.
      f_equal. apply bytes32_load32, Hobj.
    + unfold val_f. f_equal. apply bytes32_load32, Hobj.
  - intros Hr. destruct (Hno Hr) as [_ Hv].
    unfold knot_proxy_value_get_basic. rewrite Hsch, Hv. reflexivity.
Qed.

Lemma set_then_get_basic_witness :
  exists p',
    knot_proxy_value_set_basic 0
      (Some (channel 0 KNOT_VALUE_TYPE_INT KNOT_EVT_FLAG_CHANGE 0
               (int_obj 0) (int_obj 0) (int_obj 20))) (int_obj (-7))
      = (true, Some p') /\
    knot_proxy_value_get_basic (Some p') = Some (int_obj (-7)).
Proof.
  eexists. split; [reflexivity |].
  eapply (set_then_get_basic 0
            (channel 0 KNOT_VALUE_TYPE_INT KNOT_EVT_FLAG_CHANGE 0
               (int_obj 0) (int_obj 0) (int_obj 20)) (int_obj (-7)));
    [reflexivity | reflexivity | reflexivity |].
  split; [reflexivity |].
  change (int_obj (-7)) with [249; 255; 255; 255].
  repeat (apply List.Forall_cons; [cbn beta; lia |]). apply List.Forall_nil.
Defined.

(** What the raw get reads after a raw set that triggered: the first
    [min(len, min(stored length, buffer))] bytes of the payload, where the
    stored length is the payload length clamped to the raw buffer. *)
Theorem set_then_get_string :
  forall N now p pvalue len p' buf,
    0 <= N <= 255 -> len <= Z.of_nat (length pvalue) -> 0 <= buf ->
    knot_proxy_value_set_string N now (Some p) pvalue len
      = Some (true, Some p') ->
    knot_proxy_value_get_string (Some p') buf =
      Some (Some (take (Z.to_nat (Z.min buf (Z.min len N))) pvalue,
                  Z.min buf (Z.min len N))).
Proof.
  intros N now p pvalue len p' buf HN Hlen Hbuf H.
  assert (Hk : is_raw (value_type (schema p)) = true).
  { destruct (is_raw (value_type (schema p))) eqn:E; [reflexivity |].
    rewrite set_string_unsupported_kind in H by exact E. discriminate H. }
  apply set_string_frame in H.
  destruct H as (_ & Hsch & _ & _ & _ & _ & _ & Hpos & Hr & _ & Hv).
  rewrite MIN_min in *. rewrite u8_small in Hr by lia.
  unfold knot_proxy_value_get_string. rewrite Hsch, Hk. cbn [negb].
  rewrite Hr, Hv, MIN_min, (Z.min_comm N len).
  unfold memcpy. rewrite length_app, length_take.
  destruct ((Z.min buf (Z.min len N) <? 0) || _) eqn:E.
  { apply orb_true_iff in E as [E | E]; apply Z.ltb_lt in E; lia. }
  rewrite take_app_le by (rewrite length_take; lia).
  rewrite take_take. do 3 f_equal. f_equal. lia.
Qed.

Lemma set_then_get_string_witness :
  exists p',
    knot_proxy_value_set_string 4 0
      (Some (channel 2 KNOT_VALUE_TYPE_RAW KNOT_EVT_FLAG_CHANGE 0 [] []
               [0; 0; 0; 0]))
      [75; 78; 84; 48; 48; 48; 48; 0] 8 = Some (true, Some p') /\
    knot_proxy_value_get_string (Some p') 8 = Some (Some ([75; 78; 84; 48], 4)).
Proof.
  eexists. split; [reflexivity |].
  apply (set_then_get_string 4 0
           (channel 2 KNOT_VALUE_TYPE_RAW KNOT_EVT_FLAG_CHANGE 0 [] []
              [0; 0; 0; 0]) [75; 78; 84; 48; 48; 48; 48; 0] 8);
    [lia | cbn; lia | lia | reflexivity].
Defined.

(** ** Change detection *)

Lemma set_bool_twice now1 now2 p pvalue ret p1 :
  value_type (schema p) = KNOT_VALUE_TYPE_BOOL ->
  wait_resp p = false ->
  has_flag KNOT_EVT_FLAG_TIME (event_flags (config p)) = false ->
  knot_proxy_value_set_basic now1 (Some p) pvalue = (ret, Some p1) ->
  fst (knot_proxy_value_set_basic now2 (Some p1) pvalue) = false.
Proof.
  intros Hk Hw Ht. unfold knot_proxy_value_set_basic.
  rewrite (check_timeout_no_timer now1 p Ht), Hk. cbn zeta.
  rewrite orb_false_r.
  destruct (send p || check_bool_change p (val_b pvalue)) eqn:E;
    intros [= <- <-].
  - rewrite check_timeout_no_timer by exact Ht. cbn [schema set_send set_value
      set_olen]. rewrite Hk. cbn zeta. unfold check_bool_change.
    cbn [send set_send wait_resp set_value set_olen value config].
    rewrite Hw, val_b_set_val_b, eqb_reflx, andb_false_r. reflexivity.
  - rewrite check_timeout_no_timer by exact Ht. rewrite Hk. cbn zeta.
    rewrite orb_false_r, E. reflexivity.
Qed.

Lemma set_int_twice now1 now2 p pvalue ret p1 :
  value_type (schema p) = KNOT_VALUE_TYPE_INT ->
  wait_resp p = false ->
  has_flag KNOT_EVT_FLAG_TIME (event_flags (config p)) = false ->
  knot_proxy_value_set_basic now1 (Some p) pvalue = (ret, Some p1) ->
  fst (knot_proxy_value_set_basic now2 (Some p1) pvalue) = false.
Proof.
  intros Hk Hw Ht H.
  assert (Hn : is_numeric (value_type (schema p)) = true) by (rewrite Hk; reflexivity).
  destruct (set_basic_numeric now1 p pvalue Hn)
    as (q & Hcall & Hup & Hlo & Hsch & Hcfg & _ & Hwq & Hsend).
  rewrite H in Hcall. injection Hcall as Hret <-.
  destruct (set_basic_frame now1 p pvalue)
    as (ret0 & q & Hcall' & _ & _ & _ & _ & _ & _ & _ & _ & Hno).
  rewrite H in Hcall'. injection Hcall' as <- <-.
  assert (Hn1 : is_numeric (value_type (schema p1)) = true) by (rewrite Hsch; exact Hn).
  destruct (set_basic_numeric now2 p1 pvalue Hn1) as (p2 & Hcall2 & _).
  rewrite Hcall2. cbn [fst].
  rewrite check_timeout_no_timer by (rewrite Hcfg; exact Ht). cbn [fst].
  rewrite Hup, Hlo, (beyond_upper_ext p p1), (beyond_lower_ext p p1)
    by assumption.
  rewrite !andb_negb_r.
  assert (Hs1 : send p1 = false).
  { rewrite Hsend, <- Hret. destruct ret; [exact Hw |].
    symmetry in Hret. repeat (apply orb_false_iff in Hret as [Hret _]).
    exact Hret. }
  assert (Hc1 : numeric_change p1 pvalue = false).
  { unfold numeric_change, check_int_change. rewrite Hsch, Hcfg, Hk.
    destruct ret.
    - pose proof (set_basic_triggered _ _ _ _ H) as (_ & _ & Hv).
      rewrite Hk in Hv. destruct Hv as [-> _].
      rewrite Z.eqb_refl, andb_false_r. reflexivity.
    - destruct (Hno eq_refl) as [_ ->].
      symmetry in Hret.
      apply orb_false_iff in Hret as [Hret _].
      apply orb_false_iff in Hret as [Hret _].
      apply orb_false_iff in Hret as [_ Hret].
      unfold numeric_change, check_int_change in Hret. rewrite Hk in Hret.
      exact Hret. }
  rewrite Hs1, Hc1. reflexivity.
Qed.

(** On a Bool or Int32 channel without OnTimer and with no acknowledgement
    awaited, a set call with the candidate of the call before it never
    triggers, whatever the first call did: a value is reported once. *)
Theorem set_basic_same_value_once :
  forall now1 now2 p pvalue ret p1,
    value_type (schema p) = KNOT_VALUE_TYPE_BOOL
    \/ value_type (schema p) = KNOT_VALUE_TYPE_INT ->
    wait_resp p = false ->
    has_flag KNOT_EVT_FLAG_TIME (event_flags (config p)) = false ->
    knot_proxy_value_set_basic now1 (Some p) pvalue = (ret, Some p1) ->
    fst (knot_proxy_value_set_basic now2 (Some p1) pvalue) = false.
Proof.
  intros now1 now2 p pvalue ret p1 [Hk | Hk].
  - apply set_bool_twice, Hk.
  - apply set_int_twice, Hk.
Qed.

Lemma set_basic_same_value_once_witness :
  exists p1,
    knot_proxy_value_set_basic 10
      (Some (channel 0 KNOT_VALUE_TYPE_INT 14 0 (int_obj (-5)) (int_obj 100)
               (int_obj 0))) (int_obj 101) = (true, Some p1) /\
    fst (knot_proxy_value_set_basic 20 (Some p1) (int_obj 101)) = false.
Proof.
  eexists. split; [reflexivity |].
  apply (set_basic_same_value_once 10 20
           (channel 0 KNOT_VALUE_TYPE_INT 14 0 (int_obj (-5)) (int_obj 100)
              (int_obj 0)) (int_obj 101) true);
    [right; reflexivity | reflexivity | reflexivity | reflexivity].
Defined.






(** ** Pending sends *)

(** A basic set call on a channel with something pending. *)
Lemma pending_step now p pvalue :
  is_basic (value_type (schema p)) = true -> send p = true ->
  exists p',
    knot_proxy_value_set_basic now (Some p) pvalue = (true, Some p') /\
    send p' = wait_resp p /\ wait_resp p' = wait_resp p /\
    schema p' = schema p /\ config p' = config p.
Proof.
  intros Hk Hs.
  assert (Hret : fst (knot_proxy_value_set_basic now (Some p) pvalue) = true).
  { apply set_basic_forced; [| auto].
    destruct (value_type (schema p)); try discriminate Hk; auto. }
  destruct (set_basic_frame now p pvalue)
    as (ret & p' & Hcall & _ & Hsch & Hcfg & Hw & _ & _ & _ & Hsend & _).
  rewrite Hcall in Hret. cbn [fst] in Hret. subst ret.
  exists p'. auto.
Qed.

(** A basic set call on a channel without event flags and nothing pending. *)
Lemma idle_step now p pvalue :
  is_basic (value_type (schema p)) = true ->
  event_flags (config p) = KNOT_EVT_FLAG_NONE -> send p = false ->
  exists p',
    knot_proxy_value_set_basic now (Some p) pvalue = (false, Some p') /\
    send p' = false /\ wait_resp p' = wait_resp p /\
    schema p' = schema p /\ config p' = config p.
Proof.
  intros Hk Hf Hs. unfold knot_proxy_value_set_basic.
  rewrite check_timeout_no_timer by (rewrite Hf; reflexivity).
  unfold check_bool_change, check_int_change, check_int_change_fval,
    check_int_upper_threshold, check_int_lower_threshold,
    check_float_upper_threshold, check_float_lower_threshold.
  rewrite Hf, Hs.
  change (has_flag KNOT_EVT_FLAG_CHANGE KNOT_EVT_FLAG_NONE) with false.
  change (has_flag KNOT_EVT_FLAG_UPPER_THRESHOLD KNOT_EVT_FLAG_NONE) with false.
  change (has_flag KNOT_EVT_FLAG_LOWER_THRESHOLD KNOT_EVT_FLAG_NONE) with false.
  cbn [andb orb].
  destruct (value_type (schema p)); try discriminate Hk;
    eexists; (split; [reflexivity |]); cbn; auto.
Qed.

Lemma idle_seq calls : forall p,
  is_basic (value_type (schema p)) = true ->
  event_flags (config p) = KNOT_EVT_FLAG_NONE -> send p = false ->
  set_basic_seq p calls = map (fun _ => false) calls.
Proof.
  induction calls as [| [now pvalue] calls IH]; intros p Hk Hf Hs;
    [reflexivity |].
  cbn [set_basic_seq map].
  destruct (idle_step now p pvalue Hk Hf Hs) as (p' & -> & Hs' & _ & Hsch & Hcfg).
  f_equal. apply IH; congruence.
Qed.

Lemma awaiting_seq calls : forall p,
  is_basic (value_type (schema p)) = true ->
  send p = true -> wait_resp p = true ->
  set_basic_seq p calls = map (fun _ => true) calls.
Proof.
  induction calls as [| [now pvalue] calls IH]; intros p Hk Hs Hw;
    [reflexivity |].
  cbn [set_basic_seq map].
  destruct (pending_step now p pvalue Hk Hs) as (p' & -> & Hs' & Hw' & Hsch & _).
  f_equal. apply IH; congruence.
Qed.



(** While an acknowledgement is awaited and a send is pending, every basic
    set call triggers again and the send stays pending.
    [proxy_confirm_sent] clears [send] only: [wait_resp] stays set.  After
    it a channel without event flags does not trigger any more.  On a free
    element [proxy_confirm_sent] returns [-EINVAL] without a change. *)
Theorem await_response_until_confirmed :
  forall st ident p,
    slot st ident = Some p ->
    (id p = 0xff -> proxy_confirm_sent st ident = Some (- EINVAL, st)) /\
    (id p <> 0xff ->
     proxy_confirm_sent st ident
       = Some (0, set_slot st ident (set_send false p)) /\
     wait_resp (set_send false p) = wait_resp p /\
     (is_basic (value_type (schema p)) = true ->
      send p = true -> wait_resp p = true ->
      forall calls, set_basic_seq p calls = map (fun _ => true) calls) /\
     (is_basic (value_type (schema p)) = true ->
      event_flags (config p) = KNOT_EVT_FLAG_NONE ->
      forall calls,
        set_basic_seq (set_send false p) calls = map (fun _ => false) calls)).
Proof.
  intros st ident p Hslot. unfold proxy_confirm_sent. rewrite Hslot. split.
  - intros ->. reflexivity.
  - intros Hid. apply Z.eqb_neq in Hid. rewrite Hid.
    split; [reflexivity |]. split; [reflexivity |]. split.
    + intros Hk Hs Hw calls. apply awaiting_seq; assumption.
    + intros Hk Hf calls. apply idle_seq; auto.
Qed.

Lemma await_response_until_confirmed_witness :
  let p := set_wait_resp true
             (set_send true
                (channel 1 KNOT_VALUE_TYPE_BOOL KNOT_EVT_FLAG_NONE 0 [] [] [1])) in
  let st := {| proxy_pool := [zero_proxy 16 23; p]; last_id := 1 |} in
  set_basic_seq p [(5, [1]); (6, [1])] = [true; true] /\
  proxy_confirm_sent st 1 = Some (0, set_slot st 1 (set_send false p)) /\
  set_basic_seq (set_send false p) [(7, [1]); (8, [0])] = [false; false].
Proof.
  intros p st.
  destruct (await_response_until_confirmed st 1 p eq_refl) as (_ & H).
  destruct (H ltac:(discriminate)) as (Hc & _ & Hseq & Hidle).
  split; [apply (Hseq eq_refl eq_refl eq_refl) |].
  split; [exact Hc |]. apply (Hidle eq_refl eq_refl).
Defined.

(** ** Polling *)

(** The prologue of [proxy_read] does not influence the trigger. *)
Lemma set_basic_after_prologue now p w pvalue :
  fst (knot_proxy_value_set_basic now
         (Some (set_wait_resp w (set_olen 0 p))) pvalue)
  = fst (knot_proxy_value_set_basic now (Some p) pvalue).
Proof.
  destruct p as [i [ti un k nm] v s wr uf lf ol rl [ef ts lo up] lt pc cc].
  unfold knot_proxy_value_set_basic, check_timeout, set_wait_resp, set_olen,
    check_bool_change, check_int_change, check_int_change_fval,
    check_int_upper_threshold, check_int_lower_threshold,
    check_float_upper_threshold, check_float_lower_threshold.
  cbn [config event_flags time_sec last_timeout].
  destruct (negb (has_flag KNOT_EVT_FLAG_TIME ef));
    [| destruct (u32 (ts * 1000) <=? u32 (u32 now - lt))];
    cbn [schema value_type set_last_timeout config event_flags value send
         upper_flag lower_flag upper_limit lower_limit];
    destruct k;
    repeat match goal with
    | |- context [if ?c then _ else _] => destruct c
    end; reflexivity.
Qed.

(** [proxy_read] on a registered channel.  Without a poll callback it
    returns NULL and changes nothing.  With one it first clears [olen] and
    records the acknowledgement mode, so a callback that sets nothing gives
    NULL.  With a callback that makes one basic set call it returns a value
    exactly when that set triggers, and then the value is the candidate as
    the kind views it, with the length 1 for Bool and 4 for Int32 and
    Float32. *)
Theorem poll_reports_trigger :
  forall N st ident w p,
    slot st ident = Some p -> id p <> 0xff ->
    (poll_cb p = None ->
     forall poll, proxy_read N st ident w poll = Some (None, st)) /\
    (poll_cb p <> None ->
     proxy_read N st ident w []
       = Some (None, set_slot st ident (set_wait_resp w (set_olen 0 p))) /\
     forall now pvalue,
     is_basic (value_type (schema p)) = true ->
     exists res p',
       proxy_read N st ident w [Call_set_basic now pvalue]
         = Some (res, set_slot st ident p') /\
       (fst (knot_proxy_value_set_basic now (Some p) pvalue) = false ->
        res = None) /\
       (fst (knot_proxy_value_set_basic now (Some p) pvalue) = true ->
        match value_type (schema p) with
        | KNOT_VALUE_TYPE_BOOL =>
          res = Some (value p', 1) /\ val_b (value p') = val_b pvalue
        | KNOT_VALUE_TYPE_INT =>
          res = Some (value p', 4) /\ val_i (value p') = val_i pvalue
        | _ =>
          res = Some (value p', 4) /\ val_f (value p') = val_f pvalue
        end)).
Proof.
  intros N st ident w p Hslot Hid. apply Z.eqb_neq in Hid.
  unfold proxy_read. rewrite Hslot, Hid. split.
  - intros -> poll. reflexivity.
  - intros Hcb. destruct (poll_cb p) eqn:Ecb; [| contradiction].
    cbn [is_null]. split; [reflexivity |].
    intros now pvalue Hk. cbn [run_callback].
    rewrite <- (set_basic_after_prologue now p w pvalue).
    destruct (set_basic_frame now (set_wait_resp w (set_olen 0 p)) pvalue)
      as (ret & p' & Hcall & _ & _ & _ & _ & _ & _ & _ & _ & Hno).
    rewrite Hcall. cbn [snd fst].
    destruct ret.
    + pose proof (set_basic_triggered _ _ _ _ Hcall) as (_ & _ & Hv).
      cbn [schema set_wait_resp set_olen] in Hv.
      destruct (value_type (schema p)); try discriminate Hk;
        destruct Hv as [Hv Ho]; rewrite Ho; cbn [Z.leb Z.compare];
        do 2 eexists; (split; [reflexivity |]);
        (split; [discriminate | intros _; auto]).
    + destruct (Hno eq_refl) as [Ho _]. rewrite Ho. cbn.
      do 2 eexists. split; [reflexivity |]. split; [reflexivity | discriminate].
Qed.

Lemma poll_reports_trigger_witness :
  let p := channel 0 KNOT_VALUE_TYPE_INT KNOT_EVT_FLAG_CHANGE 0
             (int_obj 0) (int_obj 0) (int_obj 20) in
  let st := {| proxy_pool := [p]; last_id := 0 |} in
  proxy_read 16 st 0 true []
    = Some (None, set_slot st 0 (set_wait_resp true (set_olen 0 p))).
Proof.
  intros p st.
  destruct (poll_reports_trigger 16 st 0 true p eq_refl ltac:(discriminate))
    as (_ & H).
  destruct (H ltac:(discriminate)) as (Hempty & _). exact Hempty.
Defined.

(** ** Delivery to a callback that sets nothing *)

(** A delivery to a registered channel whose changed callback sets nothing
    replaces the stored value by the delivered one without evaluating any
    trigger: [send], [wait_resp], the latches and the timer base are as
    before, and the basic get reads the delivered value.  The length it
    returns is the [olen] left by the last poll or set, not a length of the
    delivered value. *)
Theorem deliver_stores_without_trigger :
  forall N L st ident delivered value_len p,
    wf_state N L st -> 0 <= ident ->
    slot st ident = Some p -> id p <> 0xff -> changed_cb p <> None ->
    exists p',
      proxy_write N st ident delivered value_len []
        = Some (s8 (olen p), set_slot st ident p') /\
      slot (set_slot st ident p') ident = Some p' /\
      value p' = delivered /\
      send p' = send p /\ wait_resp p' = wait_resp p /\
      upper_flag p' = upper_flag p /\ lower_flag p' = lower_flag p /\
      last_timeout p' = last_timeout p /\ olen p' = olen p /\
      config p' = config p /\
      knot_proxy_value_get_basic (Some p') =
        match value_type (schema p) with
        | KNOT_VALUE_TYPE_BOOL => Some [Z.b2z (val_b delivered)]
        | KNOT_VALUE_TYPE_INT => Some (bytes32 (u32 (val_i delivered)))
        | KNOT_VALUE_TYPE_FLOAT => Some (bytes32 (val_f delivered))
        | _ => None
        end.
Proof.
  intros N L st ident delivered value_len p Hwf Hpos Hslot Hid Hcb.
  destruct (registered_le_last N L st ident p Hwf Hpos Hslot Hid) as [Hlt _].
  unfold proxy_write. rewrite Hlt, Hslot.
  apply Z.eqb_neq in Hid. rewrite Hid.
  destruct (changed_cb p) eqn:Ecb; [| contradiction]. cbn [is_null run_callback].
  eexists. split; [| split; [eapply slot_set_slot, Hslot |]].
  - f_equal. f_equal. cbn. destruct (is_raw _); reflexivity.
  - cbn [schema set_value].
    destruct (is_raw (value_type (schema p))) eqn:Er; cbn; repeat split;
      destruct (value_type (schema p)); try discriminate Er; reflexivity.
Qed.

Lemma deliver_stores_without_trigger_witness :
  let accept := fun (_ : Z) (_ : knot_value_kind) (_ : Z) => 0 in
  let accept_config :=
    fun (_ : Z) (_ : knot_value_kind) (_ : Z) (_ _ : knot_value_type) => 0 in
  match run 16 23 accept accept_config
          [Api_register 0 (Some "THERMO"%string) 0 KNOT_VALUE_TYPE_INT 0
             (Some 2%nat) (Some 1%nat);
           Api_force_send 0;
           Api_read 0 false [Call_set_basic 0 (int_obj 20)]]
          (proxy_init 16 23 (boot 16 23 3)) with
  | Some st =>
    exists st',
      proxy_write 16 st 0 (int_obj 55) 4 [] = Some (4, st') /\
      knot_proxy_value_get_basic (slot st' 0) = Some (int_obj 55)
  | None => False
  end.
Proof.
  intros accept accept_config.
  destruct (run 16 23 accept accept_config _ _) as [st |] eqn:Hrun;
    [| vm_compute in Hrun; discriminate Hrun].
  destruct (wf_init 16 23 3 ltac:(lia)) as [Hwf0 _].
  destruct (run_wf _ _ _ _ _ _ _ Hwf0 Hrun) as (Hwf & _).
  vm_compute in Hrun. injection Hrun as <-.
  match type of Hwf with
  | wf_state _ _ {| proxy_pool := ?q :: _; last_id := _ |} =>
    destruct (deliver_stores_without_trigger 16 23 _ 0 (int_obj 55) 4 q Hwf
                ltac:(lia) eq_refl ltac:(discriminate) ltac:(discriminate))
      as (p' & Hw & Hs & _ & _ & _ & _ & _ & _ & _ & _ & Hg)
  end.
  eexists. split; [exact Hw |]. rewrite Hs. exact Hg.
Defined.

(** ** The timer across the wrap of the 32-bit clock *)

(** The timer measures the uptime difference modulo [2^32] ms: it fires
    exactly when [(now - last_timeout) mod 2^32] reaches the period, so an
    interval of [d < 2^32] ms is measured correctly even when the 32-bit
    clock value wraps in between, and [k * 2^32] further milliseconds are
    not seen.  With a period of zero it fires on every call. *)
Theorem timer_measures_modulo_wrap :
  forall now p,
    has_flag KNOT_EVT_FLAG_TIME (event_flags (config p)) = true ->
    0 <= time_sec (config p) <= 65535 ->
    (fst (check_timeout now p) = true <->
     time_sec (config p) * 1000 <= (now - last_timeout p) mod 2^32) /\
    (forall d k, 0 <= d < 2^32 -> now = last_timeout p + d + k * 2^32 ->
       (fst (check_timeout now p) = true <-> time_sec (config p) * 1000 <= d)) /\
    (time_sec (config p) = 0 -> fst (check_timeout now p) = true).
Proof.
  intros now p Hf Hp.
  assert (Hel : u32 (u32 now - last_timeout p) = (now - last_timeout p) mod 2^32).
  { unfold u32. apply Zminus_mod_idemp_l. }
  assert (Hiff : fst (check_timeout now p) = true <->
                 time_sec (config p) * 1000 <= (now - last_timeout p) mod 2^32).
  { rewrite (check_timeout_timer now p Hf Hp), Hel.
    destruct (_ <=? _) eqn:E; cbn [fst].
    - apply Z.leb_le in E. tauto.
    - apply Z.leb_gt in E. split; [discriminate | lia]. }
  split; [exact Hiff |]. split.
  - intros d k Hd ->. rewrite Hiff.
    replace (last_timeout p + d + k * 2^32 - last_timeout p)
      with (d + k * 2^32) by lia.
    rewrite Z.mod_add by lia. rewrite Z.mod_small by lia. reflexivity.
  - intros H0. apply Hiff. rewrite H0.
    pose proof (Z.mod_pos_bound (now - last_timeout p) (2^32)). lia.
Qed.

Lemma timer_measures_modulo_wrap_witness :
  fst (check_timeout 1704
         (set_last_timeout 4294966000
            (channel 0 KNOT_VALUE_TYPE_INT KNOT_EVT_FLAG_TIME 3
               (int_obj 0) (int_obj 0) (int_obj 0)))) = true.
Proof.
  pose (p := set_last_timeout 4294966000
               (channel 0 KNOT_VALUE_TYPE_INT KNOT_EVT_FLAG_TIME 3
                  (int_obj 0) (int_obj 0) (int_obj 0))).
  assert (Hp : 0 <= time_sec (config p) <= 65535) by (cbn; lia).
  destruct (timer_measures_modulo_wrap 1704 p eq_refl Hp) as (_ & H & _).
  apply (H 3000 (-1)); [lia | reflexivity | cbn; lia].
Defined.

(** ** Configuration arguments *)

Lemma lor_flag_bound f g :
  0 <= f <= 15 -> g = 1 \/ g = 2 \/ g = 4 \/ g = 8 -> 0 <= Z.lor f g <= 15.
Proof.
  intros Hf Hg.
  assert (Hcases : f = 0 \/ f = 1 \/ f = 2 \/ f = 3 \/ f = 4 \/ f = 5 \/ f = 6
                   \/ f = 7 \/ f = 8 \/ f = 9 \/ f = 10 \/ f = 11 \/ f = 12
                   \/ f = 13 \/ f = 14 \/ f = 15) by lia.
  repeat (destruct Hcases as [-> | Hcases]); try subst f;
    repeat (destruct Hg as [-> | Hg]); try subst g;
    split; apply Z.leb_le; reflexivity.
Qed.

Lemma u16_range x : 0 <= u16 x <= 65535.
Proof. unfold u16. pose proof (Z.mod_pos_bound x (2^16)). lia. Qed.

Lemma read_events_bounds_fuel vt (n : nat) : forall args f t lo up f' t' lo' up',
  (length args <= n)%nat ->
  0 <= f <= 15 -> 0 <= t <= 65535 ->
  read_events vt args f t lo up = Events_done f' t' lo' up' ->
  0 <= f' <= 15 /\ 0 <= t' <= 65535.
Proof.
  induction n as [| n IH]; intros args f t lo up f' t' lo' up' Hn Hf Ht.
  { destruct args; [discriminate | cbn in Hn; lia]. }
  destruct args as [| [e | d] args]; cbn [read_events]; try discriminate.
  assert (Hlor : forall g, g = 1 \/ g = 2 \/ g = 4 \/ g = 8 ->
                           0 <= Z.lor f g <= 15)
    by (intros g; apply lor_flag_bound, Hf).
  assert (Hstep : forall rest g t2 lo2 up2,
            (length rest <= length args)%nat ->
            g = 1 \/ g = 2 \/ g = 4 \/ g = 8 -> 0 <= t2 <= 65535 ->
            read_events vt rest (Z.lor f g) t2 lo2 up2
              = Events_done f' t' lo' up' ->
            0 <= f' <= 15 /\ 0 <= t' <= 65535).
  { intros rest g t2 lo2 up2 Hl Hg Ht2 Heq.
    eapply IH; [| apply Hlor, Hg | exact Ht2 | exact Heq].
    cbn [length] in Hn. lia. }
  destruct (u8 e =? KNOT_EVT_FLAG_NONE); [intros [= <- <- <- <-]; auto |].
  destruct (u8 e =? KNOT_EVT_FLAG_CHANGE).
  { apply Hstep; auto. }
  destruct (u8 e =? KNOT_EVT_FLAG_TIME).
  { destruct args as [| [x | d] rest]; try discriminate.
    apply Hstep; [cbn; lia | auto | apply u16_range]. }
  destruct (u8 e =? KNOT_EVT_FLAG_UPPER_THRESHOLD).
  { destruct vt; try (apply Hstep; auto; fail);
      (destruct args as [| [x | d] rest]; try discriminate);
      apply Hstep; auto; cbn; lia. }
  destruct (u8 e =? KNOT_EVT_FLAG_LOWER_THRESHOLD).
  { destruct vt; try (apply Hstep; auto; fail);
      (destruct args as [| [x | d] rest]; try discriminate);
      apply Hstep; auto; cbn; lia. }
  discriminate.
Qed.

Lemma read_events_bounds vt args f t lo up f' t' lo' up' :
  0 <= f <= 15 -> 0 <= t <= 65535 ->
  read_events vt args f t lo up = Events_done f' t' lo' up' ->
  0 <= f' <= 15 /\ 0 <= t' <= 65535.
Proof. apply (read_events_bounds_fuel vt (length args)). lia. Qed.

Lemma set_config_success N valid st ident event_args st' :
  knot_proxy_set_config N valid st ident event_args = Some (true, st') ->
  exists p flags timeout lower upper,
    slot st ident = Some p /\ id p = ident /\ ident < pool_size st /\
    read_events (value_type (schema p)) event_args KNOT_EVT_FLAG_NONE 0
      (set_val_i (zero_value N) 0) (set_val_i (zero_value N) 0)
      = Events_done flags timeout lower upper /\
    st' = set_slot st ident
            (set_config
               {| event_flags := flags; time_sec := timeout;
                  lower_limit :=
                    if has_flag KNOT_EVT_FLAG_LOWER_THRESHOLD flags
                    then lower else lower_limit (config p);
                  upper_limit :=
                    if has_flag KNOT_EVT_FLAG_UPPER_THRESHOLD flags
                    then upper else upper_limit (config p) |} p).
Proof.
  unfold knot_proxy_set_config.
  destruct (pool_size st <=? ident) eqn:Hr; [discriminate |].
  apply Z.leb_gt in Hr.
  destruct (slot st ident) as [p |]; [| discriminate].
  destruct (id p =? ident) eqn:Hid; cbn [negb]; [| discriminate].
  apply Z.eqb_eq in Hid.
  destruct (read_events _ _ _ _ _ _) as [| | flags timeout lower upper] eqn:Hev;
    try discriminate.
  destruct (valid _ _ _ _ _ =? 0); cbn [negb]; [| discriminate].
  intros [= <-]. exists p, flags, timeout, lower, upper. auto.
Qed.

(** A successful configuration stores only recognised event bits and a
    period below [2^16], and changes nothing else of the channel: the
    value, the pending state, the latches and the timer base stay. *)
Theorem set_config_stores_recognised_flags :
  forall N valid st ident event_args st',
    knot_proxy_set_config N valid st ident event_args = Some (true, st') ->
    exists p p',
      slot st ident = Some p /\ slot st' ident = Some p' /\
      0 <= event_flags (config p') <= 15 /\
      0 <= time_sec (config p') <= 65535 /\
      id p' = id p /\ schema p' = schema p /\ value p' = value p /\
      send p' = send p /\ wait_resp p' = wait_resp p /\
      upper_flag p' = upper_flag p /\ lower_flag p' = lower_flag p /\
      olen p' = olen p /\ rlen p' = rlen p /\
      last_timeout p' = last_timeout p.
Proof.
  intros N valid st ident event_args st' H.
  destruct (set_config_success _ _ _ _ _ _ H)
    as (p & flags & timeout & lower & upper & Hslot & _ & _ & Hev & ->).
  apply read_events_bounds in Hev as [Hf Ht];
    [| unfold KNOT_EVT_FLAG_NONE; lia | lia].
  exists p. eexists. split; [exact Hslot |].
  split; [eapply slot_set_slot, Hslot |]. cbn. auto 20.
Qed.

Lemma set_config_stores_recognised_flags_witness :
  let st := {| proxy_pool :=
                 [channel 0 KNOT_VALUE_TYPE_INT KNOT_EVT_FLAG_CHANGE 9
                    (int_obj 1) (int_obj 2) (int_obj 3)];
               last_id := 0 |} in
  exists st' p',
    knot_proxy_set_config 16 (fun _ _ _ _ _ => 0) st 0
      [VA_int 1; VA_int 70000; VA_int 8; VA_int 0] = Some (true, st') /\
    slot st' 0 = Some p' /\
    event_flags (config p') = 9 /\ time_sec (config p') = 4464.
Proof.
  intros st.
  destruct (set_config_stores_recognised_flags 16 (fun _ _ _ _ _ => 0) st 0
              [VA_int 1; VA_int 70000; VA_int 8; VA_int 0] _ eq_refl)
    as (p & p' & _ & Hs' & _).
  eexists. exists p'. split; [reflexivity |]. split; [exact Hs' |].
  vm_compute in Hs'. injection Hs' as <-. split; reflexivity.
Defined.

(** Configuring an upper threshold on a registered Int32 channel (the
    validator accepting) stores the limit as [s32_t]; with nothing pending
    and the latch clear, the next set call then triggers exactly when the
    candidate is greater than the limit. *)
Theorem configure_upper_threshold_then_set :
  forall N valid st ident p x now pvalue,
    slot st ident = Some p -> id p = ident -> 0 <= ident ->
    value_type (schema p) = KNOT_VALUE_TYPE_INT ->
    valid KNOT_EVT_FLAG_UPPER_THRESHOLD KNOT_VALUE_TYPE_INT 0
      (set_val_i (zero_value N) 0)
      (set_val_i (set_val_i (zero_value N) 0) (s32 x)) = 0 ->
    send p = false -> upper_flag p = false ->
    exists p',
      knot_proxy_set_config N valid st ident
        [VA_int KNOT_EVT_FLAG_UPPER_THRESHOLD; VA_int x;
         VA_int KNOT_EVT_FLAG_NONE]
        = Some (true, set_slot st ident p') /\
      event_flags (config p') = KNOT_EVT_FLAG_UPPER_THRESHOLD /\
      val_i (upper_limit (config p')) = s32 x /\
      (fst (knot_proxy_value_set_basic now (Some p') pvalue) = true <->
       s32 x < val_i pvalue).
Proof.
  intros N valid st ident p x now pvalue Hslot Hid Hpos Hk Hv Hs Hu.
  pose proof (slot_Some_range _ _ _ Hpos Hslot) as Hr.
  apply Z.leb_gt in Hr.
  unfold knot_proxy_set_config. rewrite Hr, Hslot, Hid, Z.eqb_refl, Hk.
  cbn [negb read_events].
  change (u8 KNOT_EVT_FLAG_UPPER_THRESHOLD =? KNOT_EVT_FLAG_NONE) with false.
  change (u8 KNOT_EVT_FLAG_UPPER_THRESHOLD =? KNOT_EVT_FLAG_CHANGE) with false.
  change (u8 KNOT_EVT_FLAG_UPPER_THRESHOLD =? KNOT_EVT_FLAG_TIME) with false.
  change (u8 KNOT_EVT_FLAG_UPPER_THRESHOLD =? KNOT_EVT_FLAG_UPPER_THRESHOLD)
    with true.
  change (u8 KNOT_EVT_FLAG_NONE =? KNOT_EVT_FLAG_NONE) with true.
  change (Z.lor KNOT_EVT_FLAG_NONE KNOT_EVT_FLAG_UPPER_THRESHOLD)
    with KNOT_EVT_FLAG_UPPER_THRESHOLD.
  cbv iota beta. rewrite Hv. cbn [Z.eqb negb].
  change (has_flag KNOT_EVT_FLAG_UPPER_THRESHOLD KNOT_EVT_FLAG_UPPER_THRESHOLD)
    with true.
  change (has_flag KNOT_EVT_FLAG_LOWER_THRESHOLD KNOT_EVT_FLAG_UPPER_THRESHOLD)
    with false.
  cbv iota.
  eexists. split; [reflexivity |].
  split; [reflexivity |].
  assert (Hlim : val_i (set_val_i (set_val_i (zero_value N) 0) (s32 x)) = s32 x).
  { rewrite val_i_set_val_i. apply s32_small, s32_range. }
  split; [exact Hlim |].
  match goal with |- fst (knot_proxy_value_set_basic _ (Some ?q) _) = _ <-> _ =>
    destruct (set_basic_numeric now q pvalue) as (p2 & Hcall & _);
      [cbn; rewrite Hk; reflexivity |];
    rewrite Hcall; cbn [fst];
    rewrite check_timeout_no_timer by reflexivity;
    unfold numeric_change, beyond_upper, beyond_lower, check_int_change,
      check_int_upper_threshold, check_int_lower_threshold
  end.
  cbn [schema config set_config event_flags upper_limit send upper_flag
       lower_flag fst].
  rewrite Hk, Hs, Hu, Hlim.
  change (has_flag KNOT_EVT_FLAG_CHANGE KNOT_EVT_FLAG_UPPER_THRESHOLD) with false.
  change (has_flag KNOT_EVT_FLAG_UPPER_THRESHOLD KNOT_EVT_FLAG_UPPER_THRESHOLD)
    with true.
  change (has_flag KNOT_EVT_FLAG_LOWER_THRESHOLD KNOT_EVT_FLAG_UPPER_THRESHOLD)
    with false.
  cbn [andb orb negb]. rewrite andb_true_r, orb_false_r.
  apply Z.ltb_lt.
Qed.

Lemma configure_upper_threshold_then_set_witness :
  let p := channel 0 KNOT_VALUE_TYPE_INT KNOT_EVT_FLAG_NONE 0
             (int_obj 0) (int_obj 0) (int_obj 0) in
  let st := {| proxy_pool := [p]; last_id := 0 |} in
  exists p',
    knot_proxy_set_config 16 (fun _ _ _ _ _ => 0) st 0
      [VA_int 4; VA_int 100000; VA_int 0] = Some (true, set_slot st 0 p') /\
    fst (knot_proxy_value_set_basic 0 (Some p') (int_obj 100001)) = true /\
    fst (knot_proxy_value_set_basic 0 (Some p') (int_obj 100000)) = false.
Proof.
  intros p st.
  destruct (configure_upper_threshold_then_set 16 (fun _ _ _ _ _ => 0) st 0 p
              100000 0 (int_obj 100001) eq_refl eq_refl ltac:(lia) eq_refl
              eq_refl eq_refl eq_refl) as (p' & Hc & _ & _ & Hiff).
  exists p'. split; [exact Hc |]. split.
  - apply Hiff. vm_compute. reflexivity.
  - vm_compute in Hc. injection Hc as <-. vm_compute. reflexivity.
Defined.

(** On a channel that is neither Int32 nor Float32 a threshold flag reads
    no limit: the argument after it is taken for the next event flag, so a
    limit that is not itself a flag value makes the call fail without a
    change, whatever the validator would say. *)
Theorem threshold_on_non_numeric_channel :
  forall N valid st ident p flag x rest,
    slot st ident = Some p -> id p = ident -> 0 <= ident ->
    is_numeric (value_type (schema p)) = false ->
    flag = KNOT_EVT_FLAG_UPPER_THRESHOLD \/ flag = KNOT_EVT_FLAG_LOWER_THRESHOLD ->
    u8 x <> KNOT_EVT_FLAG_NONE -> u8 x <> KNOT_EVT_FLAG_CHANGE ->
    u8 x <> KNOT_EVT_FLAG_TIME -> u8 x <> KNOT_EVT_FLAG_UPPER_THRESHOLD ->
    u8 x <> KNOT_EVT_FLAG_LOWER_THRESHOLD ->
    knot_proxy_set_config N valid st ident (VA_int flag :: VA_int x :: rest)
      = Some (false, st).
Proof.
  intros N valid st ident p flag x rest Hslot Hid Hpos Hk Hflag H0 H8 H1 H4 H2.
  pose proof (slot_Some_range _ _ _ Hpos Hslot) as Hr.
  apply Z.leb_gt in Hr.
  unfold knot_proxy_set_config. rewrite Hr, Hslot, Hid, Z.eqb_refl.
  cbn [negb].
  apply Z.eqb_neq in H0, H8, H1, H4, H2.
  assert (Hev : forall f t lo up,
            read_events (value_type (schema p)) (VA_int x :: rest) f t lo up
              = Events_invalid).
  { intros f t lo up. cbn [read_events]. rewrite H0, H8, H1, H4, H2.
    reflexivity. }
  destruct Hflag as [-> | ->]; cbn [read_events].
  - change (u8 KNOT_EVT_FLAG_UPPER_THRESHOLD =? KNOT_EVT_FLAG_NONE) with false.
    change (u8 KNOT_EVT_FLAG_UPPER_THRESHOLD =? KNOT_EVT_FLAG_CHANGE) with false.
    change (u8 KNOT_EVT_FLAG_UPPER_THRESHOLD =? KNOT_EVT_FLAG_TIME) with false.
    change (u8 KNOT_EVT_FLAG_UPPER_THRESHOLD =? KNOT_EVT_FLAG_UPPER_THRESHOLD)
      with true.
    cbv iota.
    destruct (value_type (schema p)); try discriminate Hk;
      fold (read_events); rewrite ?H0, ?H8, ?H1, ?H4, ?H2; reflexivity.
  - change (u8 KNOT_EVT_FLAG_LOWER_THRESHOLD =? KNOT_EVT_FLAG_NONE) with false.
    change (u8 KNOT_EVT_FLAG_LOWER_THRESHOLD =? KNOT_EVT_FLAG_CHANGE) with false.
    change (u8 KNOT_EVT_FLAG_LOWER_THRESHOLD =? KNOT_EVT_FLAG_TIME) with false.
    change (u8 KNOT_EVT_FLAG_LOWER_THRESHOLD =? KNOT_EVT_FLAG_UPPER_THRESHOLD)
      with false.
    change (u8 KNOT_EVT_FLAG_LOWER_THRESHOLD =? KNOT_EVT_FLAG_LOWER_THRESHOLD)
      with true.
    cbv iota.
    destruct (value_type (schema p)); try discriminate Hk;
      rewrite ?H0, ?H8, ?H1, ?H4, ?H2; reflexivity.
Qed.

Lemma threshold_on_non_numeric_channel_witness :
  let p := channel 0 KNOT_VALUE_TYPE_BOOL KNOT_EVT_FLAG_NONE 0 [] [] [0] in
  let st := {| proxy_pool := [p]; last_id := 0 |} in
  knot_proxy_set_config 16 (fun _ _ _ _ _ => 0) st 0
    [VA_int 4; VA_int 100; VA_int 0] = Some (false, st).
Proof.
  intros p st.
  apply (threshold_on_non_numeric_channel 16 (fun _ _ _ _ _ => 0) st 0 p);
    try reflexivity; try lia; auto; vm_compute; discriminate.
Defined.

(** ** A negative raw length *)

(** The raw set takes its length as an [int].  With a negative length it
    returns false and changes nothing as long as nothing triggers; as soon
    as OnChange is set, a send is forced or the timer has elapsed, the
    negative length reaches [memcpy] and the call has no defined result. *)
Theorem set_string_negative_length :
  forall N now p pvalue len,
    is_raw (value_type (schema p)) = true -> len < 0 -> 0 <= rlen p ->
    (has_flag KNOT_EVT_FLAG_CHANGE (event_flags (config p)) = true
     \/ send p = true \/ fst (check_timeout now p) = true ->
     knot_proxy_value_set_string N now (Some p) pvalue len = None) /\
    (has_flag KNOT_EVT_FLAG_CHANGE (event_flags (config p)) = false ->
     send p = false -> fst (check_timeout now p) = false ->
     knot_proxy_value_set_string N now (Some p) pvalue len
       = Some (false, Some p)).
Proof.
  intros N now p pvalue len Hk Hlen Hr.
  unfold knot_proxy_value_set_string. rewrite Hk. cbn [negb].
  pose proof (check_timeout_frame now p) as F.
  assert (Hneq : negb (rlen p =? len) = true)
    by (apply negb_true_iff, Z.eqb_neq; lia).
  assert (Hmin : (MIN N len <? 0) = true)
    by (apply Z.ltb_lt; rewrite MIN_min; lia).
  destruct (check_timeout_cases now p) as [Hc | Hc]; rewrite Hc in *;
    cbn [snd fst] in *;
    destruct F as (_ & _ & _ & Fsend & _ & _ & _ & _ & Frlen & Fconfig & _);
    unfold check_raw_change; rewrite ?Fsend, ?Frlen, ?Fconfig, Hneq;
    destruct (has_flag KNOT_EVT_FLAG_CHANGE (event_flags (config p)));
    cbn [negb]; rewrite ?andb_false_r, ?andb_true_r, ?Hmin; cbn [orb].
  - split.
    + intros _. destruct (send p); reflexivity.
    + intros H. discriminate H.
  - split.
    + intros [H | [-> | H]]; [discriminate H | reflexivity | discriminate H].
    + intros _ -> _. reflexivity.
  - split; [reflexivity |]. intros H. discriminate H.
  - split; [reflexivity |]. intros _ _ H. discriminate H.
Qed.

Lemma set_string_negative_length_witness :
  knot_proxy_value_set_string 16 0
    (Some (channel 2 KNOT_VALUE_TYPE_RAW KNOT_EVT_FLAG_CHANGE 0 [] []
             (replicate 16 0))) [75; 78; 84] (-1) = None.
Proof.
  apply (set_string_negative_length 16 0
           (channel 2 KNOT_VALUE_TYPE_RAW KNOT_EVT_FLAG_CHANGE 0 [] []
              (replicate 16 0)) [75; 78; 84] (-1));
    [reflexivity | lia | cbn; lia | left; reflexivity].
Defined.

(** ** Invariants of runs *)

Lemma set_basic_in_range now p pvalue p' :
  snd (knot_proxy_value_set_basic now (Some p) pvalue) = Some p' ->
  fields_in_range p -> fields_in_range p'.
Proof.
  unfold fields_in_range.
  destruct p as [i [ti un k nm] v s wr uf lf ol rl [ef ts lo up] lt pc cc].
  unfold knot_proxy_value_set_basic, check_timeout.
  cbn [config event_flags time_sec last_timeout olen rlen].
  pose proof (u32_range (u32 now)). pose proof (u8_range 1).
  pose proof (u8_range 4).
  destruct (negb (has_flag KNOT_EVT_FLAG_TIME ef));
    [| destruct (u32 (ts * 1000) <=? u32 (u32 now - lt))];
    cbn [schema value_type set_last_timeout];
    destruct k; cbn zeta;
    repeat match goal with
    | |- context [if ?c then _ else _] => destruct c
    end;
    cbn [snd]; intros [= <-]; cbn; intros (? & ? & ? & ? & ?);
    repeat split; lia.
Qed.

Lemma set_string_in_range N now p pvalue len ret p' :
  knot_proxy_value_set_string N now (Some p) pvalue len = Some (ret, Some p') ->
  fields_in_range p -> fields_in_range p'.
Proof.
  unfold fields_in_range.
  destruct p as [i [ti un k nm] v s wr uf lf ol rl [ef ts lo up] lt pc cc].
  unfold knot_proxy_value_set_string, check_timeout.
  cbn [config event_flags time_sec last_timeout olen rlen schema value_type].
  pose proof (u32_range (u32 now)). pose proof (u8_range (MIN N len)).
  destruct (negb (is_raw k)); [intros [= <- <-]; auto |].
  destruct (negb (has_flag KNOT_EVT_FLAG_TIME ef));
    [| destruct (u32 (ts * 1000) <=? u32 (u32 now - lt))];
    cbn [set_last_timeout send];
    (destruct (check_raw_change _ _ _) as [change |]; [| discriminate]);
    repeat match goal with
    | |- context [if ?c then _ else _] => destruct c
    end;
    try discriminate; intros [= <- <-]; cbn; intros (? & ? & ? & ? & ?);
    repeat split; lia.
Qed.

Lemma run_callback_in_range N calls : forall p p',
  run_callback N calls p = Some p' -> fields_in_range p -> fields_in_range p'.
Proof.
  induction calls as [| c calls IH]; intros p p' H Hr.
  - injection H as <-. exact Hr.
  - destruct c as [now pvalue | now pvalue len]; cbn [run_callback] in H.
    + destruct (snd (knot_proxy_value_set_basic now (Some p) pvalue))
        as [q |] eqn:Hq; [| discriminate H].
      eapply IH; [exact H |]. eapply set_basic_in_range; eassumption.
    + destruct (knot_proxy_value_set_string N now (Some p) pvalue len)
        as [[ret [q |]] |] eqn:Hcall; try discriminate H.
      eapply IH; [exact H |]. eapply set_string_in_range; eassumption.
Qed.

(** What a call other than a registration does to the pool. *)
Lemma exec_channel_step N L vs vc c st st' :
  (forall ident name type_id value_type unit changed_cb poll_cb,
     c <> Api_register ident name type_id value_type unit changed_cb poll_cb) ->
  exec N L vs vc c st = Some st' ->
  st' = st \/
  exists i p q, slot st i = Some p /\
                st' = set_slot st i q /\ same_channel p q /\
                (fields_in_range p -> fields_in_range q).
Proof.
  intros Hc H. unfold same_channel.
  destruct c; cbn [exec] in H.
  - exfalso. eapply Hc. reflexivity.
  - destruct (knot_proxy_set_config N vc st (u8 ident) event_args)
      as [[[] st1] |] eqn:Hcfg; try discriminate H; injection H as <-.
    + destruct (set_config_success _ _ _ _ _ _ Hcfg)
        as (p & flags & timeout & lower & upper & Hslot & Hid & Hlt & Hev & ->).
      apply read_events_bounds in Hev as [Hf Ht];
        [| unfold KNOT_EVT_FLAG_NONE; lia | lia].
      right. exists (u8 ident), p. eexists. split; [exact Hslot |].
      split; [reflexivity |]. split; [cbn; auto |].
      unfold fields_in_range. cbn. tauto.
    + destruct (set_config_outcome _ _ _ _ _ _ _ Hcfg)
        as [-> | (p & cfg & Hslot & Hid & Hst)]; [auto |].
      left. unfold knot_proxy_set_config in Hcfg.
      destruct (pool_size st <=? u8 ident); [congruence |].
      rewrite Hslot, Hid, Z.eqb_refl in Hcfg. cbn [negb] in Hcfg.
      destruct (read_events _ _ _ _ _ _); try congruence.
      destruct (vc _ _ _ _ _ =? 0); cbn [negb] in Hcfg; congruence.
  - destruct (deref st handle) as [p |] eqn:Hd; [| discriminate H].
    apply deref_Some in Hd as [Hslot Hid].
    destruct (set_basic_frame now p pvalue)
      as (ret & q & Hcall & Hidq & Hsch & _ & _ & _ & Hpc & Hcc & _).
    pose proof (set_basic_in_range now p pvalue q) as Hrange.
    rewrite Hcall in H, Hrange. injection H as <-.
    right. exists handle, p, q. auto 10.
  - destruct (deref st handle) as [p |] eqn:Hd; [| discriminate H].
    apply deref_Some in Hd as [Hslot Hid].
    destruct (knot_proxy_value_set_string N now (Some p) pvalue len)
      as [[ret [q |]] |] eqn:Hcall; try discriminate H.
    injection H as <-.
    destruct (set_string_frame _ _ _ _ _ _ _ Hcall)
      as (Hidq & Hsch & _ & _ & Hpc & Hcc & _).
    right. exists handle, p, q.
    split; [exact Hslot |]. split; [reflexivity |].
    split; [auto |]. eapply set_string_in_range, Hcall.
  - unfold proxy_read in H.
    destruct (slot st (u8 ident)) as [p |] eqn:Hslot; [| discriminate H].
    destruct (id p =? 255) eqn:Hid; [injection H as <-; auto |].
    destruct (is_null (poll_cb p)); [injection H as <-; auto |].
    destruct (run_callback N poll _) as [q |] eqn:Hcb; [| discriminate H].
    pose proof (run_callback_in_range _ _ _ _ Hcb) as Hrange.
    apply run_callback_frame in Hcb as (Hidq & Hsch & _ & _ & Hpc & Hcc).
    cbn in Hidq, Hsch, Hpc, Hcc.
    apply Z.eqb_neq in Hid.
    right. exists (u8 ident), p, q.
    split; [exact Hslot |].
    split; [destruct (olen q <=? 0); injection H as <-; reflexivity |].
    split; [auto |].
    intros Hr. apply Hrange. unfold fields_in_range in *. cbn.
    pose proof (u8_range 0). tauto.
  - unfold proxy_write in H.
    destruct (last_id st <? u8 ident); [injection H as <-; auto |].
    destruct (slot st (u8 ident)) as [p |] eqn:Hslot; [| discriminate H].
    destruct (id p =? 255) eqn:Hid; [injection H as <-; auto |].
    destruct (is_null (changed_cb p)); [injection H as <-; auto |].
    destruct (run_callback N changed _) as [q |] eqn:Hcb; [| discriminate H].
    pose proof (run_callback_in_range _ _ _ _ Hcb) as Hrange.
    apply run_callback_frame in Hcb as (Hidq & Hsch & _ & _ & Hpc & Hcc).
    apply Z.eqb_neq in Hid. injection H as <-.
    right. exists (u8 ident), p, q.
    split; [exact Hslot |]. split; [reflexivity |].
    split.
    + rewrite Hidq, Hsch, Hpc, Hcc. destruct (is_raw _); cbn; auto.
    + intros Hr. apply Hrange. unfold fields_in_range in *.
      pose proof (u8_range (u8 value_len)).
      destruct (is_raw _); cbn; tauto.
  - unfold proxy_force_send in H.
    destruct (slot st (u8 ident)) as [p |] eqn:Hslot; [| discriminate H].
    destruct (id p =? 255) eqn:Hid; injection H as <-; auto.
    apply Z.eqb_neq in Hid. right. exists (u8 ident), p. eexists.
    split; [exact Hslot |]. split; [reflexivity |].
    split; [cbn; auto | unfold fields_in_range; cbn; tauto].
  - unfold proxy_confirm_sent in H.
    destruct (slot st (u8 ident)) as [p |] eqn:Hslot; [| discriminate H].
    destruct (id p =? 255) eqn:Hid; injection H as <-; auto.
    apply Z.eqb_neq in Hid. right. exists (u8 ident), p. eexists.
    split; [exact Hslot |]. split; [reflexivity |].
    split; [cbn; auto | unfold fields_in_range; cbn; tauto].
Qed.

(** One call, element by element: the pool keeps its elements, a registered
    element stays the same channel and field ranges are kept. *)
Lemma exec_pool_step N L vs vc c st st' :
  exec N L vs vc c st = Some st' ->
  pool_size st' = pool_size st /\
  forall j p, proxy_pool st !! j = Some p ->
    exists p', proxy_pool st' !! j = Some p' /\
               (id p <> 0xff -> same_channel p p') /\
               (fields_in_range p -> fields_in_range p').
Proof.
  intros H.
  assert (Hsame : forall p, same_channel p p) by (unfold same_channel; auto).
  assert (Hset : forall i p q,
    slot st i = Some p -> (id p <> 0xff -> same_channel p q) ->
    (fields_in_range p -> fields_in_range q) ->
    pool_size (set_slot st i q) = pool_size st /\
    forall j p0, proxy_pool st !! j = Some p0 ->
      exists p', proxy_pool (set_slot st i q) !! j = Some p' /\
                 (id p0 <> 0xff -> same_channel p0 p') /\
                 (fields_in_range p0 -> fields_in_range p')).
  { intros i p q Hslot Hch Hr. unfold pool_size, set_slot, slot in *.
    cbn [proxy_pool]. rewrite length_insert. split; [reflexivity |].
    intros j p0 Hj. destruct (decide (Z.to_nat i = j)) as [<- | Hne].
    - rewrite Hslot in Hj. injection Hj as <-. exists q.
      split; [| auto]. apply list_lookup_insert_eq.
      eapply lookup_lt_Some, Hslot.
    - exists p0. rewrite list_lookup_insert_ne by exact Hne. auto. }
  assert (Hrefl : pool_size st = pool_size st /\
    forall j p0, proxy_pool st !! j = Some p0 ->
      exists p', proxy_pool st !! j = Some p' /\
                 (id p0 <> 0xff -> same_channel p0 p') /\
                 (fields_in_range p0 -> fields_in_range p')) by eauto.
  destruct c as [ident nm tid vt un ccb pcb | | | | | | |].
  1:{ cbn [exec] in H. injection H as <-.
      unfold knot_proxy_register.
      destruct (pool_size st <=? u8 ident); [exact Hrefl |].
      destruct (slot st (u8 ident)) as [p |] eqn:Hslot; [| exact Hrefl].
      destruct (id p =? 255) eqn:Hid; cbn [negb]; [| exact Hrefl].
      apply Z.eqb_eq in Hid.
      destruct (negb (vs tid vt un =? 0) || is_null nm); [exact Hrefl |].
      cbn zeta. cbn [snd].
      match goal with
      | |- context [set_slot st (u8 ident) ?q] =>
          destruct (Hset (u8 ident) p q Hslot) as [Hsz Hpool];
            [intros Hne; contradiction
            | unfold fields_in_range; cbn; unfold KNOT_EVT_FLAG_NONE;
              intros (? & ? & ? & ? & ?); repeat split; lia
            |]
      end.
      destruct (_ || _); exact (conj Hsz Hpool). }
  all: apply exec_channel_step in H as [-> | (i & p & q & Hs & -> & Hch & Hr)];
    [exact Hrefl | eapply Hset; eauto | discriminate ..].
Qed.

Lemma run_pool_step N L vs vc calls : forall st st',
  run N L vs vc calls st = Some st' ->
  pool_size st' = pool_size st /\
  forall j p, proxy_pool st !! j = Some p ->
    exists p', proxy_pool st' !! j = Some p' /\
               (id p <> 0xff -> same_channel p p') /\
               (fields_in_range p -> fields_in_range p').
Proof.
  induction calls as [| c calls IH]; intros st st' H.
  - injection H as <-. split; [reflexivity |]. intros j p Hj. exists p.
    unfold same_channel. split; [exact Hj |]. split; [tauto | auto].
  - cbn [run] in H.
    destruct (exec N L vs vc c st) as [st1 |] eqn:Hexec; [| discriminate H].
    apply exec_pool_step in Hexec as [Hsz1 Hp1].
    apply IH in H as [Hsz2 Hp2]. split; [congruence |].
    intros j p Hj. destruct (Hp1 j p Hj) as (p1 & Hj1 & Hch1 & Hr1).
    destruct (Hp2 j p1 Hj1) as (p2 & Hj2 & Hch2 & Hr2).
    exists p2. split; [exact Hj2 |]. split; [| auto].
    intros Hne. destruct (Hch1 Hne) as (Hi & Hs & Hpc & Hcc).
    destruct Hch2 as (Hi2 & Hs2 & Hpc2 & Hcc2); [congruence |].
    unfold same_channel. repeat split; congruence.
Qed.

(** A registered channel is never released or re-described: over any
    sequence of calls that runs to completion the pool keeps its size, and
    an element that carries an identifier keeps it together with its schema
    and both callbacks. *)
Theorem registered_channel_is_permanent N L vs vc calls st st' j p :
  run N L vs vc calls st = Some st' ->
  proxy_pool st !! j = Some p -> id p <> 0xff ->
  pool_size st' = pool_size st /\
  exists p', proxy_pool st' !! j = Some p' /\
             id p' = id p /\ schema p' = schema p /\
             poll_cb p' = poll_cb p /\ changed_cb p' = changed_cb p.
Proof.
  intros H Hj Hne. apply run_pool_step in H as [Hsz Hp].
  split; [exact Hsz |].
  destruct (Hp j p Hj) as (p' & Hj' & Hch & _).
  exists p'. split; [exact Hj' |]. exact (Hch Hne).
Qed.

(** In every state reached from [proxy_init], whatever the calls, the
    integer fields of every pool element hold values of their C types and
    the event flags hold recognised bits only. *)
Theorem reachable_fields_in_range N L vs vc (n : nat) calls st :
  run N L vs vc calls (proxy_init N L (boot N L n)) = Some st ->
  forall j p, proxy_pool st !! j = Some p -> fields_in_range p.
Proof.
  intros H j p Hj. apply run_pool_step in H as [Hsz Hp].
  assert (Hlen : (j < n)%nat).
  { apply lookup_lt_Some in Hj. unfold pool_size, proxy_init, boot in Hsz.
    cbn in Hsz. rewrite !length_replicate in Hsz. lia. }
  destruct (Hp j (set_id 0xff (zero_proxy N L))) as (p' & Hj' & _ & Hr).
  { unfold proxy_init, boot. cbn. rewrite length_replicate.
    apply lookup_replicate. auto. }
  rewrite Hj in Hj'. injection Hj' as <-. apply Hr.
  unfold fields_in_range. cbn. lia.
Qed.

Lemma registered_channel_is_permanent_witness :
  let accept := fun (_ : Z) (_ : knot_value_kind) (_ : Z) => 0 in
  let accept_config :=
    fun (_ : Z) (_ : knot_value_kind) (_ : Z) (_ _ : knot_value_type) => 0 in
  let st :=
    snd (knot_proxy_register 23 accept (proxy_init 16 23 (boot 16 23 3)) 1
           (Some "LED"%string) 5 KNOT_VALUE_TYPE_BOOL 7 (Some 2%nat) (Some 1%nat)) in
  let calls :=
    [Api_register 1 (Some "PLATE"%string) 9 KNOT_VALUE_TYPE_RAW 0 None None;
     Api_set_config 1 [VA_int 1; VA_int 5; VA_int 0];
     Api_read 1 false [Call_set_basic 6000 [1]];
     Api_write 1 [0] 1 [];
     Api_force_send 1;
     Api_confirm_sent 1] in
  exists st' p',
    run 16 23 accept accept_config calls st = Some st' /\
    proxy_pool st' !! 1%nat = Some p' /\
    id p' = 1 /\ value_type (schema p') = KNOT_VALUE_TYPE_BOOL /\
    poll_cb p' = Some 1%nat /\ changed_cb p' = Some 2%nat.
Proof.
  intros accept accept_config st calls.
  destruct (run 16 23 accept accept_config calls st) as [st' |] eqn:Hrun.
  2:{ vm_compute in Hrun. discriminate Hrun. }
  destruct (proxy_pool st !! 1%nat) as [p |] eqn:Hp.
  2:{ vm_compute in Hp. discriminate Hp. }
  assert (Hfields : id p = 1 /\ value_type (schema p) = KNOT_VALUE_TYPE_BOOL /\
                    poll_cb p = Some 1%nat /\ changed_cb p = Some 2%nat).
  { vm_compute in Hp. injection Hp as <-. repeat split. }
  destruct Hfields as (Hid & Hk & Hpc & Hcc).
  destruct (registered_channel_is_permanent 16 23 accept accept_config calls
              st st' 1%nat p Hrun Hp ltac:(lia))
    as (_ & p' & Hp' & Hid' & Hs' & Hpc' & Hcc').
  exists st', p'. split; [reflexivity |]. split; [exact Hp' |].
  rewrite Hid', Hs', Hpc', Hcc'. auto.
Defined.

Lemma reachable_fields_in_range_witness :
  let accept := fun (_ : Z) (_ : knot_value_kind) (_ : Z) => 0 in
  let accept_config :=
    fun (_ : Z) (_ : knot_value_kind) (_ : Z) (_ _ : knot_value_type) => 0 in
  let calls :=
    [Api_register 0 (Some "THERMO"%string) 0 KNOT_VALUE_TYPE_INT 0 (Some 4%nat) (Some 3%nat);
     Api_set_config 0 [VA_int 1; VA_int 70000; VA_int 0];
     Api_read 0 false [Call_set_basic (2 ^ 40 + 6000) (int_obj 1)];
     Api_write 0 (int_obj 2) 300 []] in
  exists st p,
    run 16 23 accept accept_config calls (proxy_init 16 23 (boot 16 23 3)) = Some st /\
    proxy_pool st !! 0%nat = Some p /\ fields_in_range p.
Proof.
  intros accept accept_config calls.
  destruct (run 16 23 accept accept_config calls
              (proxy_init 16 23 (boot 16 23 3))) as [st |] eqn:Hrun.
  2:{ vm_compute in Hrun. discriminate Hrun. }
  destruct (proxy_pool st !! 0%nat) as [p |] eqn:Hp.
  2:{ vm_compute in Hrun. injection Hrun as <-. vm_compute in Hp.
      discriminate Hp. }
  exists st, p. split; [reflexivity |]. split; [exact Hp |].
  exact (reachable_fields_in_range 16 23 accept accept_config 3 calls st
           Hrun 0%nat p Hp).
Defined.

(** ** A free element *)

(** An identifier whose pool element is free is refused by the entry points
    that take an identifier: no schema, nothing to read, [-EINVAL] on a
    delivered value and [false] on a configuration, whatever the arguments,
    and the state is left as it was.  [knot_proxy_set_config] has no test
    for [0xff]: it refuses because the stored identifier differs from the
    index, which needs a pool of at most 255 elements. *)
Theorem free_element_is_refused N vc st i p w poll pvalue value_len changed args :
  pool_size st <= 255 -> 0 <= i ->
  slot st i = Some p -> id p = 0xff ->
  proxy_get_schema st i = Some None /\
  proxy_read N st i w poll = Some (None, st) /\
  proxy_write N st i pvalue value_len changed = Some (- EINVAL, st) /\
  knot_proxy_set_config N vc st i args = Some (false, st).
Proof.
  intros Hsize Hpos Hslot Hid.
  pose proof (slot_Some_range st i p Hpos Hslot) as Hlt.
  split; [unfold proxy_get_schema; rewrite Hslot, Hid; reflexivity |].
  split; [unfold proxy_read; rewrite Hslot, Hid; reflexivity |].
  split.
  - unfold proxy_write. rewrite Hslot, Hid.
    destruct (last_id st <? i); reflexivity.
  - unfold knot_proxy_set_config. rewrite Hslot, Hid.
    destruct (pool_size st <=? i); [reflexivity |].
    destruct (255 =? i) eqn:Hne; [apply Z.eqb_eq in Hne; lia |].
    reflexivity.
Qed.

Lemma free_element_is_refused_witness :
  let accept_config :=
    fun (_ : Z) (_ : knot_value_kind) (_ : Z) (_ _ : knot_value_type) => 0 in
  let st := proxy_init 16 23 (boot 16 23 3) in
  proxy_read 16 st 2 true [Call_set_basic 5 [1]] = Some (None, st) /\
  proxy_write 16 st 2 (int_obj 7) 4 [] = Some (- EINVAL, st) /\
  knot_proxy_set_config 16 accept_config st 2 [VA_int 2; VA_int 0] = Some (false, st).
Proof.
  intros accept_config st.
  destruct (free_element_is_refused 16 accept_config st 2
              (set_id 0xff (zero_proxy 16 23)) true [Call_set_basic 5 [1]]
              (int_obj 7) 4 [] [VA_int 2; VA_int 0])
    as (_ & Hr & Hw & Hc).
  - vm_compute. discriminate.
  - lia.
  - reflexivity.
  - reflexivity.
  - auto.
Defined.
